(** * Smart Research Assistant: a shallow embedding of the agent pipeline

    The development follows the repository file by file:
    - [PyStr]            the Python string operations the agents rely on;
    - [state_schema]     models/state_schema.py and the dictionaries the
                         agents exchange;
    - [validator_agent], [analysis_agent], [search_agent],
      [summarizer_agent], [pdf_utils], [formatter_agent], [main].

    Strings are sequences of code points.  The alphabet is Latin-1
    (U+0000..U+00FF, carried by [ascii]) together with U+2022, the bullet
    that pdf_utils.py matches and prints.  On this alphabet [str.lower],
    [str.isspace], [str.isalnum] and the classes \s, \d, \w of [re] are
    character-wise and are given here by their tables. *)

From Stdlib Require Import Ascii String Arith Lia Bool NArith List.
From Stdlib Require Import Permutation Sorted.
From Stdlib Require DecimalString.
Import ListNotations.

Set Implicit Arguments.

(* ================================================================== *)
(** * Python strings                                                    *)
(* ================================================================== *)

Module PyStr.

Inductive pychar : Type :=
| Latin (a : ascii)
| Bullet.

Definition str := list pychar.

(** The code point of a character. *)
Definition ord (c : pychar) : N :=
  match c with
  | Latin a => N_of_ascii a
  | Bullet => 8226
  end.

Definition chr_eqb (c d : pychar) : bool := N.eqb (ord c) (ord d).

Fixpoint str_eqb (s t : str) : bool :=
  match s, t with
  | [], [] => true
  | c :: s', d :: t' => chr_eqb c d && str_eqb s' t'
  | _, _ => false
  end.

(** A literal of the source text. *)
Definition py (s : string) : str := map Latin (list_ascii_of_string s).

Definition nl : pychar := Latin "010"%char.

Definition between (lo hi n : N) : bool := N.leb lo n && N.leb n hi.

(** [[A-Z]], [[a-z]], [[a-zA-Z]] and [\d] (the only decimal digits of the
    alphabet are 0-9). *)
Definition is_AZ (c : pychar) : bool := between 65 90 (ord c).
Definition is_az (c : pychar) : bool := between 97 122 (ord c).
Definition is_alpha_ascii (c : pychar) : bool := is_AZ c || is_az c.
Definition is_digit (c : pychar) : bool := between 48 57 (ord c).

(** [str.isspace] and [\s]: TAB LF VT FF CR, FS GS RS US, SPACE, NEL, NBSP. *)
Definition isspace (c : pychar) : bool :=
  let n := ord c in
  between 9 13 n || between 28 32 n || N.eqb n 133 || N.eqb n 160.

(** [str.isalnum]: 0-9 A-Z a-z, and in the upper half of Latin-1
    U+00AA, U+00B2-B3, U+00B5, U+00B9-BA, U+00BC-BE, U+00C0-D6, U+00D8-F6,
    U+00F8-FF. *)
Definition isalnum (c : pychar) : bool :=
  let n := ord c in
  between 48 57 n || between 65 90 n || between 97 122 n ||
  N.eqb n 170 || between 178 179 n || N.eqb n 181 || between 185 186 n ||
  between 188 190 n || between 192 214 n || between 216 246 n ||
  between 248 255 n.

(** [\w]: alphanumerics and the underscore. *)
Definition is_word (c : pychar) : bool := isalnum c || N.eqb (ord c) 95.

(** [str.lower] on one character: A-Z and U+00C0..U+00DE except U+00D7
    move up by 32; every other character of the alphabet is unchanged. *)
Definition lower_char (c : pychar) : pychar :=
  match c with
  | Latin a =>
      let n := N_of_ascii a in
      if between 65 90 n || (between 192 222 n && negb (N.eqb n 215))
      then Latin (ascii_of_N (n + 32))
      else c
  | Bullet => Bullet
  end.

Definition lower (s : str) : str := map lower_char s.

(** [str.upper] on an ASCII letter; used by [title] below. *)
Definition upper_ascii (c : pychar) : pychar :=
  match c with
  | Latin a => if is_az c then Latin (ascii_of_N (N_of_ascii a - 32)) else c
  | Bullet => Bullet
  end.

(** [str.title] as the analyzer uses it, on words made of ASCII letters:
    the first letter of every run of letters is upper-cased, the others are
    lower-cased. *)
Fixpoint title_from (prev_cased : bool) (s : str) : str :=
  match s with
  | [] => []
  | c :: s' =>
      if is_alpha_ascii c
      then (if prev_cased then lower_char c else upper_ascii c)
             :: title_from true s'
      else c :: title_from false s'
  end.

Definition title (s : str) : str := title_from false s.

(** [s.lstrip()], [s.rstrip()], [s.strip()]. *)
Fixpoint lstrip (s : str) : str :=
  match s with
  | c :: s' => if isspace c then lstrip s' else s
  | [] => []
  end.

Definition rstrip (s : str) : str := rev (lstrip (rev s)).

Definition strip (s : str) : str := rstrip (lstrip s).

(** [s.startswith(p)]. *)
Fixpoint startswith (s p : str) : bool :=
  match p, s with
  | [], _ => true
  | d :: p', c :: s' => chr_eqb c d && startswith s' p'
  | _ :: _, [] => false
  end.

(** [p in s] for strings. *)
Fixpoint contains (s p : str) : bool :=
  startswith s p ||
  match s with
  | [] => false
  | _ :: s' => contains s' p
  end.

(** [s.split(sep)] for a one-character separator: always at least one
    piece, empty pieces kept. *)
Fixpoint split_char (sep : pychar) (s : str) : list str :=
  match s with
  | [] => [[]]
  | c :: s' =>
      if chr_eqb c sep then [] :: split_char sep s'
      else match split_char sep s' with
           | piece :: rest => (c :: piece) :: rest
           | [] => [[c]]
           end
  end.

(** [s.split()] without argument: the maximal runs of non-space
    characters. *)
Fixpoint split_ws_from (cur : str) (s : str) : list str :=
  match s with
  | [] => match cur with [] => [] | _ => [rev cur] end
  | c :: s' =>
      if isspace c
      then match cur with
           | [] => split_ws_from [] s'
           | _ => rev cur :: split_ws_from [] s'
           end
      else split_ws_from (c :: cur) s'
  end.

Definition split_ws (s : str) : list str := split_ws_from [] s.

(** [sep.join(pieces)]. *)
Fixpoint join (sep : str) (pieces : list str) : str :=
  match pieces with
  | [] => []
  | [p] => p
  | p :: rest => p ++ sep ++ join sep rest
  end.

(** [str(n)] for a non-negative integer. *)
Definition str_of_nat (n : nat) : str :=
  py (DecimalString.NilZero.string_of_uint (Nat.to_uint n)).

(** Truthiness of a string and of a list. *)
Definition truthy {A : Type} (l : list A) : bool :=
  match l with [] => false | _ => true end.

End PyStr.

Import PyStr.

(* ================================================================== *)
(** * models/state_schema.py                                            *)
(* ================================================================== *)

Module state_schema.

(** A document dictionary as the search stage builds it. *)
Record Document : Type := mkDocument {
  doc_id : str;
  doc_title : str;
  doc_url : str;
  doc_snippet : str;
  doc_raw_content : str;
  doc_source_domain : str
}.

(** The dictionary under "analysis_result".  analyze_agent writes two
    shapes: the no-content one carries "summary" and no "content_quality";
    the regular one the reverse. *)
Record AnalysisResult : Type := mkAnalysis {
  keywords : list str;
  themes : list str;
  summary : option str;
  num_sources : nat;
  content_quality : option str
}.

(** The dictionary under "validation_result". *)
Record ValidationResult : Type := mkValidation {
  has_sufficient_sources : bool;
  has_key_themes : bool;
  document_quality : str;
  source_count : nat;
  theme_count : nat;
  recommendations : list str
}.

(** The dictionary under "formatted_report"; "keywords" and
    "validation_score" are absent from the fallback report, "error" from the
    regular one. *)
Record FormattedReport : Type := mkReport {
  report_title : str;
  summary_length : nat;
  key_findings : list str;
  report_keywords : option (list str);
  sources_used : nat;
  validation_status : str;
  validation_score : option str;
  report_error : option str
}.

(** [ResearchState] is a TypedDict with [total=False]: every key may be
    absent.  A node returns a dictionary of the same kind, holding the keys
    it sets. *)
Record ResearchState : Type := mkState {
  topic_query : option str;
  raw_documents : option (list Document);
  analysis_result : option AnalysisResult;
  validation_result : option ValidationResult;
  final_summary : option str;
  formatted_report : option FormattedReport;
  pdf_path : option str
}.

Definition empty_state : ResearchState :=
  mkState None None None None None None None.

(** [d.get(key, default)]. *)
Definition get {A : Type} (field : option A) (default : A) : A :=
  match field with
  | Some v => v
  | None => default
  end.

End state_schema.

Import state_schema.

(* ================================================================== *)
(** * agents/validator_agent.py                                         *)
(* ================================================================== *)

Module validator_agent.

Definition msg_expand_search : str :=
  py "Consider expanding search with more specific terms".
Definition msg_deeper_processing : str :=
  py "Analysis may need deeper processing".
Definition msg_excellent_diversity : str :=
  py "Excellent source diversity".

(** [analysis.get("themes", [])] where [analysis] is
    [state.get("analysis_result", {})]. *)
Definition themes_of (state : ResearchState) : list str :=
  match analysis_result state with
  | Some a => themes a
  | None => []
  end.

(** [validation_results["recommendations"].append(m)]. *)
Definition append_recommendation (v : ValidationResult) (m : str)
  : ValidationResult :=
  mkValidation (has_sufficient_sources v) (has_key_themes v)
               (document_quality v) (source_count v) (theme_count v)
               (recommendations v ++ [m]).

Definition validator_agent (state : ResearchState) : ResearchState :=
  let docs := get (raw_documents state) [] in
  let validation_results :=
    mkValidation
      (3 <=? length docs)
      (0 <? length (themes_of state))
      (if 2 <? length docs then py "good" else py "poor")
      (length docs)
      (length (themes_of state))
      [] in
  let validation_results :=
    if length docs <? 2
    then append_recommendation validation_results msg_expand_search
    else validation_results in
  let validation_results :=
    if negb (truthy (themes_of state))
    then append_recommendation validation_results msg_deeper_processing
    else validation_results in
  let validation_results :=
    if 5 <=? length docs
    then append_recommendation validation_results msg_excellent_diversity
    else validation_results in
  mkState None None None (Some validation_results) None None None.

(** The "validation_result" of the update the node returns. *)
Definition validation_of (state : ResearchState) : ValidationResult :=
  get (validation_result (validator_agent state))
      (mkValidation false false [] 0 0 []).

End validator_agent.

(* ================================================================== *)
(** * Effects: exceptions, the uuid generator, the external services    *)
(* ================================================================== *)

Module reportlab.

(** The paragraph styles of [create_custom_styles], and the two sample
    styles [generate_simple_pdf] takes from [getSampleStyleSheet]. *)
Inductive Style : Type :=
| style_title | style_heading1 | style_heading2 | style_normal | style_bullet
| sample_Heading1 | sample_Heading2 | sample_Normal.

Inductive Flowable : Type :=
| Paragraph (text : str) (style : Style)
| Spacer (width height : nat)
| PageBreak.

End reportlab.

Import reportlab.

Module Effects.

(** The outcome of a Python call: a value or a raised exception, kept as
    its [str(e)]. *)
Inductive Exc (A : Type) : Type :=
| Ok (a : A)
| Raise (msg : str).

Arguments Raise {A} msg.

(** One result dictionary of the Tavily client. *)
Record TavilyResult : Type := mkTavilyResult {
  t_title : option str;
  t_url : option str;
  t_content : option str
}.

(** One element of what the LangChain tool returns: a dictionary, or
    something else (the tool may answer with plain strings). *)
Record LCResult : Type := mkLCResult {
  lc_title : option str;
  lc_url : option str;
  lc_snippet : option str;
  lc_content : option str
}.

Inductive LCItem : Type :=
| LCDict (r : LCResult)
| LCOther.

Inductive Call : Type :=
| CallTavily (query : str) (max_results : nat)
| CallLangChain (query : str) (max_results : nat)
| CallLLM (topic docs_text : str)
| CallMakedirs (path : str)
| CallBuild (filename : str) (story : list Flowable).

(** The services outside the repository.  Each answers or raises.
    - [tavily_search q n]: [Tavily(...).search(query=q, max_results=n)],
      import and construction included; the answer is the value under
      "results", if any;
    - [langchain_tavily q n]: [TavilySearchResults(max_results=n).invoke(q)];
    - [uuid4 k]: [str(uuid.uuid4())] at the k-th draw of the run;
    - [llm_invoke topic docs_text]: [llm.invoke(prompt).content] for the
      prompt [SUMMARIZER_PROMPT.format(topic=..., docs_text=...)], a fixed
      template around the two arguments;
    - [makedirs path before]: [os.makedirs(path, exist_ok=True)] after the
      calls [before], latest first (the file system may have changed in
      between);
    - [paragraph text style]: the markup parser run by the constructor
      [Paragraph(text, style)], which raises on text it cannot parse;
    - [build filename story]: laying out the flowables and writing the file
      ([SimpleDocTemplate(filename, ...).build(story)]);
    - [strftime fmt k]: [datetime.now().strftime(fmt)] at the k-th reading
      of the clock. *)
Record Env : Type := mkEnv {
  tavily_search : str -> nat -> Exc (option (list TavilyResult));
  langchain_tavily : str -> nat -> Exc (list LCItem);
  uuid4 : nat -> str;
  llm_invoke : str -> str -> Exc str;
  makedirs : str -> list Call -> Exc unit;
  paragraph : str -> Style -> Exc unit;
  build : str -> list Flowable -> Exc unit;
  strftime : str -> nat -> str
}.

(** What a run has done so far to the outside: the uuids drawn, the clock
    readings, and the services called, latest first. *)
Record World : Type := mkWorld {
  uuids_drawn : nat;
  clock_reads : nat;
  calls : list Call
}.

Definition Py (A : Type) : Type := World -> Exc A * World.

Definition ret {A : Type} (a : A) : Py A := fun w => (Ok a, w).

Definition bind {A B : Type} (m : Py A) (k : A -> Py B) : Py B :=
  fun w =>
    match m w with
    | (Ok a, w') => k a w'
    | (Raise e, w') => (Raise e, w')
    end.

Definition raise {A : Type} (msg : str) : Py A := fun w => (Raise msg, w).

(** [try: m  except Exception as e: handler e]. *)
Definition try_except {A : Type} (m : Py A) (handler : str -> Py A) : Py A :=
  fun w =>
    match m w with
    | (Ok a, w') => (Ok a, w')
    | (Raise e, w') => handler e w'
    end.

(** Calling a service records the call and yields its outcome. *)
Definition call {A : Type} (c : Call) (outcome : Exc A) : Py A :=
  fun w => (outcome, mkWorld (uuids_drawn w) (clock_reads w) (c :: calls w)).

Definition draw_uuid (env : Env) : Py str :=
  fun w => (Ok (uuid4 env (uuids_drawn w)),
            mkWorld (S (uuids_drawn w)) (clock_reads w) (calls w)).

Definition now_strftime (env : Env) (fmt : str) : Py str :=
  fun w => (Ok (strftime env fmt (clock_reads w)),
            mkWorld (uuids_drawn w) (S (clock_reads w)) (calls w)).

(** [os.makedirs(path, exist_ok=True)]. *)
Definition os_makedirs (env : Env) (path : str) : Py unit :=
  fun w => (makedirs env path (calls w),
            mkWorld (uuids_drawn w) (clock_reads w)
                    (CallMakedirs path :: calls w)).

Definition world0 : World := mkWorld 0 0 [].

(** Code that may raise but leaves the outside world alone. *)
Definition and_then {A B : Type} (m : Exc A) (k : A -> Exc B) : Exc B :=
  match m with
  | Ok a => k a
  | Raise e => Raise e
  end.

Definition lift {A : Type} (m : Exc A) : Py A := fun w => (m, w).

(** Evaluating a constructor call.  A flowable is given by the arguments
    of its constructor; [Paragraph(text, style)] parses its text and may
    raise, the other constructors only store their arguments. *)
Definition construct (env : Env) (item : Flowable) : Exc Flowable :=
  match item with
  | Paragraph text style =>
      match paragraph env text style with
      | Ok _ => Ok item
      | Raise e => Raise e
      end
  | _ => Ok item
  end.

(** A run of [story.append(...)] statements: the flowables are constructed
    in the order written, and the first constructor that raises ends the
    run. *)
Fixpoint construct_all (env : Env) (items : list Flowable)
  : Exc (list Flowable) :=
  match items with
  | [] => Ok []
  | item :: rest =>
      and_then (construct env item) (fun f =>
      and_then (construct_all env rest) (fun fs => Ok (f :: fs)))
  end.

(** [for x in xs: ...], every iteration adding flowables. *)
Fixpoint for_each {A B : Type} (xs : list A) (body : A -> Exc (list B))
  : Exc (list B) :=
  match xs with
  | [] => Ok []
  | x :: rest =>
      and_then (body x) (fun fs =>
      and_then (for_each rest body) (fun gs => Ok (fs ++ gs)))
  end.

End Effects.

Import Effects.

Declare Scope py_scope.
Delimit Scope py_scope with py.
Notation "x <- m ;; k" := (bind m (fun x => k))
  (at level 61, m at next level, right associativity) : py_scope.
Notation "x <~ m ;; k" := (and_then m (fun x => k))
  (at level 61, m at next level, right associativity) : py_scope.
Open Scope py_scope.

(* ================================================================== *)
(** * agents/search_agent.py                                            *)
(* ================================================================== *)

Module search_agent.

Section WithEnv.
Variable env : Env.

(** [url.split("/")[2] if url else "unknown"], for [url] the value of
    [result.get("url", "")]: indexing raises IndexError when the url has
    fewer than two slashes. *)
Definition source_domain_of (url : option str) : Py str :=
  if truthy (get url [])
  then match nth_error (split_char (Latin "/"%char) (get url [])) 2 with
       | Some d => ret d
       | None => raise (py "list index out of range")
       end
  else ret (py "unknown").

(** [str(uuid.uuid4())[:8]]. *)
Definition fresh_id : Py str :=
  u <- draw_uuid env ;; ret (firstn 8 u).

(** The dictionary appended for one result of the Tavily client. *)
Definition primary_document (query : str) (result : TavilyResult)
  : Py Document :=
  id <- fresh_id ;;
  domain <- source_domain_of (t_url result) ;;
  ret (mkDocument id
         (get (t_title result) query)
         (get (t_url result) [])
         (firstn 200 (get (t_content result) []))
         (get (t_content result) [])
         domain).

Fixpoint primary_loop (query : str) (results : list TavilyResult)
  : Py (list Document) :=
  match results with
  | [] => ret []
  | result :: rest =>
      d <- primary_document query result ;;
      ds <- primary_loop query rest ;;
      ret (d :: ds)
  end.

(** The body of the first [try] up to the test [if docs]. *)
Definition primary_tier (query : str) (max_results : nat)
  : Py (list Document) :=
  results <- call (CallTavily query max_results)
                  (tavily_search env query max_results) ;;
  primary_loop query (get results []).

(** The dictionary appended for one dictionary of the LangChain tool. *)
Definition secondary_document (query : str) (result : LCResult)
  : Py Document :=
  id <- fresh_id ;;
  domain <- source_domain_of (lc_url result) ;;
  ret (mkDocument id
         (get (lc_title result) query)
         (get (lc_url result) [])
         (get (lc_snippet result) (firstn 200 (get (lc_content result) [])))
         (get (lc_content result) (get (lc_snippet result) []))
         domain).

Fixpoint secondary_loop (query : str) (results : list LCItem)
  : Py (list Document) :=
  match results with
  | [] => ret []
  | LCDict result :: rest =>
      d <- secondary_document query result ;;
      ds <- secondary_loop query rest ;;
      ret (d :: ds)
  | LCOther :: rest => secondary_loop query rest
  end.

(** The body of the second [try] up to the test [if docs]. *)
Definition secondary_tier (query : str) (max_results : nat)
  : Py (list Document) :=
  results <- call (CallLangChain query max_results)
                  (langchain_tavily env query max_results) ;;
  secondary_loop query results.

(** The final fallback: one simulated document. *)
Definition simulated_document (query : str) : Document :=
  mkDocument
    (py "sim_1")
    (py "Research on " ++ query)
    (py "https://example.com/simulated")
    (py "Simulated content for " ++ query
       ++ py ". Please check your Tavily API key.")
    (py "This is simulated content for the topic: " ++ query
       ++ py ". In a real deployment, this would contain actual research content from web sources.")
    (py "simulated.com").

(** A tier's [try] block: [Some docs] when it reaches [return docs],
    [None] when control falls out of the block, by an empty [docs] or by the
    handler. *)
Definition attempt (tier : Py (list Document)) : Py (option (list Document)) :=
  try_except
    (docs <- tier ;; ret (if truthy docs then Some docs else None))
    (fun _ => ret None).

Definition _tavily_search (query : str) (max_results : nat)
  : Py (list Document) :=
  first <- attempt (primary_tier query max_results) ;;
  match first with
  | Some docs => ret docs
  | None =>
      second <- attempt (secondary_tier query max_results) ;;
      match second with
      | Some docs => ret docs
      | None => ret [simulated_document query]
      end
  end.

Definition search_agent (state : ResearchState) : Py ResearchState :=
  let query := strip (get (topic_query state) []) in
  if negb (truthy query)
  then ret (mkState None (Some []) None None None None None)
  else
    docs <- _tavily_search query 5 ;;
    ret (mkState None (Some docs) None None None None None).

End WithEnv.

End search_agent.

(* ================================================================== *)
(** * agents/analysis_agent.py                                          *)
(* ================================================================== *)

Module analysis_agent.

(** The maximal runs of [\w] characters of a text, in order. *)
Fixpoint word_runs_from (cur : str) (s : str) : list str :=
  match s with
  | [] => match cur with [] => [] | _ => [rev cur] end
  | c :: s' =>
      if is_word c
      then word_runs_from (c :: cur) s'
      else match cur with
           | [] => word_runs_from [] s'
           | _ => rev cur :: word_runs_from [] s'
           end
  end.

Definition word_runs (s : str) : list str := word_runs_from [] s.

(** [re.findall(r"\b[a-zA-Z]{n,}\b", text)].  A match starts at a word
    boundary, takes ASCII letters greedily and must end at a word boundary;
    giving letters back never produces a boundary, so the matches are the
    maximal [\w] runs that consist of at least [n] ASCII letters. *)
Definition findall_alpha (n : nat) (text : str) : list str :=
  filter (fun w => forallb is_alpha_ascii w && (n <=? length w))
         (word_runs text).

(** [w in stop_words]. *)
Definition mem (w : str) (words : list str) : bool :=
  existsb (str_eqb w) words.

(** [collections.Counter]: the counts, keys in first-seen order. *)
Fixpoint count_add (w : str) (counts : list (str * nat)) : list (str * nat) :=
  match counts with
  | [] => [(w, 1)]
  | (k, n) :: rest =>
      if str_eqb k w then (k, S n) :: rest else (k, n) :: count_add w rest
  end.

Definition Counter (words : list str) : list (str * nat) :=
  fold_left (fun counts w => count_add w counts) words [].

(** [Counter.most_common(n)]: ordered by decreasing count, equal counts in
    first-seen order ([sorted(items, key=count, reverse=True)[:n]]). *)
Fixpoint insert_by_count (x : str * nat) (sorted : list (str * nat))
  : list (str * nat) :=
  match sorted with
  | [] => [x]
  | y :: rest =>
      if snd y <=? snd x then x :: y :: rest
      else y :: insert_by_count x rest
  end.

Definition sort_by_count (counts : list (str * nat)) : list (str * nat) :=
  fold_right insert_by_count [] counts.

Definition most_common (n : nat) (counts : list (str * nat))
  : list (str * nat) :=
  firstn n (sort_by_count counts).

Definition base_stop_words : list str :=
  map py ["the"; "and"; "for"; "with"; "that"; "this"; "from"; "have";
          "has"; "been"; "are"; "were"; "their"]%string.

Definition extract_meaningful_themes (texts : list str) (topic : str)
  : list str :=
  let full_text := lower (join (py " ") texts) in
  let topic_words := split_ws (lower topic) in
  let stop_words := base_stop_words ++ topic_words in
  let words := findall_alpha 5 full_text in
  let filtered_words := filter (fun w => negb (mem w stop_words)) words in
  let common_words := most_common 8 (Counter filtered_words) in
  let themes :=
    map (fun wc => title (fst wc))
        (filter (fun wc => 1 <? snd wc) common_words) in
  firstn 5 themes.

Definition analyze_agent (state : ResearchState) : ResearchState :=
  let docs := get (raw_documents state) [] in
  let topic := get (topic_query state) [] in
  let all_texts :=
    map doc_raw_content (filter (fun d => truthy (doc_raw_content d)) docs) in
  if negb (truthy all_texts)
  then mkState None None
         (Some (mkAnalysis [] [] (Some (py "No content to analyze")) 0 None))
         None None None None
  else
    let themes := extract_meaningful_themes all_texts topic in
    let words := findall_alpha 4 (lower (join (py " ") all_texts)) in
    let common_words := most_common 12 (Counter words) in
    let keywords := map fst common_words in
    let analysis :=
      mkAnalysis (firstn 10 keywords) themes None (length docs)
        (Some (if 3 <? length all_texts then py "good" else py "limited")) in
    mkState None None (Some analysis) None None None None.

End analysis_agent.

(* ================================================================== *)
(** * agents/summarizer_agent.py                                        *)
(* ================================================================== *)

Module summarizer_agent.

Section WithEnv.
Variable env : Env.

Definition summarizer_agent (state : ResearchState) : Py ResearchState :=
  let topic := get (topic_query state) [] in
  let docs := get (raw_documents state) [] in
  let docs_text :=
    join [nl; nl]
      (map (fun d => py "Title: " ++ doc_title d ++ [nl]
                     ++ py "Content: " ++ doc_raw_content d) docs) in
  let docs_text_arg :=
    docs_text ++ [nl; nl] ++
    py "Please summarize concisely within 600-700 words with bullet points, include clear points and short paragraphs" in
  summary_text <-
    try_except
      (content <- call (CallLLM topic docs_text_arg)
                       (llm_invoke env topic docs_text_arg) ;;
       ret (strip content))
      (fun _ =>
         ret (py "Topic: " ++ topic ++ [nl] ++
              py "Error generating structured summary. Please check your API configuration or input.")) ;;
  ret (mkState None None None None (Some summary_text) None None).

End WithEnv.

End summarizer_agent.

(* ================================================================== *)
(** * utils/pdf_utils.py                                                *)
(* ================================================================== *)

Module pdf_utils.

Definition star : pychar := Latin "*"%char.
Definition hash : pychar := Latin "#"%char.
Definition dash : pychar := Latin "-"%char.
Definition dot : pychar := Latin "."%char.

(** ** The regular expressions of the module *)

(** [re.sub(r'#+\s*', '', s)].  A match is a run of '#' and the white space
    after it; matches are found left to right, a new one may start where the
    previous one ends. *)
Inductive HashMode : Type := outside | in_hashes | in_spaces.

Fixpoint sub_headers_from (mode : HashMode) (s : str) : str :=
  match s with
  | [] => []
  | c :: s' =>
      if chr_eqb c hash then sub_headers_from in_hashes s'
      else match mode with
           | outside => c :: sub_headers_from outside s'
           | in_hashes | in_spaces =>
               if isspace c then sub_headers_from in_spaces s'
               else c :: sub_headers_from outside s'
           end
  end.

Definition sub_headers (s : str) : str := sub_headers_from outside s.

(** The text up to the nearest closing "**" (resp. "*") on the same line:
    what the lazy group [(.*?)] captures, if the closing marker exists. *)
Fixpoint bold_group (s : str) : option str :=
  match s with
  | [] => None
  | c :: s' =>
      if chr_eqb c star && startswith s' [star] then Some []
      else if chr_eqb c nl then None
      else option_map (cons c) (bold_group s')
  end.

Fixpoint italic_group (s : str) : option str :=
  match s with
  | [] => None
  | c :: s' =>
      if chr_eqb c star then Some []
      else if chr_eqb c nl then None
      else option_map (cons c) (italic_group s')
  end.

(** [re.sub(r'\*\*(.*?)\*\*', r'\1', s)]: [skip] counts the characters of
    the current match still to pass over. *)
Fixpoint sub_bold_from (skip : nat) (s : str) : str :=
  match s with
  | [] => []
  | c :: s' =>
      match skip with
      | S k => sub_bold_from k s'
      | O =>
          if chr_eqb c star && startswith s' [star]
          then match bold_group (tl s') with
               | Some g => g ++ sub_bold_from (length g + 3) s'
               | None => c :: sub_bold_from 0 s'
               end
          else c :: sub_bold_from 0 s'
      end
  end.

Definition sub_bold (s : str) : str := sub_bold_from 0 s.

(** [re.sub(r'\*(.*?)\*', r'\1', s)]. *)
Fixpoint sub_italic_from (skip : nat) (s : str) : str :=
  match s with
  | [] => []
  | c :: s' =>
      match skip with
      | S k => sub_italic_from k s'
      | O =>
          if chr_eqb c star
          then match italic_group s' with
               | Some g => g ++ sub_italic_from (length g + 1) s'
               | None => c :: sub_italic_from 0 s'
               end
          else c :: sub_italic_from 0 s'
      end
  end.

Definition sub_italic (s : str) : str := sub_italic_from 0 s.

(** [s] without its longest prefix of characters satisfying [p]. *)
Fixpoint drop_while (p : pychar -> bool) (s : str) : str :=
  match s with
  | c :: s' => if p c then drop_while p s' else s
  | [] => []
  end.

(** What follows a match of [^\d+\.] at the start of [s], if there is one. *)
Definition after_number_dot (s : str) : option str :=
  match s with
  | c :: _ =>
      if is_digit c
      then match drop_while is_digit s with
           | d :: rest => if chr_eqb d dot then Some rest else None
           | [] => None
           end
      else None
  | [] => None
  end.

(** [re.match(r'^\d+\.', s)]. *)
Definition match_number_dot (s : str) : bool :=
  match after_number_dot s with Some _ => true | None => false end.

(** [re.match(r'^\d+\.\s+[A-Z]', s)]. *)
Definition match_numbered_heading (s : str) : bool :=
  match after_number_dot s with
  | Some (c :: rest) =>
      isspace c &&
      match drop_while isspace rest with
      | d :: _ => is_AZ d
      | [] => false
      end
  | _ => false
  end.

(** [re.match(r'^[A-Z][a-z]+(?:\s+[A-Z][a-z]+)*\s*$', s)]: capitalised
    words separated by white space.  The classes are disjoint, so the match
    is a scan: [want_capital] at the start of a word, [want_lower] after its
    capital, [in_word] once a lower-case letter is read, [in_gap] in the
    white space after a word. *)
Inductive TitleMode : Type := want_capital | want_lower | in_word | in_gap.

Fixpoint match_title_from (mode : TitleMode) (s : str) : bool :=
  match s with
  | [] => match mode with
          | in_word | in_gap => true
          | want_capital | want_lower => false
          end
  | c :: s' =>
      match mode with
      | want_capital => is_AZ c && match_title_from want_lower s'
      | want_lower => is_az c && match_title_from in_word s'
      | in_word =>
          if is_az c then match_title_from in_word s'
          else isspace c && match_title_from in_gap s'
      | in_gap =>
          if isspace c then match_title_from in_gap s'
          else is_AZ c && match_title_from want_lower s'
      end
  end.

Definition match_title_case (s : str) : bool :=
  match_title_from want_capital s.

(** [re.match(r'^\*\s', s)]. *)
Definition match_star_space (s : str) : bool :=
  match s with
  | c :: d :: _ => chr_eqb c star && isspace d
  | _ => false
  end.

(** [s.startswith(('•', '*', '-'))]; also the class [[•*\-]]. *)
Definition is_bullet_char (c : pychar) : bool :=
  chr_eqb c Bullet || chr_eqb c star || chr_eqb c dash.

Definition starts_with_bullet (s : str) : bool :=
  match s with
  | c :: _ => is_bullet_char c
  | [] => false
  end.

(** [re.sub(r'^[•*\-]\s*', '', s)]. *)
Definition sub_leading_bullet (s : str) : str :=
  match s with
  | c :: rest => if is_bullet_char c then drop_while isspace rest else s
  | [] => []
  end.

(** [re.sub(r'^\d+\.\s*', '', s)]. *)
Definition sub_leading_number (s : str) : str :=
  match after_number_dot s with
  | Some rest => drop_while isspace rest
  | None => s
  end.

(** [re.sub(r'^\*\s', '', s)]. *)
Definition sub_leading_star_space (s : str) : str :=
  match s with
  | c :: d :: rest => if chr_eqb c star && isspace d then rest else s
  | _ => s
  end.

(** [re.sub(r'\s+', ' ', s)]. *)
Fixpoint collapse_spaces_from (in_run : bool) (s : str) : str :=
  match s with
  | [] => []
  | c :: s' =>
      if isspace c
      then (if in_run then collapse_spaces_from true s'
            else Latin " "%char :: collapse_spaces_from true s')
      else c :: collapse_spaces_from false s'
  end.

Definition collapse_spaces (s : str) : str := collapse_spaces_from false s.

(** [s.split(sep)] for a separator of several characters. *)
Fixpoint split_str_from (sep : str) (skip : nat) (cur : str) (s : str)
  : list str :=
  match s with
  | [] => [rev cur]
  | c :: s' =>
      match skip with
      | S k => split_str_from sep k cur s'
      | O =>
          if startswith s sep
          then rev cur :: split_str_from sep (length sep - 1) [] s'
          else split_str_from sep 0 (c :: cur) s'
      end
  end.

Definition split_str (sep : str) (s : str) : list str :=
  split_str_from sep 0 [] s.

(** ** clean_summary_text *)

(** A section dictionary.  The initial [current_section] has no "number"
    key; the ones opened by a header carry the running counter. *)
Record SectionDict : Type := mkSection {
  sec_title : str;
  sec_content : list str;
  sec_original_title : str;
  sec_number : option nat
}.

Definition header_keywords : list str :=
  map py ["introduction"; "methodology"; "approach"; "key insights";
          "challenges"; "research gaps"; "real-world applications";
          "future scope"; "opportunities"; "conclusion"; "references";
          "summary"; "analysis"; "results"; "discussion"; "applications";
          "research summary"]%string.

Definition is_header (line : str) : bool :=
  match_numbered_heading line ||
  match_title_case line ||
  existsb (fun keyword => contains (lower line) keyword) header_keywords.

(** The variables of the loop. *)
Record Structurer : Type := mkStructurer {
  sections : list SectionDict;
  current_section : SectionDict;
  section_counter : nat
}.

(** [current_section["title"] or current_section["content"]]. *)
Definition has_title_or_content (sec : SectionDict) : bool :=
  truthy (sec_title sec) || truthy (sec_content sec).

(** [sections.append(current_section)], guarded. *)
Definition save_section (acc : list SectionDict) (sec : SectionDict)
  : list SectionDict :=
  if has_title_or_content sec then acc ++ [sec] else acc.

(** One iteration of [for line in lines]. *)
Definition structure_line (st : Structurer) (raw_line : str) : Structurer :=
  let line := strip raw_line in
  if negb (truthy line) then st
  else if is_header line && (length line <? 100)
  then mkStructurer
         (save_section (sections st) (current_section st))
         (mkSection line [] line (Some (S (section_counter st))))
         (S (section_counter st))
  else mkStructurer
         (sections st)
         (mkSection (sec_title (current_section st))
                    (sec_content (current_section st) ++ [line])
                    (sec_original_title (current_section st))
                    (sec_number (current_section st)))
         (section_counter st).

Definition clean_summary_text (summary : str) : list SectionDict :=
  let cleaned_summary := sub_headers summary in
  let lines := split_char nl cleaned_summary in
  let st := fold_left structure_line lines
              (mkStructurer [] (mkSection [] [] [] None) 0) in
  save_section (sections st) (current_section st).

(** ** format_bullet_points and extract_bullet_content *)

(** The three substitutions both functions apply to a line. *)
Definition strip_markdown (line : str) : str :=
  sub_headers (sub_italic (sub_bold line)).

Definition is_bullet_line (clean_line : str) : bool :=
  starts_with_bullet clean_line ||
  match_number_dot clean_line ||
  match_star_space clean_line.

Definition strip_bullet_marker (clean_line : str) : str :=
  sub_leading_star_space (sub_leading_number (sub_leading_bullet clean_line)).

Definition bullet_text : str := [Bullet; Latin " "%char].

Definition extract_line (raw_line : str) : list str :=
  let line := strip raw_line in
  let clean_line := strip_markdown line in
  if is_bullet_line clean_line
  then
    let final_line := strip_bullet_marker clean_line in
    if truthy (strip final_line) then [strip final_line] else []
  else [].

Definition extract_bullet_content (text : str) : list str :=
  flat_map extract_line (split_char nl text).

(** The two substitutions and the [strip] that clean a section title. *)
Definition clean_title_of (title : str) : str :=
  strip (collapse_spaces (sub_leading_number title)).

Definition indent16 : str := py "                ".

(** [c.isalnum() or c in (' ', '-', '_')]. *)
Definition is_safe_char (c : pychar) : bool :=
  isalnum c || chr_eqb c (Latin " "%char) || chr_eqb c dash
  || chr_eqb c (Latin "_"%char).

Definition safe_topic_of (topic : str) : str :=
  rstrip (filter is_safe_char topic).

Section WithEnv.
Variable env : Env.

(** One iteration of the loop of [format_bullet_points]: the paragraph
    appended for a line, if any. *)
Definition format_line (raw_line : str) : Exc (list Flowable) :=
  let line := strip raw_line in
  if negb (truthy line) then Ok []
  else
    let clean_line := strip_markdown line in
    if negb (truthy (strip clean_line)) then Ok []
    else if is_bullet_line clean_line
    then
      let final_line := strip_bullet_marker clean_line in
      if truthy (strip final_line)
      then construct_all env
             [Paragraph (bullet_text ++ strip final_line) style_bullet]
      else Ok []
    else
      if truthy (strip clean_line)
      then construct_all env [Paragraph (strip clean_line) style_normal]
      else Ok [].

Definition format_bullet_points (text : str) : Exc (list Flowable) :=
  for_each (split_char nl text) format_line.

(** ** generate_pdf *)

(** The flowables of one structured section, in the loop of the executive
    summary; [continue] leaves the section without any. *)
Definition render_section (section : SectionDict) : Exc (list Flowable) :=
  let title := strip (sec_title section) in
  let content := sec_content section in
  let section_number := get (sec_number section) 0 in
  let clean_title := clean_title_of title in
  if truthy title
     && contains (lower clean_title) (py "research summary")
     && (section_number =? 1)
  then Ok []
  else
    heading <~ (if truthy title
                then
                  let numbered_title :=
                    if 0 <? section_number
                    then str_of_nat section_number ++ py ". " ++ clean_title
                    else clean_title in
                  construct_all env
                    [Paragraph numbered_title style_heading2; Spacer 1 8]
                else Ok []) ;;
    body <~ (if truthy content
             then
               let combined_content := join (py " ") content in
               let bullets := extract_bullet_content combined_content in
               if truthy bullets
               then for_each bullets (fun bullet =>
                      construct_all env
                        [Paragraph (bullet_text ++ bullet) style_bullet;
                         Spacer 1 2])
               else
                 paragraphs <~ format_bullet_points combined_content ;;
                 Ok (flat_map (fun para => [para; Spacer 1 3]) paragraphs)
             else Ok []) ;;
    Ok (heading ++ body ++ [Spacer 1 10]).

(** The cover page, up to the reading of the clock for the date line, and
    from the date line on. *)
Definition cover_title (topic : str) : Exc (list Flowable) :=
  construct_all env
    [Paragraph (py "Research Report") style_title;
     Spacer 1 20;
     Paragraph topic style_title;
     Spacer 1 40].

Definition cover_date (date_str : str) : Exc (list Flowable) :=
  construct_all env
    [Paragraph date_str style_normal;
     Paragraph (py "Smart Research Assistant - LangGraph Multi-Agent System")
               style_normal;
     PageBreak].

Definition quality_assessment (validation : option ValidationResult)
  : Exc (list Flowable) :=
  construct_all env
    ([Paragraph (py "Research Quality Assessment") style_heading1;
      Spacer 1 15]
     ++ match validation with
        | Some v =>
            let metrics :=
              [py "<b>Source Quality:</b> " ++ document_quality v;
               py "<b>Sources Analyzed:</b> " ++ str_of_nat (source_count v);
               py "<b>Themes Identified:</b> " ++ str_of_nat (theme_count v);
               py "<b>Sufficient Sources:</b> "
                 ++ (if has_sufficient_sources v then py "Yes" else py "No")]
            in
            flat_map (fun metric => [Paragraph metric style_normal;
                                     Spacer 1 5]) metrics
            ++ [Spacer 1 10; Paragraph (py "Recommendations:") style_heading2]
            ++ map (fun rec => Paragraph (bullet_text ++ rec) style_bullet)
                   (recommendations v)
        | None => []
        end
     ++ [PageBreak]).

Definition analysis_results (analysis : option AnalysisResult)
  : Exc (list Flowable) :=
  construct_all env
    ([Paragraph (py "Analysis Results") style_heading1; Spacer 1 15]
     ++ match analysis with
        | Some a =>
            [Paragraph (py "Key Themes Identified:") style_heading2]
            ++ map (fun theme => Paragraph (bullet_text ++ theme) style_bullet)
                   (firstn 8 (themes a))
            ++ [Spacer 1 15; Paragraph (py "Top Keywords:") style_heading2;
                Paragraph (join (py ", ") (firstn 12 (keywords a)))
                          style_normal]
        | None => []
        end
     ++ [PageBreak]).

Definition executive_summary (summary : str) : Exc (list Flowable) :=
  heading <~ construct_all env
               [Paragraph (py "Executive Summary") style_heading1;
                Spacer 1 15] ;;
  body <~ for_each (clean_summary_text summary) render_section ;;
  Ok (heading ++ body).

Definition reference_source (i : nat) (doc : Document)
  : Exc (list Flowable) :=
  let clean_snippet := strip_markdown (doc_snippet doc) in
  let clean_snippet :=
    if 150 <? length clean_snippet
    then firstn 150 clean_snippet ++ py "..."
    else clean_snippet in
  let source_text :=
    [nl] ++ indent16 ++ py "<b>Source " ++ str_of_nat i ++ py ": "
         ++ doc_title doc ++ py "</b><br/>" ++
    [nl] ++ indent16 ++ py "<i>Domain: " ++ doc_source_domain doc
         ++ py "</i><br/>" ++
    [nl] ++ indent16 ++ clean_snippet ++
    [nl] ++ indent16 in
  construct_all env [Paragraph source_text style_normal; Spacer 1 12].

(** [for i, doc in enumerate(documents, i)]. *)
Fixpoint reference_loop (i : nat) (documents : list Document)
  : Exc (list Flowable) :=
  match documents with
  | [] => Ok []
  | doc :: rest =>
      source <~ reference_source i doc ;;
      others <~ reference_loop (S i) rest ;;
      Ok (source ++ others)
  end.

Definition reference_sources (documents : list Document)
  : Exc (list Flowable) :=
  if truthy documents
  then
    heading <~ construct_all env
                 [PageBreak;
                  Paragraph (py "Reference Sources") style_heading1;
                  Spacer 1 15] ;;
    sources <~ reference_loop 1 documents ;;
    Ok (heading ++ sources)
  else Ok [].

(** The story of the simple report: the statements between the file name
    and [doc.build(story)]. *)
Definition simple_story (topic summary : str) : Py (list Flowable) :=
  heading <- lift (construct_all env
                     [Paragraph (py "Research Report: " ++ topic)
                                sample_Heading1;
                      Spacer 1 20]) ;;
  date <- now_strftime env (py "%B %d, %Y at %H:%M") ;;
  let clean_summary := strip_markdown summary in
  let paragraphs := split_str [nl; nl] clean_summary in
  body <- lift (construct_all env
                  ([Paragraph (py "Generated on: " ++ date) sample_Normal;
                    Spacer 1 30;
                    Paragraph (py "Executive Summary") sample_Heading2;
                    Spacer 1 15]
                   ++ flat_map (fun para =>
                                  if truthy (strip para)
                                  then [Paragraph (strip para) sample_Normal;
                                        Spacer 1 10]
                                  else []) paragraphs)) ;;
  ret (heading ++ body).

(** What may raise inside the [try] is the outside: the directory, the
    markup parser behind every [Paragraph(...)], and the renderer.  The
    messages printed on the way are not modelled. *)
Definition generate_simple_pdf (topic summary : str) : Py str :=
  try_except
    (_ <- os_makedirs env (py "outputs") ;;
     timestamp <- now_strftime env (py "%Y%m%d_%H%M%S") ;;
     let filename :=
       py "outputs/Research_Report_" ++ safe_topic_of topic ++ py "_"
          ++ timestamp ++ py ".pdf" in
     story <- simple_story topic summary ;;
     _ <- call (CallBuild filename story) (build env filename story) ;;
     ret filename)
    (fun _ => ret []).

(** The story of the full report: the statements between the file name and
    [pdf_doc.build(story)]. *)
Definition full_story (topic summary : str)
    (analysis : option AnalysisResult) (documents : list Document)
    (validation : option ValidationResult) : Py (list Flowable) :=
  cover <- lift (cover_title topic) ;;
  date <- now_strftime env (py "%B %d, %Y at %H:%M") ;;
  dated <- lift (cover_date (py "Generated on: " ++ date)) ;;
  quality <- lift (quality_assessment validation) ;;
  results <- lift (analysis_results analysis) ;;
  narrative <- lift (executive_summary summary) ;;
  references <- lift (reference_sources documents) ;;
  ret (cover ++ dated ++ quality ++ results ++ narrative ++ references).

Definition generate_pdf (topic summary : str)
    (analysis : option AnalysisResult) (documents : list Document)
    (validation : option ValidationResult) : Py str :=
  try_except
    (_ <- os_makedirs env (py "outputs") ;;
     timestamp <- now_strftime env (py "%Y%m%d_%H%M%S") ;;
     let safe_topic := firstn 50 (safe_topic_of topic) in
     let filename :=
       py "outputs/Research_Report_" ++ safe_topic ++ py "_"
          ++ timestamp ++ py ".pdf" in
     story <- full_story topic summary analysis documents validation ;;
     _ <- call (CallBuild filename story) (build env filename story) ;;
     ret filename)
    (fun _ => generate_simple_pdf topic summary).

End WithEnv.

End pdf_utils.

(* ================================================================== *)
(** * agents/formatter_agent.py                                         *)
(* ================================================================== *)

Module formatter_agent.

Section WithEnv.
Variable env : Env.

(** [state.get("analysis_result", {}).get("themes", [])] and the like. *)
Definition themes_or_empty (analysis : option AnalysisResult) : list str :=
  match analysis with Some a => themes a | None => [] end.

Definition keywords_or_empty (analysis : option AnalysisResult) : list str :=
  match analysis with Some a => keywords a | None => [] end.

Definition formatter_agent (state : ResearchState) : Py ResearchState :=
  try_except
    (let topic := get (topic_query state) [] in
     let summary := get (final_summary state) [] in
     let analysis := analysis_result state in
     let docs := get (raw_documents state) [] in
     let validation := validation_result state in
     pdf_path <- pdf_utils.generate_pdf env topic summary analysis docs
                   validation ;;
     ret (mkState None None None None None
            (Some (mkReport
                     (py "Research Report: " ++ topic)
                     (length summary)
                     (themes_or_empty analysis)
                     (Some (firstn 10 (keywords_or_empty analysis)))
                     (length docs)
                     (match validation with
                      | Some v => document_quality v
                      | None => py "unknown"
                      end)
                     (Some (match validation with
                            | Some v => if has_sufficient_sources v
                                        then py "High" else py "Medium"
                            | None => py "Medium"
                            end))
                     None))
            (Some pdf_path)))
    (fun e =>
       ret (mkState None None None None None
              (Some (mkReport
                       (py "Research Report: " ++ get (topic_query state) [])
                       (length (get (final_summary state) []))
                       (themes_or_empty (analysis_result state))
                       None
                       (length (get (raw_documents state) []))
                       (py "error")
                       None
                       (Some (py "PDF generation failed: " ++ e))))
              (Some []))).

End WithEnv.

End formatter_agent.

(* ================================================================== *)
(** * main.py                                                           *)
(* ================================================================== *)

Module main.

(** The nodes of the graph and its terminal marker. *)
Inductive Node : Type :=
| search_node | analyze_node | validator_node | summarize_node
| formatter_node | END.

(** [set_entry_point] and the five [add_edge] calls. *)
Definition entry_point : Node := search_node.

Definition edge (n : Node) : Node :=
  match n with
  | search_node => analyze_node
  | analyze_node => validator_node
  | validator_node => summarize_node
  | summarize_node => formatter_node
  | formatter_node => END
  | END => END
  end.

(** A node's returned dictionary updates the state key by key. *)
Definition merge (state update : ResearchState) : ResearchState :=
  let pick {A : Type} (new old : option A) : option A :=
    match new with Some _ => new | None => old end in
  mkState
    (pick (topic_query update) (topic_query state))
    (pick (raw_documents update) (raw_documents state))
    (pick (analysis_result update) (analysis_result state))
    (pick (validation_result update) (validation_result state))
    (pick (final_summary update) (final_summary state))
    (pick (formatted_report update) (formatted_report state))
    (pick (pdf_path update) (pdf_path state)).

Section WithEnv.
Variable env : Env.

(** [add_node]: the function behind each node. *)
Definition node_function (n : Node) (state : ResearchState)
  : Py ResearchState :=
  match n with
  | search_node => search_agent.search_agent env state
  | analyze_node => ret (analysis_agent.analyze_agent state)
  | validator_node => ret (validator_agent.validator_agent state)
  | summarize_node => summarizer_agent.summarizer_agent env state
  | formatter_node => formatter_agent.formatter_agent env state
  | END => ret empty_state
  end.

(** One superstep: run the node, merge its update, follow the edge.  An
    exception leaving a node ends the run. *)
Definition step (n : Node) (state : ResearchState)
  : Py (Node * ResearchState) :=
  update <- node_function n state ;;
  ret (edge n, merge state update).

(** The graph run for at most [fuel] supersteps from node [n]. *)
Fixpoint run_from (fuel : nat) (n : Node) (state : ResearchState)
  : Py (Node * ResearchState) :=
  match n, fuel with
  | END, _ => ret (END, state)
  | _, O => ret (n, state)
  | _, S fuel' =>
      next <- step n state ;;
      run_from fuel' (fst next) (snd next)
  end.

(** [app.invoke({"topic_query": topic_query}, config)]. *)
Definition run_research_workflow (fuel : nat) (topic : str)
  : Py (Node * ResearchState) :=
  run_from fuel entry_point
    (mkState (Some topic) None None None None None None).

End WithEnv.

End main.

(* ================================================================== *)
(** * Statements of the design document, and sample runs               *)
(* ================================================================== *)

Module Design.

Import validator_agent analysis_agent search_agent pdf_utils.
Import formatter_agent main.

(** The recommendations as the design lists them: the messages whose
    condition holds, in the fixed order expand-search, deeper-processing,
    excellent-diversity, for [d] documents and [t] themes. *)
Definition listed_recommendations (d t : nat) : list str :=
  (if d <? 2 then [msg_expand_search] else [])
  ++ (if t =? 0 then [msg_deeper_processing] else [])
  ++ (if 5 <=? d then [msg_excellent_diversity] else []).

(** Equality up to case, as the analyzer compares words: the lower-cased
    strings coincide. *)
Definition same_ignoring_case (s t : str) : Prop := lower s = lower t.

(** An outside world in which every service raises. *)
Definition services_down : Env :=
  mkEnv (fun _ _ => Raise (py "connection refused"))
        (fun _ _ => Raise (py "connection refused"))
        (fun _ => py "1b4e28ba-2fa1-11d2-883f-0016d3cca427")
        (fun _ _ => Raise (py "connection refused"))
        (fun _ _ => Ok tt)
        (fun _ _ => Ok tt)
        (fun _ _ => Raise (py "cannot write file"))
        (fun _ _ => py "20240101_120000").

Definition a_document (content : str) : Document :=
  mkDocument (py "1b4e28ba") (py "A title") (py "https://example.com/a")
             (firstn 200 content) content (py "example.com").

Definition state_with_topic (topic : str) : ResearchState :=
  mkState (Some topic) None None None None None None.

(** A tier of the search fails when, whatever was done before, it raises
    or ends with no document. *)
Definition tier_fails (tier : Py (list Document)) : Prop :=
  forall w, match fst (tier w) with
            | Raise _ => True
            | Ok docs => docs = []
            end.

(** The update a search node returns: "raw_documents" only. *)
Definition documents_update (docs : list Document) : ResearchState :=
  mkState None (Some docs) None None None None None.

(** The updates of the summarize and format nodes. *)
Definition summary_update (text : str) : ResearchState :=
  mkState None None None None (Some text) None None.

Definition report_update (report : FormattedReport) (path : str)
  : ResearchState :=
  mkState None None None None None (Some report) (Some path).

(** The report [formatter_agent] builds when [generate_pdf] returns. *)
Definition regular_report (state : ResearchState) : FormattedReport :=
  mkReport
    (py "Research Report: " ++ get (topic_query state) [])
    (length (get (final_summary state) []))
    (themes_or_empty (analysis_result state))
    (Some (firstn 10 (keywords_or_empty (analysis_result state))))
    (length (get (raw_documents state) []))
    (match validation_result state with
     | Some v => document_quality v
     | None => py "unknown"
     end)
    (Some (match validation_result state with
           | Some v => if has_sufficient_sources v
                       then py "High" else py "Medium"
           | None => py "Medium"
           end))
    None.

(** The renderer is down: [build] raises on every document. *)
Definition build_always_raises (env : Env) : Prop :=
  forall filename story, exists e, build env filename story = Raise e.

(** The states a run goes through, given the documents the search found,
    the text the summarizer produced and the path the formatter got. *)
Definition after_search (topic : str) (docs : list Document) : ResearchState :=
  merge (state_with_topic topic) (documents_update docs).

Definition after_analyze (topic : str) (docs : list Document)
  : ResearchState :=
  merge (after_search topic docs) (analyze_agent (after_search topic docs)).

Definition after_validate (topic : str) (docs : list Document)
  : ResearchState :=
  merge (after_analyze topic docs) (validator_agent (after_analyze topic docs)).

Definition after_summarize (topic : str) (docs : list Document) (text : str)
  : ResearchState :=
  merge (after_validate topic docs) (summary_update text).

Definition after_format (topic : str) (docs : list Document) (text path : str)
  : ResearchState :=
  merge (after_summarize topic docs text)
        (report_update (regular_report (after_summarize topic docs text))
                       path).

(** The bound the data model gives for snippets. *)
Definition snippets_bounded (docs : list Document) : Prop :=
  Forall (fun d => length (doc_snippet d) <= 200) docs.

(** The primary service answers with one long result. *)
Definition tavily_up : Env :=
  mkEnv (fun _ _ =>
           Ok (Some [mkTavilyResult (Some (py "A title"))
                       (Some (py "https://example.com/a"))
                       (Some (repeat (Latin "x"%char) 300))]))
        (fun _ _ => Raise (py "connection refused"))
        (fun _ => py "1b4e28ba-2fa1-11d2-883f-0016d3cca427")
        (fun _ _ => Raise (py "connection refused"))
        (fun _ _ => Ok tt)
        (fun _ _ => Ok tt)
        (fun _ _ => Raise (py "cannot write file"))
        (fun _ _ => py "20240101_120000").

(** Only the secondary service answers, with a snippet of its own of 201
    characters. *)
Definition langchain_up : Env :=
  mkEnv (fun _ _ => Raise (py "connection refused"))
        (fun _ _ =>
           Ok [LCDict (mkLCResult (Some (py "A title"))
                         (Some (py "https://example.com/a"))
                         (Some (repeat (Latin "x"%char) 201))
                         (Some (py "short content")))])
        (fun _ => py "1b4e28ba-2fa1-11d2-883f-0016d3cca427")
        (fun _ _ => Raise (py "connection refused"))
        (fun _ _ => Ok tt)
        (fun _ _ => Ok tt)
        (fun _ _ => Raise (py "cannot write file"))
        (fun _ _ => py "20240101_120000").

(** [s] with every "|" standing for a line feed. *)
Definition lines_of (s : string) : str :=
  map (fun c => if chr_eqb c (Latin "|"%char) then nl else c) (py s).

(** The narrative of the round-trip test of the design. *)
Definition round_trip_input : str :=
  lines_of "# Introduction|This is text.|# Conclusion|- point one|- point two".

(** A narrative whose first heading contains, but is not, "Research
    Summary". *)
Definition summary_heading_input : str :=
  lines_of "Research Summary: Quantum Computing|Qubits are fragile.".

(** The first section is skipped, as the design states it: exactly when its
    cleaned title is "research summary" up to case. *)
Definition skipped_as_designed (env : Env) (section : SectionDict) : Prop :=
  render_section env section = Ok []
  <-> (sec_number section = Some 1
       /\ same_ignoring_case (clean_title_of (strip (sec_title section)))
                             (py "research summary")).


(** A text laid out as prose: one paragraph in the normal style that holds
    the text, stripped and without its markdown emphasis, followed by its
    spacer.  Nothing is laid out for a text of which nothing is left, or
    which is a bare list marker such as "-". *)
Definition prose_paragraph (text : str) : list Flowable :=
  let shown := strip_markdown (strip text) in
  if truthy (strip shown) && negb (is_bullet_line shown)
  then [Paragraph (strip shown) style_normal; Spacer 1 3]
  else [].

(** The body of a section as laid out from its content joined into one
    line: the bullet found on the line, or else the line as prose. *)
Definition section_body (text : str) : list Flowable :=
  match extract_bullet_content text with
  | [] => prose_paragraph text
  | bullets =>
      flat_map (fun bullet => [Paragraph (bullet_text ++ bullet) style_bullet;
                               Spacer 1 2]) bullets
  end.

(** The lines [clean_summary_text] classifies: those of the text without
    its '#' markers, stripped, the blank ones left out. *)
Definition body_lines (summary : str) : list str :=
  filter truthy (map strip (split_char nl (sub_headers summary))).




End Design.

Import Design.

(* ================================================================== *)
(** * Vocabulary for the further properties                             *)
(* ================================================================== *)

Module Observations.

Import validator_agent analysis_agent search_agent pdf_utils.
Import formatter_agent main.

Definition slash : pychar := Latin "/"%char.

(** The number of '/' in a url. *)
Definition slashes (url : str) : nat :=
  length (filter (fun c => chr_eqb c slash) url).

(** The dictionaries among the elements the LangChain tool returned. *)
Definition dicts_of (items : list LCItem) : list LCResult :=
  flat_map (fun item => match item with
                        | LCDict r => [r]
                        | LCOther => []
                        end) items.

(** [str(e)] of the IndexError raised by [url.split("/")[2]]. *)
Definition index_error : str := py "list index out of range".

(** The identifier made from the k-th uuid of the run. *)
Definition id_of_draw (env : Env) (k : nat) : str := firstn 8 (uuid4 env k).

(** The Tavily client answers with one good result and one whose url has
    no slash at all. *)
Definition tavily_bad_url : Env :=
  mkEnv (fun _ _ =>
           Ok (Some [mkTavilyResult (Some (py "A title"))
                       (Some (py "https://example.com/a"))
                       (Some (py "Some content."));
                     mkTavilyResult (Some (py "Another title"))
                       (Some (py "example.com"))
                       (Some (py "Other content."))]))
        (fun _ _ => Raise (py "connection refused"))
        (fun _ => py "1b4e28ba-2fa1-11d2-883f-0016d3cca427")
        (fun _ _ => Raise (py "connection refused"))
        (fun _ _ => Ok tt)
        (fun _ _ => Ok tt)
        (fun _ _ => Raise (py "cannot write file"))
        (fun _ _ => py "20240101_120000").

(** How a document follows from a result of the Tavily client, and from a
    dictionary of the LangChain tool, the id apart. *)
Definition from_tavily (query : str) (r : TavilyResult) (d : Document)
  : Prop :=
  doc_title d = get (t_title r) query
  /\ doc_url d = get (t_url r) []
  /\ doc_snippet d = firstn 200 (get (t_content r) [])
  /\ doc_raw_content d = get (t_content r) [].

Definition from_langchain (query : str) (r : LCResult) (d : Document)
  : Prop :=
  doc_title d = get (lc_title r) query
  /\ doc_url d = get (lc_url r) []
  /\ doc_snippet d
     = get (lc_snippet r) (firstn 200 (get (lc_content r) []))
  /\ doc_raw_content d = get (lc_content r) (get (lc_snippet r) []).

(** The Tavily client answers with two results; the k-th uuid is the
    decimal writing of k. *)
Definition tavily_two : Env :=
  mkEnv (fun _ _ =>
           Ok (Some [mkTavilyResult (Some (py "A title"))
                       (Some (py "https://example.com/a"))
                       (Some (py "Some content."));
                     mkTavilyResult None None None]))
        (fun _ _ => Raise (py "connection refused"))
        str_of_nat
        (fun _ _ => Raise (py "connection refused"))
        (fun _ _ => Ok tt)
        (fun _ _ => Ok tt)
        (fun _ _ => Raise (py "cannot write file"))
        (fun _ _ => py "20240101_120000").

(** How often a word occurs in a list of words. *)
Definition occurrences (w : str) (words : list str) : nat :=
  length (filter (str_eqb w) words).

(** [counts[k]] for a Counter, 0 for a key it does not have. *)
Definition count_of (k : str) (counts : list (str * nat)) : nat :=
  match find (fun kc => str_eqb (fst kc) k) counts with
  | Some kc => snd kc
  | None => 0
  end.

(** Ranked by decreasing count. *)
Definition by_count_desc (x y : str * nat) : Prop := snd y <= snd x.

(** The text the analyzer works on: the non-empty document texts joined by
    a space, in lower case. *)
Definition analyzed_text (state : ResearchState) : str :=
  lower (join (py " ")
           (map doc_raw_content
              (filter (fun d => truthy (doc_raw_content d))
                      (get (raw_documents state) [])))).

(** A state with two documents on solar energy. *)
Definition solar_state : ResearchState :=
  mkState (Some (py "Solar Energy"))
    (Some [a_document (py "solar panels store energy; Panels age.");
           a_document (py "Storage of ENERGY in panels, storage!")])
    None None None None None.

(** The lines a section holds: its title, if any, then its content. *)
Definition section_lines (sec : SectionDict) : list str :=
  (if truthy (sec_title sec) then [sec_title sec] else [])
  ++ sec_content sec.

(** The lines held by the structurer in the course of its loop. *)
Definition all_lines (st : Structurer) : list str :=
  flat_map section_lines (sections st) ++ section_lines (current_section st).

(** A section opened by a header line. *)
Definition titled_section (sec : SectionDict) : Prop :=
  sec_title sec <> []
  /\ length (sec_title sec) < 100
  /\ is_header (sec_title sec) = true
  /\ sec_original_title sec = sec_title sec.

(** Sections numbered 1, 2, 3, ... in their order. *)
Definition numbered_from_one (secs : list SectionDict) : Prop :=
  map sec_number secs = map Some (seq 1 (length secs)).

(** What may precede the first header: nothing, or one section without
    title and number holding the lines read so far. *)
Definition preamble (secs : list SectionDict) : Prop :=
  secs = [] \/ exists content, content <> []
                              /\ secs = [mkSection [] content [] None].

(** A line that opens a section: a header of fewer than 100 characters. *)
Definition opens_section (line : str) : bool :=
  is_header line && (length line <? 100).

(** The lines up to the next line that opens a section. *)
Fixpoint lines_before_header (lines : list str) : list str :=
  match lines with
  | [] => []
  | line :: rest =>
      if opens_section line then [] else line :: lines_before_header rest
  end.

(** The sections opened among [lines], numbered from [k]: every line that
    opens a section gives one, titled by the line and holding the lines
    that follow it up to the next such line. *)
Fixpoint sections_from (k : nat) (lines : list str) : list SectionDict :=
  match lines with
  | [] => []
  | line :: rest =>
      if opens_section line
      then mkSection line (lines_before_header rest) line (Some k)
           :: sections_from (S k) rest
      else sections_from k rest
  end.

(** A section with more content lines. *)
Definition with_lines (sec : SectionDict) (more : list str) : SectionDict :=
  mkSection (sec_title sec) (sec_content sec ++ more)
            (sec_original_title sec) (sec_number sec).

(** The texts of the paragraphs in the bullet style. *)
Definition bullet_texts (flowables : list Flowable) : list str :=
  flat_map (fun f => match f with
                     | Paragraph text style_bullet => [text]
                     | _ => []
                     end) flowables.

(** The name of a report file, from the part taken from the topic and the
    time stamp. *)
Definition report_name (topic_part stamp : str) : str :=
  py "outputs/Research_Report_" ++ topic_part ++ py "_" ++ stamp
     ++ py ".pdf".



(** How often the directory was made. *)
Definition makedirs_calls (made : list Call) : nat :=
  length (filter (fun c => match c with
                           | CallMakedirs _ => true
                           | _ => false
                           end) made).


(** How often a tag occurs in a text. *)
Fixpoint tag_count (tag text : str) : nat :=
  match text with
  | [] => 0
  | _ :: rest =>
      (if startswith text tag then 1 else 0) + tag_count tag rest
  end.

(** A markup parser that rejects a text in which the "<b>" and the "</b>"
    are not equally many; the other services are down but for the
    renderer. *)
Definition unclosed_bold (text : str) : bool :=
  negb (tag_count (py "<b>") text =? tag_count (py "</b>") text).

Definition strict_markup : Env :=
  mkEnv (fun _ _ => Raise (py "connection refused"))
        (fun _ _ => Raise (py "connection refused"))
        (fun _ => py "1b4e28ba-2fa1-11d2-883f-0016d3cca427")
        (fun _ _ => Raise (py "connection refused"))
        (fun _ _ => Ok tt)
        (fun text _ =>
           if unclosed_bold text
           then Raise (py "Parse error: saw </para> instead of expected </b>")
           else Ok tt)
        (fun _ _ => Ok tt)
        (fun _ _ => py "20240101_120000").

(** The snippet of a document as the reference list shows it. *)
Definition shown_snippet (doc : Document) : str :=
  if 150 <? length (strip_markdown (doc_snippet doc))
  then firstn 150 (strip_markdown (doc_snippet doc)) ++ py "..."
  else strip_markdown (doc_snippet doc).

(** The paragraph of one reference, around the snippet shown. *)
Definition reference_text (i : nat) (doc : Document) (snippet : str) : str :=
  [nl] ++ indent16 ++ py "<b>Source " ++ str_of_nat i ++ py ": "
       ++ doc_title doc ++ py "</b><br/>" ++
  [nl] ++ indent16 ++ py "<i>Domain: " ++ doc_source_domain doc
       ++ py "</i><br/>" ++
  [nl] ++ indent16 ++ snippet ++
  [nl] ++ indent16.

(** The entry of one document in the text handed to the language model. *)
Definition prompt_entry (d : Document) : str :=
  py "Title: " ++ doc_title d ++ [nl] ++ py "Content: " ++ doc_raw_content d.

(** The closing request of that text. *)
Definition prompt_request : str :=
  py "Please summarize concisely within 600-700 words with bullet points, include clear points and short paragraphs".

(** The services are down but for the language model. *)
Definition llm_up : Env :=
  mkEnv (fun _ _ => Raise (py "connection refused"))
        (fun _ _ => Raise (py "connection refused"))
        (fun _ => py "1b4e28ba-2fa1-11d2-883f-0016d3cca427")
        (fun _ _ => Ok (py "  A summary.  "))
        (fun _ _ => Ok tt)
        (fun _ _ => Ok tt)
        (fun _ _ => Raise (py "cannot write file"))
        (fun _ _ => py "20240101_120000").

(** The paragraphs of a section's body: those in the normal or the bullet
    style (the heading is in another style). *)
Definition body_paragraphs (flowables : list Flowable) : list Flowable :=
  filter (fun f => match f with
                   | Paragraph _ style_normal => true
                   | Paragraph _ style_bullet => true
                   | _ => false
                   end) flowables.

(** A narrative with one header and three lines under it. *)
Definition three_lines_input : str :=
  lines_of "Findings|First line.|Second line.|Third line.".

(** White space reduced to single spaces: every white-space character is
    a plain space and is not followed by another one. *)
Fixpoint single_spaced (s : str) : Prop :=
  match s with
  | [] => True
  | c :: s' =>
      (isspace c = true ->
       c = Latin " "%char
       /\ match s' with
          | d :: _ => isspace d = false
          | [] => True
          end)
      /\ single_spaced s'
  end.

(** One document with a text, one without. *)
Definition half_empty_state : ResearchState :=
  mkState (Some (py "Solar Energy"))
    (Some [a_document (py "solar panels store energy; Panels age.");
           a_document []])
    None None None None None.

End Observations.

Import Observations.

(* ================================================================== *)
(** * Properties                                                        *)
(* ================================================================== *)

Import validator_agent analysis_agent search_agent summarizer_agent.
Import pdf_utils formatter_agent main.

Unset Implicit Arguments.

(** ** Characters and strings *)

(** Case analysis over the whole alphabet. *)
Ltac each_char c :=
  destruct c as [[[] [] [] [] [] [] [] []] | ]; vm_compute;
  try reflexivity; try discriminate; try tauto.

Lemma chr_eqb_eq (c d : pychar) : chr_eqb c d = true <-> c = d.
Proof.
  split.
  - unfold chr_eqb. intro H. apply N.eqb_eq in H.
    destruct c as [a|], d as [b|]; simpl in H.
    + f_equal. rewrite <- (ascii_N_embedding a), <- (ascii_N_embedding b).
      now rewrite H.
    + pose proof (N_ascii_bounded a). lia.
    + pose proof (N_ascii_bounded b). lia.
    + reflexivity.
  - intros ->. apply N.eqb_refl.
Qed.

Lemma str_eqb_eq (s t : str) : str_eqb s t = true <-> s = t.
Proof.
  revert t. induction s as [|c s IH]; intros [|d t]; simpl;
    try (split; [discriminate | discriminate]); try tauto.
  rewrite andb_true_iff, chr_eqb_eq, IH.
  split; [intros [-> ->]; reflexivity | intros [= -> ->]; auto].
Qed.

Lemma isspace_lower_char (c : pychar) : isspace (lower_char c) = isspace c.
Proof. each_char c. Qed.

Lemma lower_char_letter_is_az (c : pychar) :
  is_alpha_ascii (lower_char c) = true -> is_az (lower_char c) = true.
Proof. each_char c. Qed.

Lemma lower_char_az (c : pychar) : is_az c = true -> lower_char c = c.
Proof. each_char c. Qed.

Lemma lower_upper_az (c : pychar) :
  is_az c = true -> lower_char (upper_ascii c) = c.
Proof. each_char c. Qed.

Lemma az_is_alpha (c : pychar) : is_az c = true -> is_alpha_ascii c = true.
Proof. unfold is_alpha_ascii. intros ->. apply orb_true_r. Qed.

Lemma lstrip_all_space (s : str) : forallb isspace s = true -> lstrip s = [].
Proof.
  induction s as [|c s IH]; simpl; [reflexivity|].
  rewrite andb_true_iff. intros [-> H]. auto.
Qed.

Lemma strip_all_space (s : str) : forallb isspace s = true -> strip s = [].
Proof.
  intro H. unfold strip, rstrip. now rewrite (lstrip_all_space _ H).
Qed.

(** ** agents/validator_agent.py *)

Lemma append_recommendation_fields (v : ValidationResult) (m : str) :
  has_sufficient_sources (append_recommendation v m) = has_sufficient_sources v
  /\ has_key_themes (append_recommendation v m) = has_key_themes v
  /\ document_quality (append_recommendation v m) = document_quality v.
Proof. repeat split. Qed.

Lemma truthy_length {A : Type} (l : list A) : truthy l = (0 <? length l).
Proof. destruct l; reflexivity. Qed.

(** C1.  The validation result of every state has
    [has_sufficient_sources] true exactly when there are at least 3
    documents, [document_quality] "good" exactly when there are more than 2
    and "poor" otherwise, [has_key_themes] true exactly when there is at
    least one theme; hence [has_sufficient_sources] holds exactly when the
    quality is "good". *)
Theorem validator_thresholds (state : ResearchState) :
  let d := length (get (raw_documents state) []) in
  let t := length (themes_of state) in
  exists v,
    validation_result (validator_agent state) = Some v
    /\ (has_sufficient_sources v = true <-> 3 <= d)
    /\ (document_quality v = py "good" <-> 2 < d)
    /\ (document_quality v = py "poor" <-> ~ 2 < d)
    /\ (has_key_themes v = true <-> 0 < t)
    /\ (has_sufficient_sources v = true <-> document_quality v = py "good").
Proof.
  intros d t. unfold validator_agent. fold d. fold t.
  eexists. split; [reflexivity|].
  destruct (d <? 2), (negb (truthy (themes_of state))), (5 <=? d);
    cbn [has_sufficient_sources has_key_themes document_quality
         append_recommendation];
    rewrite Nat.leb_le, Nat.ltb_lt;
    destruct (Nat.ltb_spec 2 d);
    (repeat split; intros; try lia; try reflexivity; try discriminate;
     try (exfalso; lia)).
Qed.

(** C7.  The recommendations of every state are the listed messages whose
    condition holds (fewer than 2 documents, no theme, at least 5
    documents), in that order; for 1 document and no theme these are the
    expand-search message followed by the deeper-processing message. *)
Theorem validator_recommendations (state : ResearchState) :
  let d := length (get (raw_documents state) []) in
  let t := length (themes_of state) in
  exists v,
    validation_result (validator_agent state) = Some v
    /\ recommendations v = listed_recommendations d t
    /\ listed_recommendations 1 0
       = [msg_expand_search; msg_deeper_processing].
Proof.
  intros d t. unfold validator_agent, listed_recommendations.
  fold d. fold t.
  eexists. split; [reflexivity|]. split; [|reflexivity].
  rewrite truthy_length. fold t.
  generalize (d <? 2) (5 <=? d). intros b1 b2.
  destruct t, b1, b2; reflexivity.
Qed.

(** ** agents/search_agent.py *)

Section SearchFacts.
Variable env : Env.

Lemma attempt_returns (tier : Py (list Document)) (w : World) :
  exists r w', attempt tier w = (Ok r, w').
Proof.
  unfold attempt, try_except, bind, ret.
  destruct (tier w) as [[docs|e] w']; eauto.
Qed.

Lemma attempt_of_failed (tier : Py (list Document)) (w : World) :
  tier_fails tier -> exists w', attempt tier w = (Ok None, w').
Proof.
  intro H. specialize (H w).
  unfold attempt, try_except, bind, ret.
  destruct (tier w) as [[docs|e] w']; simpl in H; [subst docs|]; eauto.
Qed.

Lemma tavily_search_returns (query : str) (n : nat) (w : World) :
  exists docs w', _tavily_search env query n w = (Ok docs, w').
Proof.
  unfold _tavily_search, bind at 1.
  destruct (attempt_returns (primary_tier env query n) w) as (r1 & w1 & ->).
  destruct r1 as [docs|]; [unfold ret; eauto|].
  unfold bind.
  destruct (attempt_returns (secondary_tier env query n) w1) as (r2 & w2 & ->).
  destruct r2 as [docs|]; unfold ret; eauto.
Qed.

Lemma tavily_search_fallback (query : str) (n : nat) (w : World) :
  tier_fails (primary_tier env query n) ->
  tier_fails (secondary_tier env query n) ->
  exists w', _tavily_search env query n w
             = (Ok [simulated_document query], w').
Proof.
  intros H1 H2. unfold _tavily_search, bind.
  destruct (attempt_of_failed _ w H1) as (w1 & ->).
  destruct (attempt_of_failed _ w1 H2) as (w2 & ->).
  unfold ret; eauto.
Qed.

Lemma search_agent_returns (state : ResearchState) (w : World) :
  exists docs w', search_agent env state w = (Ok (documents_update docs), w').
Proof.
  unfold search_agent.
  destruct (negb (truthy (strip (get (topic_query state) [])))).
  - unfold ret, documents_update; eauto.
  - unfold bind.
    destruct (tavily_search_returns (strip (get (topic_query state) [])) 5 w)
      as (docs & w' & ->).
    unfold ret, documents_update; eauto.
Qed.

End SearchFacts.

(** ** The later stages always return *)

Section PipelineFacts.
Variable env : Env.

Lemma summarizer_agent_returns (state : ResearchState) (w : World) :
  exists text w',
    summarizer_agent env state w = (Ok (summary_update text), w').
Proof.
  unfold summarizer_agent, bind, try_except, call, ret, summary_update.
  destruct (llm_invoke env _ _); eauto.
Qed.

(** *** Constructors *)

Lemma construct_all_app (l1 l2 : list Flowable) :
  construct_all env (l1 ++ l2)
  = (fs <~ construct_all env l1 ;;
     gs <~ construct_all env l2 ;;
     Ok (fs ++ gs)).
Proof.
  induction l1 as [|item rest IH]; cbn [app construct_all and_then].
  - now destruct (construct_all env l2).
  - destruct (construct env item) as [f|e]; cbn [and_then]; [|reflexivity].
    rewrite IH.
    destruct (construct_all env rest) as [fs|e]; cbn [and_then];
      [|reflexivity].
    now destruct (construct_all env l2).
Qed.

(** A run of constructors returns the flowables asked for, or raises what
    the parser raised on one of the paragraphs. *)
Lemma construct_all_cases (items : list Flowable) :
  match construct_all env items with
  | Ok fs => fs = items
  | Raise e => exists text style,
                 In (Paragraph text style) items
                 /\ paragraph env text style = Raise e
  end.
Proof.
  induction items as [|item rest IH]; cbn [construct_all]; [reflexivity|].
  destruct item as [text style| |]; cbn [construct and_then].
  - destruct (paragraph env text style) as [[]|e] eqn:Ep; cbn [and_then].
    + destruct (construct_all env rest) as [fs|e]; cbn [and_then].
      * now rewrite IH.
      * destruct IH as (t & st & Hin & Hp). exists t, st.
        split; [now right | exact Hp].
    + exists text, style. split; [now left | exact Ep].
  - destruct (construct_all env rest) as [fs|e]; cbn [and_then].
    + now rewrite IH.
    + destruct IH as (t & st & Hin & Hp). exists t, st.
      split; [now right | exact Hp].
  - destruct (construct_all env rest) as [fs|e]; cbn [and_then].
    + now rewrite IH.
    + destruct IH as (t & st & Hin & Hp). exists t, st.
      split; [now right | exact Hp].
Qed.

(** *** The report file *)

(** Writing a story calls no service. *)
Lemma simple_story_calls (topic summary : str) (w : World) :
  calls (snd (simple_story env topic summary w)) = calls w.
Proof.
  unfold simple_story, bind, lift, now_strftime, ret.
  destruct (construct_all env _); [|reflexivity].
  cbn [calls]. destruct (construct_all env _); reflexivity.
Qed.

Lemma full_story_calls topic summary analysis documents validation w :
  calls (snd (full_story env topic summary analysis documents validation w))
  = calls w.
Proof.
  unfold full_story, bind, lift, now_strftime, ret.
  destruct (cover_title env topic); [|reflexivity].
  cbn [calls]. destruct (cover_date env _); [|reflexivity].
  destruct (quality_assessment env validation); [|reflexivity].
  destruct (analysis_results env analysis); [|reflexivity].
  destruct (executive_summary env summary); [|reflexivity].
  destruct (reference_sources env documents); reflexivity.
Qed.

(** The ways [generate_simple_pdf] ends: the story could not be written
    (the directory or a paragraph raised), or the renderer was called and
    built the file or raised. *)
Lemma generate_simple_pdf_cases (topic summary : str) (w : World) :
  exists path w' made,
    generate_simple_pdf env topic summary w = (Ok path, w')
    /\ calls w' = made ++ calls w
    /\ ((made = [CallMakedirs (py "outputs")] /\ path = [])
        \/ exists stamp story,
             made = [CallBuild (report_name (safe_topic_of topic) stamp) story;
                     CallMakedirs (py "outputs")]
             /\ ((build env (report_name (safe_topic_of topic) stamp) story
                  = Ok tt
                  /\ path = report_name (safe_topic_of topic) stamp)
                 \/ (exists e,
                        build env (report_name (safe_topic_of topic) stamp)
                              story = Raise e
                        /\ path = []))).
Proof.
  unfold generate_simple_pdf, try_except.
  unfold bind at 1. unfold os_makedirs at 1.
  destruct (makedirs env (py "outputs") (calls w)) as [[]|e0].
  2:{ unfold ret. eexists. eexists. exists [CallMakedirs (py "outputs")].
      split; [reflexivity|]. split; [reflexivity|]. left. now split. }
  unfold bind at 1. unfold now_strftime at 1. cbn [clock_reads uuids_drawn calls].
  set (stamp := strftime env (py "%Y%m%d_%H%M%S") (clock_reads w)).
  fold (report_name (safe_topic_of topic) stamp).
  unfold bind at 1.
  match goal with
  | |- context [simple_story env topic summary ?w1] =>
      pose proof (simple_story_calls topic summary w1) as Hc;
      destruct (simple_story env topic summary w1) as [[story|e1] w2]
  end; cbn [snd calls] in Hc.
  2:{ unfold ret. eexists. eexists. exists [CallMakedirs (py "outputs")].
      split; [reflexivity|]. split; [exact Hc|]. left. now split. }
  unfold bind, call, ret.
  destruct (build env (report_name (safe_topic_of topic) stamp) story)
    as [[]|e2] eqn:Eb.
  - eexists. eexists. eexists [_; _].
    split; [reflexivity|]. cbn [calls]. split; [now rewrite Hc|].
    right. exists stamp, story. split; [reflexivity|]. left. now split.
  - eexists. eexists. eexists [_; _].
    split; [reflexivity|]. cbn [calls]. split; [now rewrite Hc|].
    right. exists stamp, story. split; [reflexivity|]. right. eauto.
Qed.

(** The ways [generate_pdf] ends: the full report is built by the first
    attempt; or that attempt fails, before the renderer is called or in it,
    and the simple report is tried. *)
Lemma generate_pdf_cases topic summary analysis documents validation w :
  exists path w' first second,
    generate_pdf env topic summary analysis documents validation w
    = (Ok path, w')
    /\ calls w' = second ++ first ++ calls w
    /\ ((exists stamp story,
            first = [CallBuild
                       (report_name (firstn 50 (safe_topic_of topic)) stamp)
                       story;
                     CallMakedirs (py "outputs")]
            /\ second = []
            /\ build env (report_name (firstn 50 (safe_topic_of topic)) stamp)
                     story = Ok tt
            /\ path = report_name (firstn 50 (safe_topic_of topic)) stamp)
        \/ ((first = [CallMakedirs (py "outputs")]
             \/ exists filename story e,
                  first = [CallBuild filename story;
                           CallMakedirs (py "outputs")]
                  /\ build env filename story = Raise e)
            /\ ((second = [CallMakedirs (py "outputs")] /\ path = [])
                \/ exists stamp story,
                     second
                     = [CallBuild (report_name (safe_topic_of topic) stamp)
                                  story;
                        CallMakedirs (py "outputs")]
                     /\ ((build env (report_name (safe_topic_of topic) stamp)
                                story = Ok tt
                          /\ path = report_name (safe_topic_of topic) stamp)
                         \/ (exists e,
                                build env
                                  (report_name (safe_topic_of topic) stamp)
                                  story = Raise e
                                /\ path = []))))).
Proof.
  assert (Hsimple : forall w1 first,
             calls w1 = first ++ calls w ->
             exists path w' second,
               generate_simple_pdf env topic summary w1 = (Ok path, w')
               /\ calls w' = second ++ first ++ calls w
               /\ ((second = [CallMakedirs (py "outputs")] /\ path = [])
                   \/ exists stamp story,
                        second
                        = [CallBuild
                             (report_name (safe_topic_of topic) stamp) story;
                           CallMakedirs (py "outputs")]
                        /\ ((build env
                               (report_name (safe_topic_of topic) stamp)
                               story = Ok tt
                             /\ path
                                = report_name (safe_topic_of topic) stamp)
                            \/ (exists e,
                                   build env
                                     (report_name (safe_topic_of topic) stamp)
                                     story = Raise e
                                   /\ path = [])))).
  { intros w1 first Hw1.
    destruct (generate_simple_pdf_cases topic summary w1)
      as (path & w' & made & Hg & Hc & Hcases).
    exists path, w', made. split; [exact Hg|].
    split; [now rewrite Hc, Hw1 | exact Hcases]. }
  unfold generate_pdf, try_except.
  unfold bind at 1. unfold os_makedirs at 1.
  destruct (makedirs env (py "outputs") (calls w)) as [[]|e0].
  2:{ destruct (Hsimple (mkWorld (uuids_drawn w) (clock_reads w)
                          (CallMakedirs (py "outputs") :: calls w))
                        [CallMakedirs (py "outputs")] eq_refl)
        as (path & w' & second & Hg & Hc & Hcases).
      exists path, w', [CallMakedirs (py "outputs")], second.
      split; [exact Hg|]. split; [exact Hc|]. right.
      split; [now left | exact Hcases]. }
  unfold bind at 1. unfold now_strftime at 1.
  cbn [clock_reads uuids_drawn calls].
  set (stamp := strftime env (py "%Y%m%d_%H%M%S") (clock_reads w)).
  fold (report_name (firstn 50 (safe_topic_of topic)) stamp).
  unfold bind at 1.
  match goal with
  | |- context [full_story env topic summary analysis documents validation
                  ?w1] =>
      pose proof (full_story_calls topic summary analysis documents
                    validation w1) as Hc;
      destruct (full_story env topic summary analysis documents validation
                  w1) as [[story|e1] w2]
  end; cbn [snd calls] in Hc.
  2:{ destruct (Hsimple w2 [CallMakedirs (py "outputs")] Hc)
        as (path & w' & second & Hg & Hc' & Hcases).
      exists path, w', [CallMakedirs (py "outputs")], second.
      split; [exact Hg|]. split; [exact Hc'|]. right.
      split; [now left | exact Hcases]. }
  unfold bind, call, ret.
  destruct (build env (report_name (firstn 50 (safe_topic_of topic)) stamp)
              story) as [[]|e2] eqn:Eb.
  - eexists. eexists. eexists [_; _], [].
    split; [reflexivity|]. cbn [calls app]. split; [now rewrite Hc|].
    left. exists stamp, story. repeat split. exact Eb.
  - match goal with
    | |- context [generate_simple_pdf env topic summary ?w3] =>
        destruct (Hsimple w3
                    [CallBuild
                       (report_name (firstn 50 (safe_topic_of topic)) stamp)
                       story;
                     CallMakedirs (py "outputs")])
          as (path & w' & second & Hg & Hc' & Hcases)
    end.
    { cbn [calls app]. now rewrite Hc. }
    exists path, w'. eexists [_; _], second.
    split; [exact Hg|]. split; [exact Hc'|]. right.
    split; [right; eauto | exact Hcases].
Qed.

Lemma generate_pdf_returns topic summary analysis documents validation w :
  exists path w',
    generate_pdf env topic summary analysis documents validation w
    = (Ok path, w').
Proof.
  destruct (generate_pdf_cases topic summary analysis documents validation w)
    as (path & w' & _ & _ & H & _).
  eauto.
Qed.

Lemma generate_pdf_when_build_raises
    topic summary analysis documents validation w :
  build_always_raises env ->
  exists w',
    generate_pdf env topic summary analysis documents validation w
    = (Ok [], w').
Proof.
  intro Hdown.
  assert (Hno : forall filename story, build env filename story <> Ok tt).
  { intros filename story E. destruct (Hdown filename story) as [e He].
    congruence. }
  destruct (generate_pdf_cases topic summary analysis documents validation w)
    as (path & w' & first & second & Hg & _
        & [(stamp & story & _ & _ & Eb & _)
          | (_ & [[_ ->]
                 | (stamp & story & _
                    & [[Eb _] | (e & _ & ->)])])]).
  - exfalso. exact (Hno _ _ Eb).
  - eauto.
  - exfalso. exact (Hno _ _ Eb).
  - eauto.
Qed.

(** [generate_pdf] catches every exception itself, so the handler of
    [formatter_agent] is never entered. *)
Lemma formatter_agent_returns (state : ResearchState) (w : World) :
  exists path w',
    formatter_agent env state w
    = (Ok (report_update (regular_report state) path), w').
Proof.
  unfold formatter_agent, try_except, bind at 1.
  destruct (generate_pdf_returns (get (topic_query state) [])
              (get (final_summary state) []) (analysis_result state)
              (get (raw_documents state) []) (validation_result state) w)
    as (path & w' & ->).
  unfold ret, report_update, regular_report; eauto.
Qed.

Lemma formatter_agent_when_build_raises (state : ResearchState) (w : World) :
  build_always_raises env ->
  exists w',
    formatter_agent env state w
    = (Ok (report_update (regular_report state) []), w').
Proof.
  intro Hdown.
  unfold formatter_agent, try_except, bind at 1.
  destruct (generate_pdf_when_build_raises (get (topic_query state) [])
              (get (final_summary state) []) (analysis_result state)
              (get (raw_documents state) []) (validation_result state) w
              Hdown)
    as (w' & ->).
  unfold ret, report_update, regular_report; eauto.
Qed.

End PipelineFacts.

(** ** main.py: every run reaches END *)

Section WorkflowFacts.
Variable env : Env.

(** With fuel for the five nodes, the run ends in [END]; its final state
    is determined by what the search, the summarizer and the formatter
    returned on the way. *)
Lemma workflow_run (fuel : nat) (topic : str) (w : World) :
  5 <= fuel ->
  exists docs text path w1 w2 w3,
    search_agent env (state_with_topic topic) w
      = (Ok (documents_update docs), w1)
    /\ summarizer_agent env (after_validate topic docs) w1
       = (Ok (summary_update text), w2)
    /\ formatter_agent env (after_summarize topic docs text) w2
       = (Ok (report_update
                (regular_report (after_summarize topic docs text)) path), w3)
    /\ run_research_workflow env fuel topic w
       = (Ok (END, after_format topic docs text path), w3).
Proof.
  intro Hfuel.
  do 5 (destruct fuel as [|fuel]; [lia|]).
  destruct (search_agent_returns env (state_with_topic topic) w)
    as (docs & w1 & Hs).
  destruct (summarizer_agent_returns env (after_validate topic docs) w1)
    as (text & w2 & Hm).
  destruct (formatter_agent_returns env (after_summarize topic docs text) w2)
    as (path & w3 & Hf).
  exists docs, text, path, w1, w2, w3.
  repeat split; try assumption.
  unfold run_research_workflow, entry_point.
  cbn [run_from]. unfold bind at 1. unfold step at 1.
  unfold bind at 1. cbn [node_function].
  fold (state_with_topic topic). rewrite Hs.
  unfold ret at 1. cbn [fst snd edge].
  fold (after_search topic docs).
  cbn [run_from]. unfold bind at 1. unfold step at 1.
  unfold bind at 1. cbn [node_function]. unfold ret at 1 2.
  cbn [fst snd edge]. fold (after_analyze topic docs).
  cbn [run_from]. unfold bind at 1. unfold step at 1.
  unfold bind at 1. cbn [node_function]. unfold ret at 1 2.
  cbn [fst snd edge]. fold (after_validate topic docs).
  cbn [run_from]. unfold bind at 1. unfold step at 1.
  unfold bind at 1. cbn [node_function]. rewrite Hm.
  unfold ret at 1. cbn [fst snd edge].
  fold (after_summarize topic docs text).
  cbn [run_from]. unfold bind at 1. unfold step at 1.
  unfold bind at 1. cbn [node_function]. rewrite Hf.
  unfold ret at 1. cbn [fst snd edge].
  fold (after_format topic docs text path).
  destruct fuel; reflexivity.
Qed.

End WorkflowFacts.

(** ** The search claims *)

Lemma analyze_agent_update (state : ResearchState) :
  exists a, analyze_agent state = mkState None None (Some a) None None None None.
Proof.
  unfold analyze_agent. destruct (negb _); eauto.
Qed.

Lemma upstream_after_format (topic : str) (docs : list Document)
    (text path : str) :
  topic_query (after_format topic docs text path) = Some topic
  /\ raw_documents (after_format topic docs text path) = Some docs
  /\ final_summary (after_format topic docs text path) = Some text
  /\ pdf_path (after_format topic docs text path) = Some path.
Proof.
  unfold after_format, after_summarize, after_validate, after_analyze.
  destruct (analyze_agent_update (after_search topic docs)) as [a ->].
  repeat split.
Qed.

(** C10.  A topic that is absent, empty or made of white space only makes
    the search node return an empty "raw_documents" and leaves the outside
    world as it was: no tier is called, no placeholder is built; on the
    state so updated the analyzer takes its no-content branch. *)
Theorem blank_topic_skips_search (env : Env) (state : ResearchState)
    (w : World) :
  forallb isspace (get (topic_query state) []) = true ->
  search_agent env state w = (Ok (documents_update []), w)
  /\ analysis_result (analyze_agent (merge state (documents_update [])))
     = Some (mkAnalysis [] [] (Some (py "No content to analyze")) 0 None).
Proof.
  intro Hblank. split.
  - unfold search_agent. now rewrite (strip_all_space _ Hblank).
  - reflexivity.
Qed.

Lemma blank_topic_skips_search_witness :
  forallb isspace (get (topic_query (state_with_topic (py "   "))) []) = true
  /\ search_agent services_down (state_with_topic (py "   ")) world0
     = (Ok (documents_update []), world0).
Proof.
  split; [reflexivity|].
  apply (blank_topic_skips_search services_down
           (state_with_topic (py "   ")) world0).
  reflexivity.
Defined.

(** C3.  For a topic query, that is a topic with at least one character
    that is not white space (a blank topic is never searched for), if the
    primary and the secondary tier each raise or end with no document on the
    stripped topic, the search node returns exactly the one simulated
    document built from the stripped topic, and the run, given fuel for its
    five nodes, reaches END with that document list in its final state. *)
Theorem search_fallback_placeholder (env : Env) (topic : str) (fuel : nat)
    (w : World) :
  strip topic <> [] ->
  tier_fails (primary_tier env (strip topic) 5) ->
  tier_fails (secondary_tier env (strip topic) 5) ->
  5 <= fuel ->
  (exists w', search_agent env (state_with_topic topic) w
              = (Ok (documents_update [simulated_document (strip topic)]),
                 w'))
  /\ (exists final w',
        run_research_workflow env fuel topic w = (Ok (END, final), w')
        /\ raw_documents final = Some [simulated_document (strip topic)]).
Proof.
  intros Hquery H1 H2 Hfuel.
  assert (Hsearch : exists w',
             search_agent env (state_with_topic topic) w
             = (Ok (documents_update [simulated_document (strip topic)]),
                w')).
  { unfold search_agent. cbn [state_with_topic topic_query get].
    destruct (strip topic) as [|c q] eqn:Hq; [congruence|].
    cbn [truthy negb]. unfold bind.
    destruct (tavily_search_fallback env _ _ w H1 H2) as (w' & ->).
    unfold ret, documents_update; eauto. }
  split; [exact Hsearch|].
  destruct Hsearch as (w' & Hs).
  destruct (workflow_run env fuel topic w Hfuel)
    as (docs & text & path & w1 & w2 & w3 & Hs' & _ & _ & Hrun).
  rewrite Hs in Hs'. injection Hs' as Hdocs _. subst docs.
  exists (after_format topic [simulated_document (strip topic)] text path), w3.
  split; [exact Hrun|].
  apply upstream_after_format.
Qed.

Lemma search_fallback_placeholder_witness :
  strip (py "quantum computing") <> []
  /\ exists final w',
       run_research_workflow services_down 5 (py "quantum computing") world0
       = (Ok (END, final), w')
       /\ raw_documents final
          = Some [simulated_document (py "quantum computing")].
Proof.
  split; [vm_compute; discriminate|].
  apply (search_fallback_placeholder services_down (py "quantum computing")
           5 world0).
  - vm_compute; discriminate.
  - intro w; exact I.
  - intro w; exact I.
  - lia.
Defined.

(** *** Snippet lengths *)

Section SnippetFacts.
Variable env : Env.

Lemma primary_document_snippet query result w d w' :
  primary_document env query result w = (Ok d, w') ->
  doc_snippet d = firstn 200 (get (t_content result) []).
Proof.
  unfold primary_document, fresh_id, draw_uuid, bind, ret.
  destruct (source_domain_of (t_url result) _) as [[dom|e] w1];
    intros [= <- _]; reflexivity.
Qed.

Lemma primary_loop_snippets query results :
  forall w docs w',
    primary_loop env query results w = (Ok docs, w') ->
    snippets_bounded docs.
Proof.
  induction results as [|r rest IH]; intros w docs w'; cbn [primary_loop].
  - intros [= <- _]. constructor.
  - unfold bind at 1.
    destruct (primary_document env query r w) as [[d|e] w1] eqn:Hd;
      [|discriminate].
    unfold bind at 1.
    destruct (primary_loop env query rest w1) as [[ds|e] w2] eqn:Hrest;
      [|discriminate].
    intros [= <- _]. constructor.
    + rewrite (primary_document_snippet _ _ _ _ _ Hd). apply firstn_le_length.
    + exact (IH _ _ _ Hrest).
Qed.

Lemma secondary_document_snippet query result w d w' :
  secondary_document env query result w = (Ok d, w') ->
  doc_snippet d
  = get (lc_snippet result) (firstn 200 (get (lc_content result) [])).
Proof.
  unfold secondary_document, fresh_id, draw_uuid, bind, ret.
  destruct (source_domain_of (lc_url result) _) as [[dom|e] w1];
    intros [= <- _]; reflexivity.
Qed.

Lemma secondary_loop_snippets query results :
  forall w docs w',
    secondary_loop env query results w = (Ok docs, w') ->
    Forall (fun d =>
              length (doc_snippet d) <= 200
              \/ exists r, In (LCDict r) results
                           /\ lc_snippet r = Some (doc_snippet d)) docs.
Proof.
  induction results as [|[r|] rest IH]; intros w docs w';
    cbn [secondary_loop].
  - intros [= <- _]. constructor.
  - unfold bind at 1.
    destruct (secondary_document env query r w) as [[d|e] w1] eqn:Hd;
      [|discriminate].
    unfold bind at 1.
    destruct (secondary_loop env query rest w1) as [[ds|e] w2] eqn:Hrest;
      [|discriminate].
    intros [= <- _]. constructor.
    + rewrite (secondary_document_snippet _ _ _ _ _ Hd).
      destruct (lc_snippet r) as [sn|] eqn:Hsn; cbn [get].
      * right. exists r. split; [now left | exact Hsn].
      * left. apply firstn_le_length.
    + eapply Forall_impl; [|exact (IH _ _ _ Hrest)].
      intros d' [Hle | (r' & Hin & Hr')]; [now left|].
      right. exists r'. split; [now right | exact Hr'].
  - intro H. eapply Forall_impl; [|exact (IH _ _ _ H)].
    intros d' [Hle | (r' & Hin & Hr')]; [now left|].
    right. exists r'. split; [now right | exact Hr'].
Qed.

End SnippetFacts.

(** C9, as the code has it.  Every document of the primary tier has a
    snippet of at most 200 characters.  A document of the secondary tier has
    a snippet of at most 200 characters or carries, unchanged, the snippet
    the service supplied in one of its results.  The snippet of the
    simulated document is 57 characters longer than the query. *)
Theorem snippet_lengths (env : Env) (query : str) (n : nat) :
  (forall w docs w',
      primary_tier env query n w = (Ok docs, w') -> snippets_bounded docs)
  /\ (forall results w docs w',
        langchain_tavily env query n = Ok results ->
        secondary_tier env query n w = (Ok docs, w') ->
        Forall (fun d =>
                  length (doc_snippet d) <= 200
                  \/ exists r, In (LCDict r) results
                               /\ lc_snippet r = Some (doc_snippet d)) docs)
  /\ length (doc_snippet (simulated_document query)) = 57 + length query.
Proof.
  split; [|split].
  - intros w docs w'. unfold primary_tier, bind at 1, call.
    destruct (tavily_search env query n) as [results|e]; [|discriminate].
    apply primary_loop_snippets.
  - intros results w docs w' Hres. unfold secondary_tier, bind at 1, call.
    rewrite Hres. apply secondary_loop_snippets.
  - unfold simulated_document. cbn [doc_snippet].
    rewrite !length_app. cbn. lia.
Qed.

Lemma snippet_lengths_witness :
  exists docs w',
    primary_tier tavily_up (py "quantum computing") 5 world0 = (Ok docs, w')
    /\ snippets_bounded docs.
Proof.
  eexists. eexists. split; [vm_compute; reflexivity|].
  eapply (proj1 (snippet_lengths tavily_up (py "quantum computing") 5)
            world0).
  vm_compute; reflexivity.
Defined.

(** C9 as stated fails in the two later tiers: the secondary tier passes a
    service snippet of 201 characters through, and the simulated document
    for a topic of 150 characters has a snippet of 207. *)
Lemma snippets_bounded_counterexample :
  (exists docs w',
      search_agent langchain_up (state_with_topic (py "quantum computing"))
        world0 = (Ok (documents_update docs), w')
      /\ ~ snippets_bounded docs)
  /\ (exists docs w',
        search_agent services_down
          (state_with_topic (repeat (Latin "a"%char) 150)) world0
        = (Ok (documents_update docs), w')
        /\ ~ snippets_bounded docs).
Proof.
  split.
  - eexists. eexists. split; [vm_compute; reflexivity|].
    intro H. inversion H as [|d ds Hd _]. vm_compute in Hd.
    repeat (apply le_S_n in Hd). inversion Hd.
  - eexists. eexists. split; [vm_compute; reflexivity|].
    intro H. inversion H as [|d ds Hd _]. vm_compute in Hd.
    repeat (apply le_S_n in Hd). inversion Hd.
Qed.

(** ** The format stage when the renderer fails *)

Lemma merge_report_keeps_upstream (state : ResearchState)
    (report : FormattedReport) (path : str) :
  let final := merge state (report_update report path) in
  topic_query final = topic_query state
  /\ raw_documents final = raw_documents state
  /\ analysis_result final = analysis_result state
  /\ validation_result final = validation_result state
  /\ final_summary final = final_summary state.
Proof. repeat split. Qed.

(** C4, what the code does.  When the renderer raises on every document,
    [generate_pdf] and its simple fallback swallow the exceptions and
    return the empty path; [formatter_agent] then returns its regular
    report: "pdf_path" is empty, but the report has no "error" entry and
    its "validation_status" is the validator's verdict, not "error".  The
    run reaches END and the format node leaves the upstream fields as they
    were. *)
Theorem render_failure_without_error_marker (env : Env)
    (state : ResearchState) (fuel : nat) (topic : str) (w : World) :
  build_always_raises env ->
  5 <= fuel ->
  (exists report w',
      formatter_agent env state w = (Ok (report_update report []), w')
      /\ report_error report = None
      /\ validation_status report
         = match validation_result state with
           | Some v => document_quality v
           | None => py "unknown"
           end
      /\ topic_query (merge state (report_update report []))
         = topic_query state
      /\ raw_documents (merge state (report_update report []))
         = raw_documents state
      /\ analysis_result (merge state (report_update report []))
         = analysis_result state
      /\ validation_result (merge state (report_update report []))
         = validation_result state
      /\ final_summary (merge state (report_update report []))
         = final_summary state)
  /\ (exists final w',
        run_research_workflow env fuel topic w = (Ok (END, final), w')
        /\ pdf_path final = Some []
        /\ exists report, formatted_report final = Some report
                          /\ report_error report = None).
Proof.
  intros Hdown Hfuel. split.
  - destruct (formatter_agent_when_build_raises env state w Hdown)
      as (w' & Hf).
    exists (regular_report state), w'. repeat split. exact Hf.
  - destruct (workflow_run env fuel topic w Hfuel)
      as (docs & text & path & w1 & w2 & w3 & _ & _ & Hf & Hrun).
    destruct (formatter_agent_when_build_raises env
                (after_summarize topic docs text) w2 Hdown) as (w3' & Hf').
    rewrite Hf' in Hf. injection Hf as Hpath _.
    exists (after_format topic docs text path), w3.
    split; [exact Hrun|]. rewrite <- Hpath.
    split; [apply upstream_after_format|].
    eexists. split; reflexivity.
Qed.

Lemma render_failure_without_error_marker_witness :
  exists final w',
    run_research_workflow services_down 5 (py "quantum computing") world0
    = (Ok (END, final), w')
    /\ pdf_path final = Some []
    /\ exists report, formatted_report final = Some report
                      /\ report_error report = None.
Proof.
  apply (render_failure_without_error_marker services_down empty_state 5
           (py "quantum computing") world0).
  - intros filename story. eexists. reflexivity.
  - lia.
Defined.

(** ** utils/pdf_utils.py: the structurer *)

(** C5, what the code does on the round-trip narrative.  The structurer
    yields the two sections, numbered 1 and 2, titled "Introduction" and
    "Conclusion", the first with the line "This is text.", the second with
    the two lines "- point one" and "- point two".  When the sections are
    laid out, the content lines are joined with a space before the bullets
    are extracted line by line, so what the second section asks for is the
    one bullet "point one - point two": the loop over the sections
    constructs exactly the flowables listed, in this order, whatever the
    markup parser answers.  On the same lines joined by line feeds
    [extract_bullet_content] finds "point one" and "point two". *)
Theorem round_trip_sections_and_bullets (env : Env) :
  clean_summary_text round_trip_input
  = [mkSection (py "Introduction") [py "This is text."]
               (py "Introduction") (Some 1);
     mkSection (py "Conclusion") [py "- point one"; py "- point two"]
               (py "Conclusion") (Some 2)]
  /\ for_each (clean_summary_text round_trip_input) (render_section env)
     = construct_all env
         [Paragraph (py "1. Introduction") style_heading2; Spacer 1 8;
          Paragraph (py "This is text.") style_normal; Spacer 1 3;
          Spacer 1 10;
          Paragraph (py "2. Conclusion") style_heading2; Spacer 1 8;
          Paragraph (bullet_text ++ py "point one - point two") style_bullet;
          Spacer 1 2;
          Spacer 1 10]
  /\ extract_bullet_content (join (py " ") [py "- point one"; py "- point two"])
     = [py "point one - point two"]
  /\ extract_bullet_content (join [nl] [py "- point one"; py "- point two"])
     = [py "point one"; py "point two"].
Proof.
  split; [vm_compute; reflexivity|].
  split; [|split; vm_compute; reflexivity].
  destruct env as [? ? ? ? ? parser ? ?]. vm_compute.
  repeat match goal with
         | |- context [parser ?t ?s] => destruct (parser t s)
         end; reflexivity.
Qed.

Lemma render_section_skipped (env : Env) (section : SectionDict) :
  render_section env section = Ok []
  <-> truthy (strip (sec_title section))
      && contains (lower (clean_title_of (strip (sec_title section))))
                  (py "research summary")
      && (get (sec_number section) 0 =? 1) = true.
Proof.
  unfold render_section.
  destruct (truthy (strip (sec_title section))
            && contains _ _ && (get (sec_number section) 0 =? 1)).
  - tauto.
  - split; [|discriminate].
    match goal with
    | |- and_then ?h _ = _ -> _ => destruct h as [heading|e]
    end; cbn [and_then]; [|discriminate].
    match goal with
    | |- and_then ?b _ = _ -> _ => destruct b as [body|e]
    end; cbn [and_then]; [|discriminate].
    intros [= H]. apply (f_equal (@length Flowable)) in H.
    rewrite !length_app in H. cbn in H. lia.
Qed.

Lemma render_section_skips_summary (env : Env) (section : SectionDict) :
  sec_number section = Some 1 ->
  same_ignoring_case (clean_title_of (strip (sec_title section)))
                     (py "research summary") ->
  render_section env section = Ok [].
Proof.
  unfold same_ignoring_case. intros Hnum Hsame.
  apply render_section_skipped. rewrite Hsame, Hnum.
  destruct (strip (sec_title section)) as [|c t] eqn:Ht.
  - vm_compute in Hsame. discriminate.
  - vm_compute. reflexivity.
Qed.

(** C8, what the code does.  A section is skipped exactly when its title is
    not empty, its number is 1 and its cleaned, lower-cased title contains
    "research summary"; a section numbered 1 whose cleaned title is
    "research summary" up to case is therefore skipped.  But so is the first
    section of a narrative that opens with "Research Summary: Quantum
    Computing", with its content, although its cleaned title is not
    "research summary" up to case. *)
Theorem summary_heading_skipped_by_containment (env : Env) :
  (forall section,
      render_section env section = Ok []
      <-> truthy (strip (sec_title section))
          && contains (lower (clean_title_of (strip (sec_title section))))
                      (py "research summary")
          && (get (sec_number section) 0 =? 1) = true)
  /\ (forall section,
        sec_number section = Some 1 ->
        same_ignoring_case (clean_title_of (strip (sec_title section)))
                           (py "research summary") ->
        render_section env section = Ok [])
  /\ clean_summary_text summary_heading_input
     = [mkSection (py "Research Summary: Quantum Computing")
                  [py "Qubits are fragile."]
                  (py "Research Summary: Quantum Computing") (Some 1)]
  /\ for_each (clean_summary_text summary_heading_input) (render_section env)
     = Ok []
  /\ ~ same_ignoring_case
         (clean_title_of (py "Research Summary: Quantum Computing"))
         (py "research summary")
  /\ ~ (forall section, In section (clean_summary_text summary_heading_input)
                        -> skipped_as_designed env section).
Proof.
  split; [exact (render_section_skipped env)|].
  split; [exact (render_section_skips_summary env)|].
  split; [vm_compute; reflexivity|].
  split; [vm_compute; reflexivity|].
  split; [vm_compute; discriminate|].
  intro H.
  specialize (H _ (or_introl eq_refl)).
  destruct H as [H _].
  destruct (H ltac:(vm_compute; reflexivity)) as [_ Hsame].
  vm_compute in Hsame. discriminate.
Qed.

Lemma summary_heading_skipped_by_containment_witness :
  sec_number (mkSection (py "1. Research  Summary") [py "Some text."]
                        (py "1. Research  Summary") (Some 1)) = Some 1
  /\ render_section services_down
       (mkSection (py "1. Research  Summary") [py "Some text."]
                  (py "1. Research  Summary") (Some 1)) = Ok [].
Proof.
  split; [reflexivity|].
  apply (proj1 (proj2 (summary_heading_skipped_by_containment services_down))
           (mkSection (py "1. Research  Summary") [py "Some text."]
                      (py "1. Research  Summary") (Some 1))).
  - reflexivity.
  - vm_compute. reflexivity.
Defined.

(** ** agents/analysis_agent.py *)

Lemma word_runs_from_chars (s : str) :
  forall cur w c,
    In w (word_runs_from cur s) -> In c w -> In c cur \/ In c s.
Proof.
  induction s as [|c0 s IH]; intros cur w c Hw Hc; cbn [word_runs_from] in Hw.
  - destruct cur as [|c1 cur]; [destruct Hw|].
    destruct Hw as [<- | []]. left. now apply in_rev.
  - destruct (is_word c0).
    + destruct (IH _ _ _ Hw Hc) as [[<- | H] | H].
      * right; now left.
      * now left.
      * right; now right.
    + destruct cur as [|c1 cur].
      * destruct (IH _ _ _ Hw Hc) as [[] | H]. right; now right.
      * destruct Hw as [<- | Hw].
        -- left. now apply in_rev.
        -- destruct (IH _ _ _ Hw Hc) as [[] | H]. right; now right.
Qed.

(** In a lower-cased text the words found are made of a-z. *)
Lemma findall_lower_az (n : nat) (text w : str) :
  In w (findall_alpha n (lower text)) -> forallb is_az w = true.
Proof.
  unfold findall_alpha. intro H. apply filter_In in H.
  destruct H as [Hrun Hkeep]. apply andb_true_iff in Hkeep.
  destruct Hkeep as [Halpha _].
  rewrite forallb_forall in *. intros c Hc.
  destruct (word_runs_from_chars _ _ _ _ Hrun Hc) as [[] | Hin].
  unfold lower in Hin. apply in_map_iff in Hin.
  destruct Hin as (c' & <- & _).
  apply lower_char_letter_is_az. now apply Halpha.
Qed.

Lemma lower_title_tail (w : str) :
  forallb is_az w = true -> lower (title_from true w) = w.
Proof.
  induction w as [|c w IH]; cbn [forallb title_from lower map];
    [reflexivity|].
  rewrite andb_true_iff. intros [Hc Hw].
  rewrite (az_is_alpha _ Hc). cbn [map].
  rewrite !(lower_char_az _ Hc). f_equal. now apply IH.
Qed.

Lemma lower_title_az (w : str) :
  forallb is_az w = true -> lower (title w) = w.
Proof.
  unfold title. destruct w as [|c w]; cbn [forallb title_from];
    [reflexivity|].
  rewrite andb_true_iff. intros [Hc Hw].
  rewrite (az_is_alpha _ Hc). cbn [lower map].
  rewrite (lower_upper_az _ Hc). f_equal. now apply lower_title_tail.
Qed.

Lemma split_ws_from_lower (s : str) :
  forall cur,
    split_ws_from (lower cur) (lower s) = map lower (split_ws_from cur s).
Proof.
  unfold lower.
  induction s as [|c s IH]; intro cur; cbn [map split_ws_from].
  - destruct cur as [|p cur]; cbn [map]; [reflexivity|].
    rewrite map_rev. reflexivity.
  - rewrite isspace_lower_char. destruct (isspace c).
    + destruct cur as [|p cur]; cbn [map].
      * apply (IH []).
      * rewrite map_rev. f_equal. apply (IH []).
    + apply (IH (c :: cur)).
Qed.

Lemma split_ws_lower (s : str) :
  split_ws (lower s) = map lower (split_ws s).
Proof. apply (split_ws_from_lower s []). Qed.

Lemma mem_In (w : str) (words : list str) :
  mem w words = true <-> In w words.
Proof.
  unfold mem. rewrite existsb_exists. split.
  - intros (x & Hin & Heq). apply str_eqb_eq in Heq. now subst.
  - intro Hin. exists w. split; [exact Hin | now apply str_eqb_eq].
Qed.

Lemma count_add_keys (w k : str) (n : nat) (counts : list (str * nat)) :
  In (k, n) (count_add w counts) ->
  k = w \/ exists n', In (k, n') counts.
Proof.
  induction counts as [|[k0 n0] rest IH]; cbn [count_add].
  - intros [[= <- _] | []]. now left.
  - destruct (str_eqb k0 w).
    + intros [[= <- _] | H]; right.
      * exists n0. now left.
      * exists n. now right.
    + intros [[= <- <-] | H].
      * right. exists n0. now left.
      * destruct (IH H) as [-> | (n' & Hn')]; [now left|].
        right. exists n'. now right.
Qed.

Lemma Counter_keys (words : list str) (k : str) (n : nat) :
  In (k, n) (Counter words) -> In k words.
Proof.
  unfold Counter.
  assert (H : forall acc,
             In (k, n) (fold_left (fun counts w => count_add w counts)
                                  words acc) ->
             In k words \/ exists n', In (k, n') acc).
  { revert n. induction words as [|w rest IH]; intros n acc; cbn [fold_left].
    - intro H. right. now exists n.
    - intro H. destruct (IH _ _ H) as [Hin | (n' & Hn')].
      + left. now right.
      + destruct (count_add_keys _ _ _ _ Hn') as [-> | Hacc].
        * left. now left.
        * now right. }
  intro Hin. destruct (H [] Hin) as [Hw | (n' & [])]. exact Hw.
Qed.

Lemma insert_by_count_In (x y : str * nat) (sorted : list (str * nat)) :
  In x (insert_by_count y sorted) -> x = y \/ In x sorted.
Proof.
  induction sorted as [|z rest IH]; cbn [insert_by_count].
  - intros [<- | []]. now left.
  - destruct (snd z <=? snd y).
    + intros [<- | H]; [now left | now right].
    + intros [<- | H]; [right; now left|].
      destruct (IH H) as [-> | Hr]; [now left | right; now right].
Qed.

Lemma sort_by_count_In (x : str * nat) (counts : list (str * nat)) :
  In x (sort_by_count counts) -> In x counts.
Proof.
  unfold sort_by_count. induction counts as [|y rest IH]; cbn [fold_right].
  - intros [].
  - intro H. destruct (insert_by_count_In _ _ _ H) as [-> | Hr].
    + now left.
    + right. now apply IH.
Qed.

Lemma firstn_In {A : Type} (n : nat) (l : list A) (x : A) :
  In x (firstn n l) -> In x l.
Proof.
  revert l. induction n as [|n IH]; intros [|y l]; cbn [firstn In];
    try contradiction.
  intros [<- | H]; [now left | right; now apply IH].
Qed.

(** A theme is the capitalised form of a lower-case word of the documents
    that is not a stop word. *)
Lemma theme_origin (texts : list str) (topic theme : str) :
  In theme (extract_meaningful_themes texts topic) ->
  exists w,
    theme = title w
    /\ forallb is_az w = true
    /\ ~ In w (split_ws (lower topic)).
Proof.
  unfold extract_meaningful_themes. intro H.
  apply firstn_In in H. apply in_map_iff in H.
  destruct H as ([w n] & <- & Hw). cbn [fst].
  apply filter_In in Hw. destruct Hw as [Hw _].
  unfold most_common in Hw. apply firstn_In in Hw.
  apply sort_by_count_In in Hw. apply Counter_keys in Hw.
  apply filter_In in Hw. destruct Hw as [Hfound Hstop].
  exists w. split; [reflexivity|]. split.
  - exact (findall_lower_az _ _ _ Hfound).
  - intro Hin. apply negb_true_iff in Hstop.
    assert (Hmem : mem w (base_stop_words ++ split_ws (lower topic)) = true).
    { apply mem_In. apply in_or_app. now right. }
    congruence.
Qed.

Lemma no_content_no_texts (docs : list Document) :
  (forall d, In d docs -> doc_raw_content d = []) ->
  filter (fun d => truthy (doc_raw_content d)) docs = [].
Proof.
  induction docs as [|d docs IH]; intro H; cbn [filter]; [reflexivity|].
  rewrite (H d (or_introl eq_refl)). cbn [truthy].
  apply IH. intros d' Hd'. apply H. now right.
Qed.

(** C2.  On every state the analyzer returns a result: at most 10
    keywords, at most 5 themes, no theme equal up to case to a
    white-space-separated word of the topic; and when no document has a
    non-empty text, no keyword and no theme at all. *)
Theorem analyzer_bounds (state : ResearchState) :
  let docs := get (raw_documents state) [] in
  let topic := get (topic_query state) [] in
  exists a,
    analysis_result (analyze_agent state) = Some a
    /\ length (keywords a) <= 10
    /\ length (themes a) <= 5
    /\ (forall theme word,
          In theme (themes a) -> In word (split_ws topic) ->
          ~ same_ignoring_case theme word)
    /\ ((forall d, In d docs -> doc_raw_content d = []) ->
        keywords a = [] /\ themes a = []).
Proof.
  intros docs topic. unfold analyze_agent. fold docs. fold topic.
  destruct (negb (truthy (map doc_raw_content
                            (filter (fun d => truthy (doc_raw_content d))
                                    docs)))) eqn:Hnone.
  - eexists. split; [reflexivity|]. cbn [keywords themes length].
    repeat split; try lia. intros theme word [].
  - eexists. split; [reflexivity|]. cbn [keywords themes].
    split; [apply firstn_le_length|].
    split; [unfold extract_meaningful_themes; apply firstn_le_length|].
    split.
    + intros theme word Htheme Hword Hsame.
      destruct (theme_origin _ _ _ Htheme) as (w & -> & Haz & Hstop).
      unfold same_ignoring_case in Hsame.
      rewrite (lower_title_az _ Haz) in Hsame. subst w.
      apply Hstop. rewrite split_ws_lower. now apply in_map.
    + intro Hempty. rewrite (no_content_no_texts _ Hempty) in Hnone.
      discriminate.
Qed.

Lemma analyzer_bounds_witness :
  exists a,
    analysis_result
      (analyze_agent
         (mkState (Some (py "Solar Energy"))
            (Some [a_document (py "solar panels store energy; Panels age.");
                   a_document (py "Storage of ENERGY in panels, storage!")])
            None None None None None)) = Some a
    /\ themes a = [py "Panels"; py "Storage"]
    /\ keywords a = [py "panels"; py "energy"; py "storage"; py "solar";
                     py "store"].
Proof.
  destruct (analyzer_bounds
              (mkState (Some (py "Solar Energy"))
                 (Some [a_document (py "solar panels store energy; Panels age.");
                        a_document (py "Storage of ENERGY in panels, storage!")])
                 None None None None None)) as (a & Ha & _).
  exists a. split; [exact Ha|].
  vm_compute in Ha. injection Ha as <-. split; reflexivity.
Defined.

(* ================================================================== *)
(** * Further properties                                                *)
(* ================================================================== *)

(** ** agents/search_agent.py: the tiers *)

Section TierFacts.
Variable env : Env.

Lemma source_domain_of_world (url : option str) (w : World) :
  snd (source_domain_of url w) = w.
Proof.
  unfold source_domain_of.
  destruct (truthy (get url [])); [|reflexivity].
  destruct (nth_error _ 2); reflexivity.
Qed.

(** What building one document does to the world: one uuid drawn. *)
Lemma primary_document_world query result w :
  snd (primary_document env query result w)
  = mkWorld (S (uuids_drawn w)) (clock_reads w) (calls w).
Proof.
  unfold primary_document, fresh_id, draw_uuid, bind, ret. cbn [fst snd].
  pose proof (source_domain_of_world (t_url result)
                (mkWorld (S (uuids_drawn w)) (clock_reads w) (calls w)))
    as Hw.
  destruct (source_domain_of (t_url result) _) as [[dom|e] w1];
    cbn [snd] in *; exact Hw.
Qed.

Lemma secondary_document_world query result w :
  snd (secondary_document env query result w)
  = mkWorld (S (uuids_drawn w)) (clock_reads w) (calls w).
Proof.
  unfold secondary_document, fresh_id, draw_uuid, bind, ret. cbn [fst snd].
  pose proof (source_domain_of_world (lc_url result)
                (mkWorld (S (uuids_drawn w)) (clock_reads w) (calls w)))
    as Hw.
  destruct (source_domain_of (lc_url result) _) as [[dom|e] w1];
    cbn [snd] in *; exact Hw.
Qed.

Lemma primary_loop_calls query results :
  forall w, calls (snd (primary_loop env query results w)) = calls w.
Proof.
  induction results as [|r rest IH]; intro w; cbn [primary_loop];
    [reflexivity|].
  unfold bind at 1.
  pose proof (primary_document_world query r w) as Hd.
  destruct (primary_document env query r w) as [[d|e] w1]; cbn [snd] in Hd;
    [|subst w1; reflexivity].
  unfold bind at 1. specialize (IH w1).
  destruct (primary_loop env query rest w1) as [[ds|e] w2]; unfold ret;
    cbn [snd] in *; rewrite IH; subst w1; reflexivity.
Qed.


Lemma primary_tier_calls query n w :
  calls (snd (primary_tier env query n w)) = CallTavily query n :: calls w.
Proof.
  unfold primary_tier, bind, call.
  destruct (tavily_search env query n) as [results|e]; [|reflexivity].
  now rewrite primary_loop_calls.
Qed.


Lemma attempt_world (tier : Py (list Document)) (w : World) :
  snd (attempt tier w) = snd (tier w).
Proof.
  unfold attempt, try_except, bind, ret.
  destruct (tier w) as [[docs|e] w']; reflexivity.
Qed.

Lemma attempt_some (tier : Py (list Document)) w docs w' :
  attempt tier w = (Ok (Some docs), w') ->
  tier w = (Ok docs, w') /\ docs <> [].
Proof.
  unfold attempt, try_except, bind, ret.
  destruct (tier w) as [[ds|e] w1]; [|discriminate].
  destruct ds as [|d ds]; cbn [truthy]; [discriminate|].
  intros [= <- <-]. split; [reflexivity | discriminate].
Qed.

Lemma attempt_of_success (tier : Py (list Document)) w docs w' :
  tier w = (Ok docs, w') -> docs <> [] ->
  attempt tier w = (Ok (Some docs), w').
Proof.
  intros Ht Hne. unfold attempt, try_except, bind, ret. rewrite Ht.
  destruct docs; [congruence | reflexivity].
Qed.

End TierFacts.

(** X1.  When the primary tier ends with at least one document,
    [_tavily_search] returns exactly these documents and the only service
    called is the Tavily client: the LangChain tool is not tried. *)
Theorem primary_success_skips_secondary (env : Env) (query : str) (n : nat)
    (w : World) (docs : list Document) (w' : World) :
  primary_tier env query n w = (Ok docs, w') ->
  docs <> [] ->
  _tavily_search env query n w = (Ok docs, w')
  /\ calls w' = CallTavily query n :: calls w.
Proof.
  intros Ht Hne. split.
  - unfold _tavily_search, bind.
    now rewrite (attempt_of_success _ _ _ _ Ht Hne).
  - pose proof (primary_tier_calls env query n w) as Hc.
    now rewrite Ht in Hc.
Qed.

Lemma primary_success_skips_secondary_witness :
  exists docs w',
    _tavily_search tavily_up (py "quantum computing") 5 world0
    = (Ok docs, w')
    /\ calls w' = [CallTavily (py "quantum computing") 5].
Proof.
  eexists. eexists.
  eapply (primary_success_skips_secondary tavily_up
            (py "quantum computing") 5 world0).
  - vm_compute. reflexivity.
  - discriminate.
Defined.

Lemma tavily_search_nonempty (env : Env) (query : str) (n : nat)
    (w : World) (docs : list Document) (w' : World) :
  _tavily_search env query n w = (Ok docs, w') -> docs <> [].
Proof.
  unfold _tavily_search. unfold bind at 1.
  destruct (attempt_returns (primary_tier env query n) w) as (r1 & w1 & H1).
  rewrite H1. destruct r1 as [docs1|].
  - unfold ret. intros [= <- _]. exact (proj2 (attempt_some _ _ _ _ H1)).
  - unfold bind at 1.
    destruct (attempt_returns (secondary_tier env query n) w1)
      as (r2 & w2 & H2).
    rewrite H2. destruct r2 as [docs2|]; unfold ret; intros [= <- _].
    + exact (proj2 (attempt_some _ _ _ _ H2)).
    + discriminate.
Qed.

(** X2.  The search node returns an empty document list exactly when the
    topic is blank: for any other topic it returns at least one document,
    whatever the services do. *)
Theorem search_empty_iff_blank (env : Env) (state : ResearchState)
    (w : World) (docs : list Document) (w' : World) :
  search_agent env state w = (Ok (documents_update docs), w') ->
  (docs = [] <-> strip (get (topic_query state) []) = []).
Proof.
  unfold search_agent.
  destruct (strip (get (topic_query state) [])) as [|c q] eqn:Hq;
    cbn [truthy negb].
  - unfold ret, documents_update. intros [= <- _]. tauto.
  - unfold bind at 1.
    destruct (tavily_search_returns env (c :: q) 5 w) as (ds & w1 & Hs).
    rewrite Hs. unfold ret, documents_update. intros [= <- _].
    pose proof (tavily_search_nonempty _ _ _ _ _ _ Hs) as Hne.
    split; [contradiction | discriminate].
Qed.

Lemma search_empty_iff_blank_witness :
  exists docs w',
    search_agent services_down (state_with_topic (py "quantum computing"))
      world0 = (Ok (documents_update docs), w')
    /\ (docs = [] <-> strip (py "quantum computing") = []).
Proof.
  eexists. eexists.
  assert (H : search_agent services_down
                (state_with_topic (py "quantum computing")) world0
              = (Ok (documents_update
                       [simulated_document (py "quantum computing")]),
                 mkWorld 0 0 [CallLangChain (py "quantum computing") 5;
                              CallTavily (py "quantum computing") 5])).
  { vm_compute. reflexivity. }
  split; [exact H|].
  exact (search_empty_iff_blank services_down _ world0 _ _ H).
Defined.

(** *** Urls *)

Lemma split_char_length (sep : pychar) (s : str) :
  length (split_char sep s)
  = S (length (filter (fun c => chr_eqb c sep) s)).
Proof.
  induction s as [|c s IH]; cbn [split_char filter]; [reflexivity|].
  destruct (chr_eqb c sep); cbn [length]; [now rewrite IH|].
  destruct (split_char sep s) as [|piece rest]; cbn [length] in *;
    [discriminate | exact IH].
Qed.



Lemma split_char_last (sep : pychar) (a : str) :
  length (filter (fun c => chr_eqb c sep) a) = 0 ->
  split_char sep a = [a].
Proof.
  induction a as [|c a IH]; cbn [split_char filter]; [reflexivity|].
  destruct (chr_eqb c sep); cbn [length]; [discriminate|].
  intro H. now rewrite (IH H).
Qed.

Lemma source_domain_of_short_url (url : str) (w : World) :
  url <> [] -> slashes url < 2 ->
  source_domain_of (Some url) w = (Raise (py "list index out of range"), w).
Proof.
  intros Hne Hfew. unfold source_domain_of. cbn [get].
  destruct url as [|c url]; [congruence|]. cbn [truthy].
  destruct (nth_error (split_char (Latin "/"%char) (c :: url)) 2) as [d|]
    eqn:Hnth; [|reflexivity].
  assert (Hlen : 2 < length (split_char (Latin "/"%char) (c :: url))).
  { apply nth_error_Some. congruence. }
  rewrite split_char_length in Hlen. unfold slashes, slash in Hfew. lia.
Qed.



Section MalformedUrl.
Variable env : Env.

Lemma primary_document_outcome query result w :
  (exists d, fst (primary_document env query result w) = Ok d)
  \/ fst (primary_document env query result w) = Raise index_error.
Proof.
  unfold primary_document, fresh_id, draw_uuid, bind, ret, source_domain_of.
  cbn [fst snd].
  destruct (truthy (get (t_url result) []));
    [|left; eexists; reflexivity].
  destruct (nth_error _ 2); [left; eexists | right]; reflexivity.
Qed.

Lemma primary_document_short_url query result url w :
  t_url result = Some url -> url <> [] -> slashes url < 2 ->
  fst (primary_document env query result w) = Raise index_error.
Proof.
  intros Hu Hne Hfew.
  unfold primary_document, fresh_id, draw_uuid, bind, ret. cbn [fst snd].
  rewrite Hu. now rewrite (source_domain_of_short_url url _ Hne Hfew).
Qed.

Lemma primary_loop_short_url query results result url :
  In result results ->
  t_url result = Some url -> url <> [] -> slashes url < 2 ->
  forall w, fst (primary_loop env query results w) = Raise index_error.
Proof.
  intros Hin Hu Hne Hfew.
  induction results as [|r rest IH]; [destruct Hin|]. intro w.
  cbn [primary_loop]. unfold bind at 1.
  destruct Hin as [-> | Hin].
  - pose proof (primary_document_short_url query result url w Hu Hne Hfew)
      as Hbad.
    destruct (primary_document env query result w) as [[d|e] w1];
      cbn [fst] in *; [discriminate | congruence].
  - destruct (primary_document_outcome query r w) as [[d Hd] | Hd];
      destruct (primary_document env query r w) as [[d'|e] w1];
      cbn [fst] in Hd; try discriminate; [|cbn [fst]; congruence].
    unfold bind at 1. specialize (IH Hin w1).
    destruct (primary_loop env query rest w1) as [[ds|e] w2];
      cbn [fst] in *; [discriminate | exact IH].
Qed.

End MalformedUrl.

(** X3.  One result of the Tavily client whose url is not empty and has
    fewer than two slashes makes the whole primary tier fail with an
    IndexError: the documents built from the other results are lost and the
    search goes on to the secondary tier. *)
Theorem short_url_fails_primary_tier (env : Env) (query : str) (n : nat)
    (results : list TavilyResult) (result : TavilyResult) (url : str)
    (w : World) :
  tavily_search env query n = Ok (Some results) ->
  In result results ->
  t_url result = Some url ->
  url <> [] ->
  slashes url < 2 ->
  fst (primary_tier env query n w) = Raise index_error
  /\ exists w', attempt (primary_tier env query n) w = (Ok None, w').
Proof.
  intros Hres Hin Hu Hne Hfew.
  assert (Hraise : fst (primary_tier env query n w) = Raise index_error).
  { unfold primary_tier, bind at 1, call. rewrite Hres. cbn [get].
    now apply (primary_loop_short_url env query results result url). }
  split; [exact Hraise|].
  unfold attempt, try_except, bind at 1.
  destruct (primary_tier env query n w) as [[docs|e] w1]; cbn [fst] in Hraise;
    [discriminate|].
  unfold ret. eauto.
Qed.

Lemma short_url_fails_primary_tier_witness :
  fst (primary_tier tavily_bad_url (py "quantum computing") 5 world0)
  = Raise index_error.
Proof.
  refine (proj1 (short_url_fails_primary_tier tavily_bad_url
                   (py "quantum computing") 5 _
                   (mkTavilyResult (Some (py "Another title"))
                      (Some (py "example.com"))
                      (Some (py "Other content.")))
                   (py "example.com") world0 eq_refl _ eq_refl _ _)).
  - right. left. reflexivity.
  - discriminate.
  - vm_compute. lia.
Defined.

(** *** One document per result *)

Section TierDocuments.
Variable env : Env.

Lemma primary_document_ok query result w d w' :
  primary_document env query result w = (Ok d, w') ->
  from_tavily query result d
  /\ doc_id d = id_of_draw env (uuids_drawn w)
  /\ uuids_drawn w' = S (uuids_drawn w).
Proof.
  intro H. pose proof (primary_document_world env query result w) as Hw.
  rewrite H in Hw. cbn [snd] in Hw. subst w'.
  revert H. unfold primary_document, fresh_id, draw_uuid, bind, ret.
  destruct (source_domain_of (t_url result) _) as [[dom|e] w1];
    intros [= <-]; repeat split.
Qed.

Lemma secondary_document_ok query result w d w' :
  secondary_document env query result w = (Ok d, w') ->
  from_langchain query result d
  /\ doc_id d = id_of_draw env (uuids_drawn w)
  /\ uuids_drawn w' = S (uuids_drawn w).
Proof.
  intro H. pose proof (secondary_document_world env query result w) as Hw.
  rewrite H in Hw. cbn [snd] in Hw. subst w'.
  revert H. unfold secondary_document, fresh_id, draw_uuid, bind, ret.
  destruct (source_domain_of (lc_url result) _) as [[dom|e] w1];
    intros [= <-]; repeat split.
Qed.

Lemma primary_loop_ok query results :
  forall w docs w',
    primary_loop env query results w = (Ok docs, w') ->
    Forall2 (from_tavily query) results docs
    /\ map doc_id docs
       = map (id_of_draw env) (seq (uuids_drawn w) (length docs))
    /\ uuids_drawn w' = uuids_drawn w + length docs.
Proof.
  induction results as [|r rest IH]; intros w docs w'; cbn [primary_loop].
  - unfold ret. intros [= <- <-]. cbn. repeat split; [constructor | lia].
  - unfold bind at 1.
    destruct (primary_document env query r w) as [[d|e] w1] eqn:Hd;
      [|discriminate].
    unfold bind at 1.
    destruct (primary_loop env query rest w1) as [[ds|e] w2] eqn:Hrest;
      [|discriminate].
    unfold ret. intros [= <- <-].
    destruct (primary_document_ok _ _ _ _ _ Hd) as (Hfrom & Hid & Hu).
    destruct (IH _ _ _ Hrest) as (Hall & Hids & Hu2).
    cbn [length map seq]. rewrite Hu in *.
    repeat split; [now constructor | now f_equal | lia].
Qed.

Lemma secondary_loop_ok query items :
  forall w docs w',
    secondary_loop env query items w = (Ok docs, w') ->
    Forall2 (from_langchain query) (dicts_of items) docs
    /\ map doc_id docs
       = map (id_of_draw env) (seq (uuids_drawn w) (length docs))
    /\ uuids_drawn w' = uuids_drawn w + length docs.
Proof.
  induction items as [|[r|] rest IH]; intros w docs w';
    cbn [secondary_loop dicts_of flat_map app].
  - unfold ret. intros [= <- <-]. cbn. repeat split; [constructor | lia].
  - unfold bind at 1.
    destruct (secondary_document env query r w) as [[d|e] w1] eqn:Hd;
      [|discriminate].
    unfold bind at 1.
    destruct (secondary_loop env query rest w1) as [[ds|e] w2] eqn:Hrest;
      [|discriminate].
    unfold ret. intros [= <- <-].
    destruct (secondary_document_ok _ _ _ _ _ Hd) as (Hfrom & Hid & Hu).
    destruct (IH _ _ _ Hrest) as (Hall & Hids & Hu2).
    cbn [length map seq]. rewrite Hu in *.
    repeat split; [now constructor | now f_equal | lia].
  - apply IH.
Qed.

End TierDocuments.

(** X5.  A tier that succeeds returns one document per result, in the
    order of the results: for the Tavily client title (the query when
    absent), url, content and the first 200 characters of the content as
    snippet; for the LangChain tool one document per dictionary, elements
    that are not dictionaries being skipped, with the tool's snippet when it
    has one and the content standing in for a missing snippet and
    conversely. *)
Theorem tier_documents_follow_results (env : Env) (query : str) (n : nat)
    (w : World) (docs : list Document) (w' : World) :
  (forall answer,
      tavily_search env query n = Ok answer ->
      primary_tier env query n w = (Ok docs, w') ->
      Forall2 (from_tavily query) (get answer []) docs)
  /\ (forall items,
        langchain_tavily env query n = Ok items ->
        secondary_tier env query n w = (Ok docs, w') ->
        Forall2 (from_langchain query) (dicts_of items) docs).
Proof.
  split.
  - intros answer Ha. unfold primary_tier, bind at 1, call. rewrite Ha.
    intro H. exact (proj1 (primary_loop_ok env _ _ _ _ _ H)).
  - intros items Hi. unfold secondary_tier, bind at 1, call. rewrite Hi.
    intro H. exact (proj1 (secondary_loop_ok env _ _ _ _ _ H)).
Qed.

Lemma tier_documents_follow_results_witness :
  exists docs w',
    secondary_tier langchain_up (py "quantum computing") 5 world0
    = (Ok docs, w')
    /\ Forall2 (from_langchain (py "quantum computing"))
         [mkLCResult (Some (py "A title")) (Some (py "https://example.com/a"))
            (Some (repeat (Latin "x"%char) 201)) (Some (py "short content"))]
         docs.
Proof.
  eexists. eexists.
  assert (H : secondary_tier langchain_up (py "quantum computing") 5 world0
              = (Ok [mkDocument (py "1b4e28ba") (py "A title")
                       (py "https://example.com/a")
                       (repeat (Latin "x"%char) 201) (py "short content")
                       (py "example.com")],
                 mkWorld 1 0 [CallLangChain (py "quantum computing") 5])).
  { vm_compute. reflexivity. }
  split; [exact H|].
  exact (proj2 (tier_documents_follow_results langchain_up
                  (py "quantum computing") 5 world0 _ _) _ eq_refl H).
Defined.

(** *** Document identifiers *)

Lemma NoDup_map_seq {A : Type} (f : nat -> A) (m : nat) :
  forall k,
    (forall i j, k <= i < k + m -> k <= j < k + m -> f i = f j -> i = j) ->
    NoDup (map f (seq k m)).
Proof.
  induction m as [|m IH]; intros k Hinj; cbn [seq map]; constructor.
  - intro Hin. apply in_map_iff in Hin. destruct Hin as (j & Hj & Hin).
    apply in_seq in Hin.
    assert (j = k) by (apply Hinj; [lia | lia | exact Hj]). lia.
  - apply IH. intros i j Hi Hj. apply Hinj; lia.
Qed.

Section IdFacts.
Variable env : Env.

Lemma primary_loop_uuids query results :
  forall w, uuids_drawn w <= uuids_drawn (snd (primary_loop env query results w)).
Proof.
  induction results as [|r rest IH]; intro w; cbn [primary_loop];
    [apply Nat.le_refl|].
  unfold bind at 1.
  pose proof (primary_document_world env query r w) as Hd.
  destruct (primary_document env query r w) as [[d|e] w1]; cbn [snd] in Hd;
    [|subst w1; cbn; lia].
  unfold bind at 1. specialize (IH w1).
  destruct (primary_loop env query rest w1) as [[ds|e] w2]; unfold ret;
    cbn [snd] in *; subst w1; cbn in *; lia.
Qed.

Lemma primary_tier_uuids query n w :
  uuids_drawn w <= uuids_drawn (snd (primary_tier env query n w)).
Proof.
  unfold primary_tier, bind, call.
  destruct (tavily_search env query n) as [answer|e];
    [|apply Nat.le_refl].
  exact (primary_loop_uuids query (get answer [])
           (mkWorld (uuids_drawn w) (clock_reads w)
                    (CallTavily query n :: calls w))).
Qed.

Lemma primary_tier_ids query n w docs w' :
  primary_tier env query n w = (Ok docs, w') ->
  map doc_id docs = map (id_of_draw env) (seq (uuids_drawn w) (length docs))
  /\ uuids_drawn w' = uuids_drawn w + length docs.
Proof.
  unfold primary_tier, bind at 1, call.
  destruct (tavily_search env query n) as [answer|e]; [|discriminate].
  intro H. exact (proj2 (primary_loop_ok env _ _ _ _ _ H)).
Qed.

Lemma secondary_tier_ids query n w docs w' :
  secondary_tier env query n w = (Ok docs, w') ->
  map doc_id docs = map (id_of_draw env) (seq (uuids_drawn w) (length docs))
  /\ uuids_drawn w' = uuids_drawn w + length docs.
Proof.
  unfold secondary_tier, bind at 1, call.
  destruct (langchain_tavily env query n) as [items|e]; [|discriminate].
  intro H. exact (proj2 (secondary_loop_ok env _ _ _ _ _ H)).
Qed.

Lemma drawn_ids_distinct (k m lo hi : nat) (docs : list Document) :
  map doc_id docs = map (id_of_draw env) (seq k m) ->
  lo <= k -> k + m <= hi ->
  (forall i j, lo <= i < hi -> lo <= j < hi ->
               id_of_draw env i = id_of_draw env j -> i = j) ->
  NoDup (map doc_id docs)
  /\ Forall (fun d => length (doc_id d) <= 8) docs.
Proof.
  intros Hids Hlo Hhi Hinj. split.
  - rewrite Hids. apply NoDup_map_seq.
    intros i j Hi Hj. apply Hinj; lia.
  - apply Forall_forall. intros d Hd.
    assert (Hin : In (doc_id d) (map (id_of_draw env) (seq k m))).
    { rewrite <- Hids. now apply in_map. }
    apply in_map_iff in Hin. destruct Hin as (i & <- & _).
    apply firstn_le_length.
Qed.

End IdFacts.

(** X6.  The identifiers of the documents a search returns have at most 8
    characters, and they are pairwise distinct provided the uuids drawn
    during the search differ in their first 8 characters (the identifier is
    that prefix; the simulated document is alone with its "sim_1"). *)
Theorem document_ids_distinct (env : Env) (query : str) (n : nat)
    (w : World) (docs : list Document) (w' : World) :
  _tavily_search env query n w = (Ok docs, w') ->
  (forall i j,
      uuids_drawn w <= i < uuids_drawn w' ->
      uuids_drawn w <= j < uuids_drawn w' ->
      id_of_draw env i = id_of_draw env j -> i = j) ->
  NoDup (map doc_id docs)
  /\ Forall (fun d => length (doc_id d) <= 8) docs.
Proof.
  unfold _tavily_search. unfold bind at 1.
  destruct (attempt_returns (primary_tier env query n) w) as (r1 & w1 & H1).
  rewrite H1. destruct r1 as [docs1|].
  - unfold ret. intros [= <- <-] Hinj.
    destruct (attempt_some _ _ _ _ H1) as [Ht _].
    destruct (primary_tier_ids env _ _ _ _ _ Ht) as [Hids Hu].
    apply (drawn_ids_distinct env (uuids_drawn w) (length docs1)
             (uuids_drawn w) (uuids_drawn w1) docs1 Hids (Nat.le_refl _));
      [lia | exact Hinj].
  - pose proof (attempt_world (primary_tier env query n) w) as Hw1.
    rewrite H1 in Hw1. cbn [snd] in Hw1.
    pose proof (primary_tier_uuids env query n w) as Hle.
    rewrite <- Hw1 in Hle.
    unfold bind at 1.
    destruct (attempt_returns (secondary_tier env query n) w1)
      as (r2 & w2 & H2).
    rewrite H2. destruct r2 as [docs2|]; unfold ret; intros [= <- <-] Hinj.
    + destruct (attempt_some _ _ _ _ H2) as [Ht _].
      destruct (secondary_tier_ids env _ _ _ _ _ Ht) as [Hids Hu].
      apply (drawn_ids_distinct env (uuids_drawn w1) (length docs2)
               (uuids_drawn w) (uuids_drawn w2) docs2 Hids Hle);
        [lia | exact Hinj].
    + split.
      * cbn [map]. constructor; [intros [] | constructor].
      * constructor; [cbn; lia | constructor].
Qed.

Lemma document_ids_distinct_witness :
  exists docs w',
    _tavily_search tavily_two (py "quantum computing") 5 world0
    = (Ok docs, w')
    /\ length docs = 2
    /\ NoDup (map doc_id docs).
Proof.
  eexists. eexists.
  assert (H : _tavily_search tavily_two (py "quantum computing") 5 world0
              = (Ok [mkDocument (py "0") (py "A title")
                       (py "https://example.com/a") (py "Some content.")
                       (py "Some content.") (py "example.com");
                     mkDocument (py "1") (py "quantum computing") []
                       [] [] (py "unknown")],
                 mkWorld 2 0 [CallTavily (py "quantum computing") 5])).
  { vm_compute. reflexivity. }
  split; [exact H|]. split; [reflexivity|].
  refine (proj1 (document_ids_distinct tavily_two (py "quantum computing")
                   5 world0 _ _ H _)).
  cbn [uuids_drawn world0]. intros i j Hi Hj.
  assert (Hi' : i = 0 \/ i = 1) by lia.
  assert (Hj' : j = 0 \/ j = 1) by lia.
  destruct Hi' as [-> | ->], Hj' as [-> | ->]; vm_compute;
    try reflexivity; discriminate.
Defined.

(** ** agents/analysis_agent.py: counting and ranking *)

Lemma str_eqb_refl (s : str) : str_eqb s s = true.
Proof. now apply str_eqb_eq. Qed.

Lemma str_eqb_neq (s t : str) : s <> t -> str_eqb s t = false.
Proof.
  intro H. destruct (str_eqb s t) eqn:E; [|reflexivity].
  apply str_eqb_eq in E. contradiction.
Qed.

Lemma str_eq_dec (s t : str) : s = t \/ s <> t.
Proof.
  destruct (str_eqb s t) eqn:E.
  - left. now apply str_eqb_eq.
  - right. intros ->. rewrite str_eqb_refl in E. discriminate.
Qed.

Lemma count_of_count_add (k w : str) (counts : list (str * nat)) :
  count_of k (count_add w counts)
  = count_of k counts + (if str_eqb k w then 1 else 0).
Proof.
  unfold count_of.
  induction counts as [|[k0 n0] rest IH]; cbn [count_add find fst snd].
  - destruct (str_eq_dec k w) as [-> | Hne].
    + now rewrite str_eqb_refl.
    + rewrite (str_eqb_neq _ _ Hne).
      rewrite (str_eqb_neq w k) by congruence. reflexivity.
  - destruct (str_eq_dec k0 w) as [-> | Hw].
    + rewrite str_eqb_refl. cbn [find fst snd].
      destruct (str_eq_dec w k) as [-> | Hk].
      * rewrite str_eqb_refl. cbn [snd]. lia.
      * rewrite (str_eqb_neq _ _ Hk).
        rewrite (str_eqb_neq k w) by congruence. lia.
    + rewrite (str_eqb_neq _ _ Hw). cbn [find fst snd].
      destruct (str_eq_dec k0 k) as [-> | Hk].
      * rewrite str_eqb_refl. rewrite (str_eqb_neq _ _ Hw). cbn [snd]. lia.
      * rewrite (str_eqb_neq _ _ Hk). exact IH.
Qed.

Lemma count_of_Counter (k : str) (words : list str) :
  count_of k (Counter words) = occurrences k words.
Proof.
  unfold Counter, occurrences.
  assert (H : forall acc,
             count_of k (fold_left (fun counts w => count_add w counts)
                                   words acc)
             = count_of k acc + length (filter (str_eqb k) words)).
  { induction words as [|w rest IH]; intro acc; cbn [fold_left filter].
    - cbn. lia.
    - rewrite IH, count_of_count_add.
      destruct (str_eqb k w); cbn [length]; lia. }
  rewrite H. reflexivity.
Qed.

Lemma count_add_keys_NoDup (w : str) (counts : list (str * nat)) :
  NoDup (map fst counts) -> NoDup (map fst (count_add w counts)).
Proof.
  induction counts as [|[k0 n0] rest IH]; cbn [count_add map fst].
  - intros _. constructor; [intros [] | constructor].
  - intro H. inversion H as [|k ks Hnotin Hrest]; subst.
    destruct (str_eq_dec k0 w) as [-> | Hw].
    + rewrite str_eqb_refl. cbn [map fst]. now constructor.
    + rewrite (str_eqb_neq _ _ Hw). cbn [map fst]. constructor.
      * intro Hin. apply in_map_iff in Hin.
        destruct Hin as ([k n] & Hk & Hin). cbn [fst] in Hk. subst k.
        destruct (count_add_keys _ _ _ _ Hin) as [-> | (n' & Hn')];
          [congruence|].
        apply Hnotin. apply in_map_iff. exists (k0, n'). now split.
      * now apply IH.
Qed.

Lemma Counter_keys_NoDup (words : list str) :
  NoDup (map fst (Counter words)).
Proof.
  unfold Counter.
  assert (H : forall acc,
             NoDup (map fst acc) ->
             NoDup (map fst (fold_left (fun counts w => count_add w counts)
                                       words acc))).
  { induction words as [|w rest IH]; intros acc Hacc; cbn [fold_left];
      [exact Hacc|].
    apply IH. now apply count_add_keys_NoDup. }
  apply H. constructor.
Qed.

Lemma count_of_entry (k : str) (c : nat) (counts : list (str * nat)) :
  NoDup (map fst counts) -> In (k, c) counts -> count_of k counts = c.
Proof.
  unfold count_of.
  induction counts as [|[k0 n0] rest IH]; cbn [map fst find snd];
    [intros _ []|].
  intros H Hin. inversion H as [|k' ks Hnotin Hrest]; subst.
  destruct Hin as [[= -> ->] | Hin].
  - now rewrite str_eqb_refl.
  - destruct (str_eq_dec k0 k) as [-> | Hk].
    + exfalso. apply Hnotin. apply in_map_iff. exists (k, c). now split.
    + rewrite (str_eqb_neq _ _ Hk). now apply IH.
Qed.

(** An entry of a Counter holds the number of occurrences of its key. *)
Lemma Counter_entry (k : str) (c : nat) (words : list str) :
  In (k, c) (Counter words) -> c = occurrences k words.
Proof.
  intro Hin. rewrite <- count_of_Counter.
  symmetry. apply count_of_entry; [apply Counter_keys_NoDup | exact Hin].
Qed.

Lemma insert_by_count_perm (x : str * nat) (sorted : list (str * nat)) :
  Permutation (insert_by_count x sorted) (x :: sorted).
Proof.
  induction sorted as [|y rest IH]; cbn [insert_by_count];
    [apply Permutation_refl|].
  destruct (snd y <=? snd x); [apply Permutation_refl|].
  eapply perm_trans; [apply perm_skip, IH | apply perm_swap].
Qed.

Lemma sort_by_count_perm (counts : list (str * nat)) :
  Permutation (sort_by_count counts) counts.
Proof.
  unfold sort_by_count.
  induction counts as [|x rest IH]; cbn [fold_right];
    [apply Permutation_refl|].
  eapply perm_trans; [apply insert_by_count_perm | now apply perm_skip].
Qed.

Lemma insert_by_count_sorted (x : str * nat) (sorted : list (str * nat)) :
  StronglySorted by_count_desc sorted ->
  StronglySorted by_count_desc (insert_by_count x sorted).
Proof.
  induction sorted as [|y rest IH]; cbn [insert_by_count]; intro H.
  - constructor; constructor.
  - apply StronglySorted_inv in H. destruct H as [Hrest Hy].
    destruct (snd y <=? snd x) eqn:E.
    + apply Nat.leb_le in E. constructor.
      * now constructor.
      * constructor; [exact E|].
        eapply Forall_impl; [|exact Hy].
        unfold by_count_desc. intros z Hz. lia.
    + apply Nat.leb_gt in E. constructor; [now apply IH|].
      apply Forall_forall. intros z Hz.
      destruct (insert_by_count_In _ _ _ Hz) as [-> | Hin].
      * unfold by_count_desc. lia.
      * rewrite Forall_forall in Hy. now apply Hy.
Qed.

Lemma sort_by_count_sorted (counts : list (str * nat)) :
  StronglySorted by_count_desc (sort_by_count counts).
Proof.
  unfold sort_by_count.
  induction counts as [|x rest IH]; cbn [fold_right]; [constructor|].
  now apply insert_by_count_sorted.
Qed.

Lemma firstn_sorted {A : Type} (R : A -> A -> Prop) (n : nat) (l : list A) :
  StronglySorted R l -> StronglySorted R (firstn n l).
Proof.
  revert l. induction n as [|n IH]; intros [|x l] H; cbn [firstn];
    try constructor.
  - apply IH. now apply StronglySorted_inv in H.
  - apply StronglySorted_inv in H. destruct H as [_ Hx].
    apply Forall_forall. intros y Hy. rewrite Forall_forall in Hx.
    apply Hx. now apply firstn_In in Hy.
Qed.

Lemma firstn_NoDup {A : Type} (n : nat) (l : list A) :
  NoDup l -> NoDup (firstn n l).
Proof.
  revert l. induction n as [|n IH]; intros [|x l] H; cbn [firstn];
    try constructor.
  - inversion H as [|y ys Hnotin _]; subst. intro Hin.
    apply Hnotin. now apply firstn_In in Hin.
  - inversion H; subst. now apply IH.
Qed.

Lemma sorted_nth {A : Type} (R : A -> A -> Prop) (l : list A) :
  StronglySorted R l ->
  forall i j x y,
    i < j -> nth_error l i = Some x -> nth_error l j = Some y -> R x y.
Proof.
  induction 1 as [|a l Hl IH Ha]; intros i j x y Hij Hi Hj.
  - destruct i; discriminate.
  - destruct j as [|j]; [lia|]. cbn [nth_error] in Hj.
    destruct i as [|i]; cbn [nth_error] in Hi.
    + injection Hi as <-. rewrite Forall_forall in Ha. apply Ha.
      eapply nth_error_In. exact Hj.
    + apply (IH i j); [lia | exact Hi | exact Hj].
Qed.

Lemma NoDup_map_filter {K V : Type} (key : V -> K) (keep : V -> bool) :
  forall entries,
    NoDup (map key entries) -> NoDup (map key (filter keep entries)).
Proof.
  intro entries.
  induction entries as [|x l IH]; cbn [map filter]; [trivial|].
  intro H. inversion H as [|y ys Hnotin Hrest]; subst.
  destruct (keep x); cbn [map]; [|now apply IH].
  constructor; [|now apply IH].
  intro Hin. apply Hnotin. apply in_map_iff in Hin.
  destruct Hin as (z & Hz & Hin). apply filter_In in Hin.
  apply in_map_iff. exists z. tauto.
Qed.

Lemma NoDup_map_on {K V : Type} (key : V -> K) (items : list V) :
  (forall a b, In a items -> In b items -> key a = key b -> a = b) ->
  NoDup items -> NoDup (map key items).
Proof.
  induction items as [|x l IH]; cbn [map]; intros Hinj H; [constructor|].
  inversion H as [|y ys Hnotin Hrest]; subst. constructor.
  - intro Hin. apply in_map_iff in Hin. destruct Hin as (z & Hz & Hin).
    assert (z = x) by (apply Hinj; [now right | now left | exact Hz]).
    subst z. contradiction.
  - apply IH; [|exact Hrest].
    intros a b Ha Hb. apply Hinj; now right.
Qed.

Lemma findall_length (n : nat) (text w : str) :
  In w (findall_alpha n text) -> n <= length w.
Proof.
  unfold findall_alpha. intro H. apply filter_In in H.
  destruct H as [_ H]. apply andb_true_iff in H. destruct H as [_ H].
  now apply Nat.leb_le.
Qed.

Lemma upper_az_is_AZ (c : pychar) : is_az c = true -> is_AZ (upper_ascii c) = true.
Proof. each_char c. Qed.

Lemma title_from_true_az (w : str) :
  forallb is_az w = true -> title_from true w = w.
Proof.
  induction w as [|c w IH]; cbn [forallb title_from]; [reflexivity|].
  rewrite andb_true_iff. intros [Hc Hw].
  rewrite (az_is_alpha _ Hc), (lower_char_az _ Hc). f_equal. now apply IH.
Qed.

Lemma title_az (c : pychar) (w : str) :
  forallb is_az (c :: w) = true -> title (c :: w) = upper_ascii c :: w.
Proof.
  cbn [forallb]. rewrite andb_true_iff. intros [Hc Hw].
  unfold title. cbn [title_from]. rewrite (az_is_alpha _ Hc).
  f_equal. now apply title_from_true_az.
Qed.

Lemma occurrences_filter_le (p : str -> bool) (w : str) (words : list str) :
  occurrences w (filter p words) <= occurrences w words.
Proof.
  unfold occurrences. induction words as [|x words IH]; cbn [filter];
    [apply Nat.le_refl|].
  destruct (p x); cbn [filter]; destruct (str_eqb w x); cbn [length]; lia.
Qed.

(** The two shapes of an analysis: the no-content one, and the one computed
    from the analyzed text. *)
Lemma analyze_agent_cases (state : ResearchState) (a : AnalysisResult) :
  analysis_result (analyze_agent state) = Some a ->
  (keywords a = [] /\ themes a = [])
  \/ (keywords a
      = firstn 10
          (map fst
             (most_common 12
                (Counter (findall_alpha 4 (analyzed_text state)))))
      /\ themes a
         = extract_meaningful_themes
             (map doc_raw_content
                (filter (fun d => truthy (doc_raw_content d))
                        (get (raw_documents state) [])))
             (get (topic_query state) [])).
Proof.
  unfold analyze_agent, analyzed_text.
  destruct (negb _); cbn [analysis_result]; intros [= <-];
    [left | right]; split; reflexivity.
Qed.

(** A theme comes from a word counted more than once among the words of the
    analyzed text that are not stop words. *)
Lemma theme_word (texts : list str) (topic theme : str) :
  In theme (extract_meaningful_themes texts topic) ->
  exists w c,
    theme = title w
    /\ In (w, c)
         (Counter
            (filter (fun w => negb (mem w (base_stop_words
                                             ++ split_ws (lower topic))))
                    (findall_alpha 5 (lower (join (py " ") texts)))))
    /\ 1 < c.
Proof.
  unfold extract_meaningful_themes. intro H.
  apply firstn_In in H. apply in_map_iff in H.
  destruct H as ([w c] & <- & Hw). cbn [fst].
  apply filter_In in Hw. destruct Hw as [Hw Hc]. cbn [snd] in Hc.
  unfold most_common in Hw. apply firstn_In in Hw.
  apply sort_by_count_In in Hw.
  exists w, c. repeat split; [exact Hw | now apply Nat.ltb_lt].
Qed.

Lemma keyword_entry (text k : str) :
  In k (firstn 10 (map fst (most_common 12 (Counter (findall_alpha 4 text)))))
  -> In k (findall_alpha 4 text).
Proof.
  intro H. apply firstn_In in H. apply in_map_iff in H.
  destruct H as ([k' c] & <- & H). cbn [fst].
  unfold most_common in H. apply firstn_In in H.
  apply sort_by_count_In in H. now apply Counter_keys in H.
Qed.

(** X7.  Every keyword is a word of at least 4 letters a-z.  Every theme
    has at least 5 letters: a capital A-Z followed by letters a-z. *)
Theorem keyword_and_theme_shape (state : ResearchState) (a : AnalysisResult) :
  analysis_result (analyze_agent state) = Some a ->
  Forall (fun k => forallb is_az k = true /\ 4 <= length k) (keywords a)
  /\ Forall (fun t => exists c rest,
                 t = c :: rest /\ is_AZ c = true
                 /\ forallb is_az rest = true /\ 5 <= length t)
            (themes a).
Proof.
  intro Ha. destruct (analyze_agent_cases state a Ha) as [[-> ->] | [-> ->]].
  - split; constructor.
  - split; apply Forall_forall.
    + intros k Hk. apply keyword_entry in Hk. split.
      * exact (findall_lower_az _ _ _ Hk).
      * exact (findall_length _ _ _ Hk).
    + intros t Ht. destruct (theme_word _ _ _ Ht) as (w & c & -> & Hw & _).
      apply Counter_keys in Hw. apply filter_In in Hw.
      destruct Hw as [Hw _].
      pose proof (findall_lower_az _ _ _ Hw) as Haz.
      pose proof (findall_length _ _ _ Hw) as Hlen.
      destruct w as [|c0 w]; [cbn in Hlen; lia|].
      rewrite (title_az _ _ Haz).
      cbn [forallb] in Haz. apply andb_true_iff in Haz.
      destruct Haz as [Hc0 Hrest].
      exists (upper_ascii c0), w. repeat split.
      * now apply upper_az_is_AZ.
      * exact Hrest.
      * exact Hlen.
Qed.

Lemma keyword_and_theme_shape_witness :
  exists a,
    analysis_result (analyze_agent solar_state) = Some a
    /\ Forall (fun k => forallb is_az k = true /\ 4 <= length k) (keywords a).
Proof.
  eexists. split; [vm_compute; reflexivity|].
  refine (proj1 (keyword_and_theme_shape solar_state _ _)).
  vm_compute. reflexivity.
Defined.

Lemma ranked_words_az (p : str * nat -> bool) (q : str -> bool) (n : nat)
    (text z : str) :
  In z (map fst
          (filter p
             (most_common n
                (Counter (filter q (findall_alpha 5 (lower text))))))) ->
  forallb is_az z = true.
Proof.
  intro Hz. apply in_map_iff in Hz.
  destruct Hz as ([z' c] & <- & Hz). cbn [fst].
  apply filter_In in Hz. destruct Hz as [Hz _].
  unfold most_common in Hz. apply firstn_In in Hz.
  apply sort_by_count_In in Hz. apply Counter_keys in Hz.
  apply filter_In in Hz. destruct Hz as [Hz _].
  exact (findall_lower_az _ _ _ Hz).
Qed.

(** X8.  No keyword is listed twice, and no theme is listed twice. *)
Theorem keywords_and_themes_distinct (state : ResearchState)
    (a : AnalysisResult) :
  analysis_result (analyze_agent state) = Some a ->
  NoDup (keywords a) /\ NoDup (themes a).
Proof.
  intro Ha. destruct (analyze_agent_cases state a Ha) as [[-> ->] | [-> ->]].
  - split; constructor.
  - split.
    + apply firstn_NoDup. unfold most_common. rewrite <- firstn_map.
      apply firstn_NoDup.
      eapply Permutation_NoDup;
        [apply Permutation_sym, Permutation_map, sort_by_count_perm|].
      apply Counter_keys_NoDup.
    + unfold extract_meaningful_themes. apply firstn_NoDup.
      rewrite <- (map_map fst title).
      apply NoDup_map_on.
      * intros x y Hx Hy Hxy.
        pose proof (ranked_words_az _ _ _ _ x Hx) as Hax.
        pose proof (ranked_words_az _ _ _ _ y Hy) as Hay.
        rewrite <- (lower_title_az x Hax), <- (lower_title_az y Hay).
        now rewrite Hxy.
      * apply NoDup_map_filter. unfold most_common. rewrite <- firstn_map.
        apply firstn_NoDup.
        eapply Permutation_NoDup;
          [apply Permutation_sym, Permutation_map, sort_by_count_perm|].
        apply Counter_keys_NoDup.
Qed.

Lemma keywords_and_themes_distinct_witness :
  exists a,
    analysis_result (analyze_agent solar_state) = Some a
    /\ NoDup (keywords a) /\ NoDup (themes a).
Proof.
  eexists. split; [vm_compute; reflexivity|].
  apply (keywords_and_themes_distinct solar_state).
  vm_compute. reflexivity.
Defined.

(** X9.  The keywords are ranked by frequency: a keyword listed before
    another occurs at least as often among the words of 4 or more letters of
    the analyzed text. *)
Theorem keywords_ranked_by_frequency (state : ResearchState)
    (a : AnalysisResult) (i j : nat) (ki kj : str) :
  analysis_result (analyze_agent state) = Some a ->
  i < j ->
  nth_error (keywords a) i = Some ki ->
  nth_error (keywords a) j = Some kj ->
  occurrences kj (findall_alpha 4 (analyzed_text state))
  <= occurrences ki (findall_alpha 4 (analyzed_text state)).
Proof.
  intros Ha Hij Hi Hj.
  destruct (analyze_agent_cases state a Ha) as [[Hk _] | [Hk _]];
    rewrite Hk in Hi, Hj.
  - destruct i; discriminate.
  - rewrite firstn_map in Hi, Hj. rewrite nth_error_map in Hi, Hj.
    set (ranked := firstn 10
                     (most_common 12
                        (Counter (findall_alpha 4 (analyzed_text state)))))
      in *.
    destruct (nth_error ranked i) as [[ki' ci]|] eqn:Ei; [|discriminate].
    destruct (nth_error ranked j) as [[kj' cj]|] eqn:Ej; [|discriminate].
    cbn in Hi, Hj. injection Hi as ->. injection Hj as ->.
    assert (Hsorted : StronglySorted by_count_desc ranked).
    { apply firstn_sorted. unfold most_common. apply firstn_sorted.
      apply sort_by_count_sorted. }
    assert (Hentry : forall k c,
               In (k, c) ranked ->
               c = occurrences k (findall_alpha 4 (analyzed_text state))).
    { intros k c Hin. apply firstn_In in Hin.
      unfold most_common in Hin. apply firstn_In in Hin.
      apply sort_by_count_In in Hin. now apply Counter_entry. }
    pose proof (sorted_nth _ _ Hsorted i j _ _ Hij Ei Ej) as Hle.
    unfold by_count_desc in Hle. cbn [snd] in Hle.
    rewrite <- (Hentry ki ci (nth_error_In _ _ Ei)).
    rewrite <- (Hentry kj cj (nth_error_In _ _ Ej)).
    exact Hle.
Qed.

Lemma keywords_ranked_by_frequency_witness :
  occurrences (py "energy") (findall_alpha 4 (analyzed_text solar_state))
  <= occurrences (py "panels") (findall_alpha 4 (analyzed_text solar_state)).
Proof.
  destruct (analyze_agent_update solar_state) as [a Ha].
  assert (Hres : analysis_result (analyze_agent solar_state) = Some a)
    by now rewrite Ha.
  apply (keywords_ranked_by_frequency solar_state a 0 1 _ _ Hres);
    [lia | |];
    vm_compute in Hres; injection Hres as <-; reflexivity.
Defined.

(** X10.  Every theme is the capitalised form of a word that occurs at
    least twice among the words of 5 or more letters of the analyzed text
    and that is neither one of the fixed stop words nor a word of the
    lower-cased topic. *)
Theorem themes_occur_twice (state : ResearchState) (a : AnalysisResult)
    (theme : str) :
  analysis_result (analyze_agent state) = Some a ->
  In theme (themes a) ->
  exists w,
    theme = title w
    /\ 2 <= occurrences w (findall_alpha 5 (analyzed_text state))
    /\ ~ In w base_stop_words
    /\ ~ In w (split_ws (lower (get (topic_query state) []))).
Proof.
  intros Ha Ht.
  destruct (analyze_agent_cases state a Ha) as [[_ Hth] | [_ Hth]];
    rewrite Hth in Ht; [destruct Ht|].
  destruct (theme_word _ _ _ Ht) as (w & c & -> & Hw & Hc).
  exists w. split; [reflexivity|].
  pose proof (Counter_entry _ _ _ Hw) as Hocc.
  apply Counter_keys in Hw. apply filter_In in Hw. destruct Hw as [_ Hstop].
  apply negb_true_iff in Hstop.
  split; [|split].
  - unfold analyzed_text.
    eapply Nat.le_trans; [|apply occurrences_filter_le]. rewrite <- Hocc. lia.
  - intro Hin.
    assert (Hm : mem w (base_stop_words
                          ++ split_ws (lower (get (topic_query state) [])))
                 = true).
    { apply mem_In, in_or_app. now left. }
    congruence.
  - intro Hin.
    assert (Hm : mem w (base_stop_words
                          ++ split_ws (lower (get (topic_query state) [])))
                 = true).
    { apply mem_In, in_or_app. now right. }
    congruence.
Qed.

Lemma themes_occur_twice_witness :
  exists w,
    py "Panels" = title w
    /\ 2 <= occurrences w (findall_alpha 5 (analyzed_text solar_state)).
Proof.
  destruct (analyze_agent_update solar_state) as [a Ha].
  assert (Hres : analysis_result (analyze_agent solar_state) = Some a)
    by now rewrite Ha.
  destruct (themes_occur_twice solar_state a (py "Panels") Hres)
    as (w & Hw & Hocc & _).
  - vm_compute in Hres. injection Hres as <-. left. reflexivity.
  - exists w. split; assumption.
Defined.

(** ** agents/validator_agent.py: the whole result *)

Lemma validator_agent_result (state : ResearchState) :
  validation_result (validator_agent state)
  = Some (mkValidation
            (3 <=? length (get (raw_documents state) []))
            (0 <? length (themes_of state))
            (if 2 <? length (get (raw_documents state) [])
             then py "good" else py "poor")
            (length (get (raw_documents state) []))
            (length (themes_of state))
            (listed_recommendations
               (length (get (raw_documents state) []))
               (length (themes_of state)))).
Proof.
  unfold validator_agent, listed_recommendations.
  rewrite truthy_length.
  generalize (length (get (raw_documents state) [])). intro d.
  generalize (length (themes_of state)). intro t.
  destruct t; cbn [Nat.ltb Nat.leb negb Nat.eqb];
    destruct (d <=? 1) eqn:E1; destruct d as [|[|[|[|[|d]]]]];
    try discriminate; reflexivity.
Qed.

(** X11.  The validation result records the number of documents and of
    themes.  It holds at most two recommendations, never both the
    expand-search and the excellent-diversity message, and none at all
    exactly when there are 2 to 4 documents and at least one theme. *)
Theorem validator_counts_and_limits (state : ResearchState) :
  let d := length (get (raw_documents state) []) in
  let t := length (themes_of state) in
  exists v,
    validation_result (validator_agent state) = Some v
    /\ source_count v = d
    /\ theme_count v = t
    /\ length (recommendations v) <= 2
    /\ ~ (In msg_expand_search (recommendations v)
          /\ In msg_excellent_diversity (recommendations v))
    /\ (recommendations v = [] <-> (2 <= d < 5 /\ 0 < t)).
Proof.
  intros d t. rewrite validator_agent_result. fold d. fold t.
  eexists. split; [reflexivity|].
  cbn [source_count theme_count recommendations].
  split; [reflexivity|]. split; [reflexivity|].
  unfold listed_recommendations.
  destruct (Nat.ltb_spec d 2) as [H2|H2], (Nat.eqb_spec t 0) as [H0|H0],
           (Nat.leb_spec 5 d) as [H5|H5];
    try (exfalso; lia); cbn [app length].
  all: split; [lia|].
  all: split;
    [intros [E1 E2];
     apply (proj2 (mem_In _ _)) in E1; apply (proj2 (mem_In _ _)) in E2;
     vm_compute in E1, E2; first [discriminate E1 | discriminate E2]
    |].
  all: split; intro H; try discriminate H; try (exfalso; lia); try lia;
    try reflexivity.
Qed.

(** ** utils/pdf_utils.py: what the structurer keeps *)

Lemma save_section_lines (acc : list SectionDict) (sec : SectionDict) :
  flat_map section_lines (save_section acc sec)
  = flat_map section_lines acc ++ section_lines sec.
Proof.
  unfold save_section, has_title_or_content, section_lines.
  destruct (truthy (sec_title sec)) eqn:Et; cbn [orb].
  - rewrite flat_map_app. cbn [flat_map]. rewrite Et. now rewrite app_nil_r.
  - destruct (sec_content sec) as [|c cs] eqn:Ec; cbn [truthy].
    + cbn [app]. now rewrite app_nil_r.
    + rewrite flat_map_app. cbn [flat_map]. rewrite Et, Ec.
      now rewrite app_nil_r.
Qed.

Lemma structure_line_lines (st : Structurer) (raw_line : str) :
  all_lines (structure_line st raw_line)
  = all_lines st
    ++ (if truthy (strip raw_line) then [strip raw_line] else []).
Proof.
  unfold structure_line.
  destruct (truthy (strip raw_line)) eqn:Hline; cbn [negb].
  - destruct (is_header (strip raw_line) && _).
    + unfold all_lines. cbn [sections current_section].
      rewrite save_section_lines. unfold section_lines at 3.
      cbn [sec_title sec_content]. rewrite Hline. now rewrite app_nil_r.
    + unfold all_lines. cbn [sections current_section].
      unfold section_lines. cbn [sec_title sec_content].
      now rewrite !app_assoc.
  - now rewrite app_nil_r.
Qed.

Lemma structure_lines_all (lines : list str) :
  forall st,
    all_lines (fold_left structure_line lines st)
    = all_lines st ++ filter truthy (map strip lines).
Proof.
  induction lines as [|raw rest IH]; intro st; cbn [fold_left map filter].
  - now rewrite app_nil_r.
  - rewrite IH, structure_line_lines.
    destruct (truthy (strip raw)); [|now rewrite app_nil_r].
    now rewrite <- app_assoc.
Qed.

Lemma section_lines_are_body_lines (summary : str) :
  flat_map section_lines (clean_summary_text summary) = body_lines summary.
Proof.
  unfold clean_summary_text. rewrite save_section_lines.
  exact (structure_lines_all (split_char nl (sub_headers summary))
           (mkStructurer [] (mkSection [] [] [] None) 0)).
Qed.

(** X13.  Structuring loses no line and keeps the order: the titles and
    content lines of the sections, read in order, are exactly the stripped
    non-blank lines of the narrative without its '#' markers. *)
Theorem structurer_keeps_all_lines (summary : str) :
  flat_map section_lines (clean_summary_text summary) = body_lines summary.
Proof. exact (section_lines_are_body_lines summary). Qed.

Lemma save_untitled_preamble (content : list str) :
  preamble (save_section [] (mkSection [] content [] None)).
Proof.
  unfold save_section, has_title_or_content, preamble.
  cbn [sec_title sec_content truthy orb].
  destruct content as [|c cs]; cbn [truthy app]; [now left|].
  right. exists (c :: cs). split; [discriminate | reflexivity].
Qed.

Lemma with_no_lines (sec : SectionDict) : with_lines sec [] = sec.
Proof.
  destruct sec. unfold with_lines. cbn. now rewrite app_nil_r.
Qed.

(** What the loop and the final append make of the lines still to read:
    the current section takes the lines up to the next header, and every
    header after that opens a section of its own. *)
Lemma structure_lines_grouped (lines : list str) :
  forall st,
    let st' := fold_left structure_line lines st in
    save_section (sections st') (current_section st')
    = save_section (sections st)
        (with_lines (current_section st)
           (lines_before_header (filter truthy (map strip lines))))
      ++ sections_from (S (section_counter st))
           (filter truthy (map strip lines)).
Proof.
  induction lines as [|raw rest IH]; intro st; cbn [fold_left map filter].
  - cbn [lines_before_header sections_from].
    now rewrite with_no_lines, app_nil_r.
  - cbv zeta in *. unfold structure_line at 2 4.
    destruct (truthy (strip raw)) eqn:Hline; cbn [negb]; [|apply IH].
    cbn [lines_before_header sections_from]. unfold opens_section.
    destruct (is_header (strip raw) && (length (strip raw) <? 100)).
    + rewrite IH. cbn [sections current_section section_counter].
      rewrite with_no_lines.
      unfold save_section at 1, has_title_or_content, with_lines.
      cbn [sec_title sec_content sec_original_title sec_number app].
      rewrite Hline. cbn [orb]. now rewrite <- app_assoc.
    + rewrite IH. cbn [sections current_section section_counter].
      unfold with_lines.
      cbn [sec_title sec_content sec_original_title sec_number].
      now rewrite <- app_assoc.
Qed.

(** X12.  The sections come as an optional leading section without title
    and number, which holds the lines before the first header, followed by
    the sections opened by header lines: every header line opens one, these
    are numbered 1, 2, 3, ... in order, the title of each is its header
    line, not empty, shorter than 100 characters, kept as "original_title"
    too, and its content is the lines between this header and the next. *)
Theorem structurer_numbers_sections (summary : str) :
  exists before titled,
    clean_summary_text summary = before ++ titled
    /\ preamble before
    /\ numbered_from_one titled
    /\ Forall titled_section titled
    /\ flat_map sec_content before
       = lines_before_header (body_lines summary)
    /\ titled = sections_from 1 (body_lines summary)
    /\ map sec_title titled = filter opens_section (body_lines summary).
Proof.
  assert (Hgroup :
            clean_summary_text summary
            = save_section []
                (mkSection [] (lines_before_header (body_lines summary))
                           [] None)
              ++ sections_from 1 (body_lines summary)).
  { unfold clean_summary_text. cbv zeta.
    exact (structure_lines_grouped (split_char nl (sub_headers summary))
             (mkStructurer [] (mkSection [] [] [] None) 0)). }
  assert (Htitles : forall lines k,
             map sec_title (sections_from k lines)
             = filter opens_section lines).
  { induction lines as [|line rest IH]; intro k;
      cbn [sections_from filter map]; [reflexivity|].
    destruct (opens_section line); cbn [map sec_title]; now rewrite IH. }
  assert (Hshape : forall lines k,
             Forall (fun line => truthy line = true) lines ->
             map sec_number (sections_from k lines)
             = map Some (seq k (length (sections_from k lines)))
             /\ Forall titled_section (sections_from k lines)).
  { induction lines as [|line rest IH]; intros k Hlines;
      cbn [sections_from]; [split; [reflexivity | constructor]|].
    inversion Hlines as [|? ? Hline Hrest]; subst.
    destruct (opens_section line) eqn:Hopen; [|now apply IH].
    destruct (IH (S k) Hrest) as [Hnum Hall].
    split.
    - cbn [map length seq sec_number]. now rewrite Hnum.
    - constructor; [|exact Hall].
      unfold opens_section in Hopen. apply andb_true_iff in Hopen.
      destruct Hopen as [Hh Hlen]. apply Nat.ltb_lt in Hlen.
      unfold titled_section. cbn [sec_title sec_original_title].
      split; [intro E; rewrite E in Hline; discriminate|].
      split; [exact Hlen|]. split; [exact Hh | reflexivity]. }
  assert (Hlines : Forall (fun line => truthy line = true)
                          (body_lines summary)).
  { apply Forall_forall. intros line Hin. unfold body_lines in Hin.
    apply filter_In in Hin. tauto. }
  destruct (Hshape _ 1 Hlines) as [Hnum Hall].
  exists (save_section []
            (mkSection [] (lines_before_header (body_lines summary))
                       [] None)),
    (sections_from 1 (body_lines summary)).
  split; [exact Hgroup|].
  split; [apply save_untitled_preamble|].
  split; [exact Hnum|].
  split; [exact Hall|].
  split; [|split; [reflexivity | apply Htitles]].
  unfold save_section, has_title_or_content.
  cbn [sec_title sec_content truthy orb].
  destruct (lines_before_header (body_lines summary)); cbn; 
    [reflexivity | now rewrite app_nil_r].
Qed.

Lemma structurer_numbers_sections_example :
  clean_summary_text
    (lines_of "a plain line|# Findings|first|second|Conclusion|last")
  = [mkSection [] [py "a plain line"] [] None;
     mkSection (py "Findings") [py "first"; py "second"] (py "Findings")
               (Some 1);
     mkSection (py "Conclusion") [py "last"] (py "Conclusion") (Some 2)].
Proof. vm_compute. reflexivity. Qed.

(** *** No header marker survives *)

Lemma chr_eqb_false (c d : pychar) : chr_eqb c d = false -> c <> d.
Proof.
  intros H ->. unfold chr_eqb in H. rewrite N.eqb_refl in H. discriminate.
Qed.

Lemma sub_headers_from_In (s : str) :
  forall mode c,
    In c (sub_headers_from mode s) -> In c s /\ chr_eqb c hash = false.
Proof.
  induction s as [|c0 s IH]; intros mode c; cbn [sub_headers_from];
    [intros []|].
  destruct (chr_eqb c0 hash) eqn:Eh.
  - intro H. destruct (IH _ _ H). split; [now right | assumption].
  - destruct mode.
    + intros [<- | H]; [split; [now left | exact Eh]|].
      destruct (IH _ _ H). split; [now right | assumption].
    + destruct (isspace c0).
      * intro H. destruct (IH _ _ H). split; [now right | assumption].
      * intros [<- | H]; [split; [now left | exact Eh]|].
        destruct (IH _ _ H). split; [now right | assumption].
    + destruct (isspace c0).
      * intro H. destruct (IH _ _ H). split; [now right | assumption].
      * intros [<- | H]; [split; [now left | exact Eh]|].
        destruct (IH _ _ H). split; [now right | assumption].
Qed.

Lemma sub_headers_without_hash (s : str) :
  (forall c, In c s -> chr_eqb c hash = false) -> sub_headers s = s.
Proof.
  unfold sub_headers. induction s as [|c s IH]; intro H;
    cbn [sub_headers_from]; [reflexivity|].
  rewrite (H c (or_introl eq_refl)). f_equal.
  apply IH. intros d Hd. apply H. now right.
Qed.

Lemma lstrip_In (s : str) (c : pychar) : In c (lstrip s) -> In c s.
Proof.
  induction s as [|d s IH]; cbn [lstrip]; [trivial|].
  destruct (isspace d); [|trivial]. intro H. right. now apply IH.
Qed.

Lemma strip_In (s : str) (c : pychar) : In c (strip s) -> In c s.
Proof.
  unfold strip, rstrip. intro H. apply in_rev in H.
  apply lstrip_In in H. apply in_rev in H. now apply lstrip_In.
Qed.

Lemma split_char_In (sep : pychar) (s : str) :
  forall piece c,
    In piece (split_char sep s) -> In c piece ->
    In c s /\ chr_eqb c sep = false.
Proof.
  induction s as [|c0 s IH]; intros piece c; cbn [split_char].
  - intros [<- | []] [].
  - destruct (chr_eqb c0 sep) eqn:E.
    + intros [<- | H] Hc; [destruct Hc|].
      destruct (IH _ _ H Hc). split; [now right | assumption].
    + destruct (split_char sep s) as [|p rest] eqn:Es.
      * intros [<- | []] [<- | []]. split; [now left | exact E].
      * intros [<- | H] Hc.
        -- destruct Hc as [<- | Hc]; [split; [now left | exact E]|].
           destruct (IH p c (or_introl eq_refl) Hc).
           split; [now right | assumption].
        -- destruct (IH piece c (or_intror H) Hc).
           split; [now right | assumption].
Qed.

Lemma body_line_clean (summary line : str) :
  In line (body_lines summary) ->
  line <> [] /\ ~ In hash line /\ ~ In nl line.
Proof.
  unfold body_lines. intro H. apply filter_In in H.
  destruct H as [H Hne]. apply in_map_iff in H.
  destruct H as (raw & <- & Hraw).
  split; [intro E; rewrite E in Hne; discriminate|].
  split; intro Hc; apply strip_In in Hc;
    destruct (split_char_In _ _ _ _ Hraw Hc) as [Hin Hsep].
  - destruct (sub_headers_from_In _ _ _ Hin) as [_ Hh].
    unfold chr_eqb in Hh. rewrite N.eqb_refl in Hh. discriminate.
  - unfold chr_eqb in Hsep. rewrite N.eqb_refl in Hsep. discriminate.
Qed.

(** X14.  No title and no content line of a section is empty, contains a
    '#' or contains a line feed; and removing the '#' markers beforehand
    changes nothing: the marker removal leaves a text without them
    untouched. *)
Theorem structurer_lines_clean (summary : str) :
  Forall (fun line => line <> [] /\ ~ In hash line /\ ~ In nl line)
         (flat_map section_lines (clean_summary_text summary))
  /\ sub_headers (sub_headers summary) = sub_headers summary
  /\ clean_summary_text (sub_headers summary) = clean_summary_text summary.
Proof.
  assert (Hid : sub_headers (sub_headers summary) = sub_headers summary).
  { apply sub_headers_without_hash. intros c Hc.
    exact (proj2 (sub_headers_from_In _ _ _ Hc)). }
  split; [|split].
  - rewrite section_lines_are_body_lines. apply Forall_forall.
    intros line Hline. exact (body_line_clean _ _ Hline).
  - exact Hid.
  - unfold clean_summary_text. now rewrite Hid.
Qed.

(** ** utils/pdf_utils.py: bullets *)

Lemma lstrip_keeps_nonspace (s : str) (c : pychar) :
  In c s -> isspace c = false -> lstrip s <> [].
Proof.
  induction s as [|d s IH]; [intros []|]. cbn [lstrip].
  intros Hin Hc. destruct (isspace d) eqn:Ed; [|discriminate].
  destruct Hin as [-> | Hin]; [congruence | now apply IH].
Qed.

Lemma strip_nonspace_head (c : pychar) (s : str) :
  isspace c = false -> strip (c :: s) <> [].
Proof.
  intro Hc. unfold strip. cbn [lstrip]. rewrite Hc. unfold rstrip.
  intro E.
  assert (E' : lstrip (rev (c :: s)) = []).
  { apply (f_equal (@rev pychar)) in E. now rewrite rev_involutive in E. }
  apply (lstrip_keeps_nonspace (rev (c :: s)) c); [|exact Hc | exact E'].
  rewrite <- in_rev. now left.
Qed.

Lemma bullet_line_head (c : pychar) (s : str) :
  is_bullet_line (c :: s) = true -> isspace c = false.
Proof.
  unfold is_bullet_line, starts_with_bullet, match_number_dot,
    after_number_dot, match_star_space.
  intro H.
  assert (Hc : is_bullet_char c || is_digit c || chr_eqb c star = true).
  { destruct (is_bullet_char c); [reflexivity|].
    destruct (is_digit c); [reflexivity|]. cbn [orb] in *.
    destruct s as [|d s']; [discriminate|].
    apply andb_true_iff in H. tauto. }
  clear H. revert Hc. now each_char c.
Qed.

Lemma blank_is_no_bullet_line (s : str) :
  strip s = [] -> is_bullet_line s = false.
Proof.
  intro Hs. destruct s as [|c s]; [reflexivity|].
  destruct (is_bullet_line (c :: s)) eqn:E; [|reflexivity].
  exfalso. exact (strip_nonspace_head c s (bullet_line_head c s E) Hs).
Qed.

(** The paragraph [format_bullet_points] asks for on one line: at most
    one, in the bullet style exactly when [extract_bullet_content] finds an
    item on the line. *)
Lemma format_line_asks (env : Env) (raw_line : str) :
  exists paragraphs,
    format_line env raw_line = construct_all env paragraphs
    /\ bullet_texts paragraphs
       = map (fun b => bullet_text ++ b) (extract_line raw_line)
    /\ Forall (fun f => exists t,
                   t <> []
                   /\ (f = Paragraph t style_normal
                       \/ f = Paragraph t style_bullet)) paragraphs
    /\ length paragraphs <= 1
    /\ (extract_line raw_line = [] ->
        paragraphs = firstn 1 (prose_paragraph raw_line)).
Proof.
  unfold format_line, extract_line, prose_paragraph.
  destruct (strip raw_line) as [|c line] eqn:Hline; cbn [truthy negb].
  - exists []. split; [reflexivity|]. split; [reflexivity|].
    split; [constructor|]. split; [cbn; lia|]. intros _. reflexivity.
  - destruct (strip (strip_markdown (c :: line))) as [|c1 clean] eqn:Hclean;
      cbn [truthy negb andb].
    + exists []. rewrite (blank_is_no_bullet_line _ Hclean).
      split; [reflexivity|]. split; [reflexivity|].
      split; [constructor|]. split; [cbn; lia|]. intros _. reflexivity.
    + destruct (is_bullet_line (strip_markdown (c :: line))); cbn [negb].
      * destruct (strip (strip_bullet_marker (strip_markdown (c :: line))))
          as [|c2 final] eqn:Hfinal; cbn [truthy].
        -- exists []. split; [reflexivity|]. split; [reflexivity|].
           split; [constructor|]. split; [cbn; lia|]. intros _. reflexivity.
        -- eexists [_]. split; [reflexivity|]. split; [reflexivity|].
           split; [|split; [cbn; lia | discriminate]].
           constructor; [|constructor].
           eexists. split; [|right; reflexivity]. discriminate.
      * eexists [_]. split; [reflexivity|]. split; [reflexivity|].
        split; [|split; [cbn; lia | reflexivity]].
        constructor; [|constructor].
        eexists. split; [|left; reflexivity]. discriminate.
Qed.

(** X15.  [format_bullet_points] and [extract_bullet_content] agree on what
    a bullet is: the paragraphs the first asks for in the bullet style are,
    in order, the items the second extracts, each behind the bullet sign.
    No item is empty, and every paragraph asked for has a non-empty text in
    the normal or the bullet style.  They differ in that the first has the
    paragraphs constructed: it returns them when the markup parser accepts
    them all, and raises the parser's error on the first it rejects, where
    the second still returns its items. *)
Theorem bullets_agree (env : Env) (text : str) :
  exists paragraphs,
    format_bullet_points env text = construct_all env paragraphs
    /\ bullet_texts paragraphs
       = map (fun b => bullet_text ++ b) (extract_bullet_content text)
    /\ Forall (fun b => b <> []) (extract_bullet_content text)
    /\ Forall (fun f => exists t,
                   t <> []
                   /\ (f = Paragraph t style_normal
                       \/ f = Paragraph t style_bullet)) paragraphs
    /\ match format_bullet_points env text with
       | Ok built => built = paragraphs
       | Raise e => exists t style,
                      In (Paragraph t style) paragraphs
                      /\ paragraph env t style = Raise e
       end.
Proof.
  assert (H : exists paragraphs,
             format_bullet_points env text = construct_all env paragraphs
             /\ bullet_texts paragraphs
                = map (fun b => bullet_text ++ b)
                      (extract_bullet_content text)
             /\ Forall (fun b => b <> []) (extract_bullet_content text)
             /\ Forall (fun f => exists t,
                            t <> []
                            /\ (f = Paragraph t style_normal
                                \/ f = Paragraph t style_bullet))
                       paragraphs).
  { unfold format_bullet_points, extract_bullet_content.
    induction (split_char nl text) as [|l ls (ps & IH0 & IH1 & IH2 & IH3)];
      cbn [flat_map for_each].
    - exists []. repeat split; constructor.
    - destruct (format_line_asks env l) as (p & Hp0 & Hp1 & Hp2 & _).
      exists (p ++ ps). split; [|split; [|split]].
      + now rewrite construct_all_app, Hp0, IH0.
      + unfold bullet_texts in *. rewrite flat_map_app, map_app.
        now rewrite Hp1, IH1.
      + apply Forall_app. split; [|exact IH2].
        unfold extract_line. destruct (is_bullet_line _); [|constructor].
        destruct (strip (strip_bullet_marker _)); cbn [truthy];
          constructor; [discriminate | constructor].
      + apply Forall_app. now split. }
  destruct H as (paragraphs & H0 & H1 & H2 & H3).
  exists paragraphs. repeat (split; [assumption|]).
  rewrite H0. apply construct_all_cases.
Qed.

(** With a parser that rejects an unclosed "<b>", the line "- <b>x" makes
    [format_bullet_points] raise where [extract_bullet_content] returns
    the item. *)
Lemma bullets_differ_on_rejected_markup :
  format_bullet_points strict_markup (py "- <b>x")
  = Raise (py "Parse error: saw </para> instead of expected </b>")
  /\ extract_bullet_content (py "- <b>x") = [py "<b>x"].
Proof. split; vm_compute; reflexivity. Qed.

(** ** utils/pdf_utils.py: the report file *)





(** A topic the markup parser rejects: neither story can be written, the
    renderer is not called at all, and the path is empty. *)
Lemma no_build_on_rejected_topic :
  exists w',
    generate_pdf strict_markup (py "Energy <b>unclosed") (py "Some text.")
      None [] None world0 = (Ok [], w')
    /\ calls w' = [CallMakedirs (py "outputs"); CallMakedirs (py "outputs")].
Proof. eexists. vm_compute. split; reflexivity. Qed.

Lemma safe_char_plain (c : pychar) :
  is_safe_char c = true ->
  c <> slash /\ c <> dot /\ c <> Latin "\"%char /\ c <> nl.
Proof.
  intro H. repeat split; intros ->; vm_compute in H; discriminate.
Qed.

Lemma rstrip_In (s : str) (c : pychar) : In c (rstrip s) -> In c s.
Proof.
  unfold rstrip. intro H. apply in_rev in H. apply lstrip_In in H.
  now apply in_rev.
Qed.

Lemma safe_topic_chars (topic : str) :
  Forall (fun c => is_safe_char c = true) (safe_topic_of topic).
Proof.
  apply Forall_forall. intros c Hc. unfold safe_topic_of in Hc.
  apply rstrip_In in Hc. apply filter_In in Hc. tauto.
Qed.

(** X17.  The path [generate_pdf] returns is empty or has the form
    "outputs/Research_Report_<part>_<stamp>.pdf", where <part> is made of
    characters of the topic that are alphanumeric, a space, '-' or '_': no
    slash, backslash, dot or line feed of the topic reaches the file name.
    The part is cut to 50 characters when the file was built at the first
    attempt, the directory having been made once; a file built at the
    second attempt, that of the simple report, keeps the whole part. *)
Theorem pdf_path_is_sanitized (env : Env) (topic summary : str)
    (analysis : option AnalysisResult) (documents : list Document)
    (validation : option ValidationResult) (w : World) :
  exists path w' made,
    generate_pdf env topic summary analysis documents validation w
    = (Ok path, w')
    /\ calls w' = made ++ calls w
    /\ (path = []
        \/ exists part stamp,
             path = report_name part stamp
             /\ Forall (fun c => In c topic /\ is_safe_char c = true
                                 /\ c <> slash /\ c <> dot
                                 /\ c <> Latin "\"%char /\ c <> nl) part
             /\ ((part = firstn 50 (safe_topic_of topic)
                  /\ length part <= 50
                  /\ makedirs_calls made = 1)
                 \/ (part = safe_topic_of topic
                     /\ makedirs_calls made = 2))).
Proof.
  assert (Hpart : forall n,
             Forall (fun c => In c topic /\ is_safe_char c = true
                              /\ c <> slash /\ c <> dot
                              /\ c <> Latin "\"%char /\ c <> nl)
                    (firstn n (safe_topic_of topic))).
  { intro n. apply Forall_forall. intros c Hc. apply firstn_In in Hc.
    pose proof (safe_topic_chars topic) as Hs.
    rewrite Forall_forall in Hs. specialize (Hs c Hc).
    split; [|split; [exact Hs | exact (safe_char_plain c Hs)]].
    unfold safe_topic_of in Hc. apply rstrip_In in Hc.
    apply filter_In in Hc. tauto. }
  destruct (generate_pdf_cases env topic summary analysis documents
              validation w)
    as (path & w' & first & second & Hg & Hc & Hcases).
  exists path, w', (second ++ first).
  split; [exact Hg|]. split; [now rewrite <- app_assoc|].
  destruct Hcases
    as [(stamp & story & -> & -> & Eb & ->)
       | (Hfirst & [[_ ->]
                   | (stamp & story & -> & [[Eb ->] | (e & Eb & ->)])])].
  - right. exists (firstn 50 (safe_topic_of topic)), stamp.
    split; [reflexivity|]. split; [apply Hpart|].
    left. split; [reflexivity|].
    split; [apply firstn_le_length | reflexivity].
  - now left.
  - right. exists (safe_topic_of topic), stamp.
    split; [reflexivity|]. split.
    + rewrite <- (firstn_all (safe_topic_of topic)). apply Hpart.
    + right. split; [reflexivity|].
      destruct Hfirst as [-> | (f & st & e1 & -> & _)]; reflexivity.
  - now left.
Qed.

(** A long topic and a reference the markup parser rejects: the story of
    the full report cannot be written, and the simple report is built, once,
    under the whole sanitized topic, 60 characters long. *)
Lemma long_name_from_second_attempt :
  exists story w',
    generate_pdf strict_markup (repeat (Latin "a"%char) 60) (py "Some text.")
      None [a_document (py "<b>unclosed")] None world0
    = (Ok (report_name (repeat (Latin "a"%char) 60) (py "20240101_120000")),
       w')
    /\ calls w'
       = [CallBuild
            (report_name (repeat (Latin "a"%char) 60) (py "20240101_120000"))
            story;
          CallMakedirs (py "outputs"); CallMakedirs (py "outputs")].
Proof. eexists. eexists. vm_compute. split; reflexivity. Qed.

(** X18.  In the reference list a document's snippet is shown without '#'
    and cut to 150 characters followed by "...": at most 153 characters of
    it appear, however long the search stage left it.  The entry is one
    paragraph in the normal style around the snippet shown, and its spacer;
    the entry raises exactly when the markup parser rejects that
    paragraph. *)
Theorem reference_snippet_is_cut (env : Env) (i : nat) (doc : Document) :
  reference_source env i doc
  = construct_all env
      [Paragraph (reference_text i doc (shown_snippet doc)) style_normal;
       Spacer 1 12]
  /\ length (shown_snippet doc) <= 153
  /\ (length (strip_markdown (doc_snippet doc)) <= 150 ->
      shown_snippet doc = strip_markdown (doc_snippet doc))
  /\ ~ In hash (shown_snippet doc).
Proof.
  split; [reflexivity|].
  assert (Hhash : ~ In hash (strip_markdown (doc_snippet doc))).
  { unfold strip_markdown. intro Hc.
    destruct (sub_headers_from_In _ _ _ Hc) as [_ Hh].
    unfold chr_eqb in Hh. rewrite N.eqb_refl in Hh. discriminate. }
  unfold shown_snippet.
  destruct (Nat.ltb_spec 150 (length (strip_markdown (doc_snippet doc))))
    as [Hlong | Hshort].
  - split; [|split].
    + rewrite length_app.
      pose proof (firstn_le_length 150 (strip_markdown (doc_snippet doc))).
      change (length (py "...")) with 3. lia.
    + intro. lia.
    + intro Hc. apply in_app_or in Hc. destruct Hc as [Hc | Hc].
      * apply Hhash. now apply firstn_In in Hc.
      * vm_compute in Hc. decompose [or] Hc; try discriminate; assumption.
  - split; [lia|]. split; [reflexivity | exact Hhash].
Qed.

(** ** main.py: what a run leaves behind *)

Lemma validator_agent_update (state : ResearchState) :
  validator_agent state
  = mkState None None None (validation_result (validator_agent state))
            None None None.
Proof. reflexivity. Qed.

(** X19.  A run with fuel for its five nodes ends in END with all seven
    fields of the state set, and the fields agree with each other: the
    validation and the report count the documents found, the report's key
    findings are the themes of the analysis and its summary length that of
    the summary; the report says "good" (and scores "High") exactly when at
    least 3 documents were found, never "error"; and no document was found
    exactly when the topic is blank. *)
Theorem run_final_state (env : Env) (fuel : nat) (topic : str) (w : World) :
  5 <= fuel ->
  exists docs a v text r path w',
    run_research_workflow env fuel topic w
    = (Ok (END, mkState (Some topic) (Some docs) (Some a) (Some v)
                        (Some text) (Some r) (Some path)), w')
    /\ source_count v = length docs
    /\ sources_used r = length docs
    /\ theme_count v = length (themes a)
    /\ key_findings r = themes a
    /\ summary_length r = length text
    /\ report_title r = py "Research Report: " ++ topic
    /\ (validation_status r = py "good" <-> 3 <= length docs)
    /\ (validation_status r = py "poor" <-> length docs < 3)
    /\ (validation_score r = Some (py "High") <-> 3 <= length docs)
    /\ report_error r = None
    /\ (docs = [] <-> strip topic = []).
Proof.
  intro Hfuel.
  destruct (workflow_run env fuel topic w Hfuel)
    as (docs & text & path & w1 & w2 & w3 & Hs & _ & _ & Hrun).
  pose proof (search_agent_returns env (state_with_topic topic) w) as Hret.
  assert (Hblank : docs = [] <-> strip topic = []).
  { revert Hs. unfold search_agent.
    cbn [state_with_topic topic_query get].
    destruct (strip topic) as [|c q] eqn:Hq; cbn [truthy negb].
    - unfold ret, documents_update. intros [= <- _]. tauto.
    - unfold bind at 1.
      destruct (tavily_search_returns env (c :: q) 5 w) as (ds & w0 & Hd).
      rewrite Hd. unfold ret, documents_update. intros [= <- _].
      pose proof (tavily_search_nonempty _ _ _ _ _ _ Hd) as Hne.
      split; [contradiction | discriminate]. }
  revert Hrun. unfold after_format, after_summarize, after_validate,
    after_analyze.
  destruct (analyze_agent_update (after_search topic docs)) as [a ->].
  rewrite validator_agent_update, validator_agent_result.
  cbn. intro Hrun.
  eexists docs, a, _, text, _, path, w3.
  split; [exact Hrun|].
  cbn [source_count sources_used theme_count key_findings summary_length
       report_title validation_status validation_score report_error].
  repeat (split; [reflexivity|]).
  destruct (length docs) as [|[|[|d]]]; cbn [Nat.ltb Nat.leb];
    (split; [split; intro H; try discriminate H; try lia; reflexivity|]);
    (split; [split; intro H; try discriminate H; try lia; reflexivity|]);
    (split; [split; intro H; try discriminate H; try lia; reflexivity|]);
    (split; [reflexivity | exact Hblank]).
Qed.

Lemma run_final_state_witness :
  exists docs a v text r path w',
    run_research_workflow services_down 5 (py "quantum computing") world0
    = (Ok (END, mkState (Some (py "quantum computing")) (Some docs) (Some a)
                        (Some v) (Some text) (Some r) (Some path)), w')
    /\ source_count v = length docs
    /\ sources_used r = length docs.
Proof.
  destruct (run_final_state services_down 5 (py "quantum computing") world0
              (Nat.le_refl 5))
    as (docs & a & v & text & r & path & w' & Hrun & Hv & Hr & _).
  exists docs, a, v, text, r, path, w'. split; [exact Hrun|].
  split; assumption.
Defined.

(** ** The services a run calls *)

Section CallFacts.
Variable env : Env.






End CallFacts.



(** ** agents/summarizer_agent.py: what the language model is given *)

Lemma chr_eqb_refl (c : pychar) : chr_eqb c c = true.
Proof. unfold chr_eqb. apply N.eqb_refl. Qed.

Lemma startswith_prefix (p b : str) : startswith (p ++ b) p = true.
Proof.
  induction p as [|c p IH]; cbn [app startswith]; [now destruct b|].
  now rewrite chr_eqb_refl, IH.
Qed.

Lemma contains_prefix (p b : str) : contains (p ++ b) p = true.
Proof.
  destruct (p ++ b) eqn:E; cbn [contains]; rewrite <- E;
    now rewrite startswith_prefix.
Qed.

Lemma contains_after (a s p : str) :
  contains s p = true -> contains (a ++ s) p = true.
Proof.
  intro H. induction a as [|c a IH]; cbn [app contains]; [exact H|].
  rewrite IH. apply orb_true_r.
Qed.

Lemma contains_inside (a p b : str) : contains (a ++ p ++ b) p = true.
Proof. apply contains_after, contains_prefix. Qed.

Lemma join_In (sep x : str) (pieces : list str) :
  In x pieces -> exists a b, join sep pieces = a ++ x ++ b.
Proof.
  induction pieces as [|p rest IH]; [intros []|].
  intros [-> | Hin].
  - exists []. destruct rest as [|q rest]; cbn [join app].
    + exists []. now rewrite app_nil_r.
    + eexists. reflexivity.
  - destruct (IH Hin) as (a & b & E).
    destruct rest as [|q rest]; [destruct Hin|].
    exists (p ++ sep ++ a), b. cbn [join] in *. rewrite E.
    now rewrite !app_assoc.
Qed.

(** X21.  The summarizer calls the language model once, with the topic and
    a text that contains, for every document, its title and raw content, and
    that ends with the request for a concise summary.  It never raises: the
    summary is the model's answer stripped of surrounding white space, or,
    when the call raised, a fixed error text that names the topic. *)
Theorem summarizer_prompt_and_summary (env : Env) (state : ResearchState)
    (w : World) :
  let topic := get (topic_query state) [] in
  let docs := get (raw_documents state) [] in
  exists text summary w',
    summarizer_agent env state w = (Ok (summary_update summary), w')
    /\ calls w' = CallLLM topic text :: calls w
    /\ (forall d, In d docs -> contains text (prompt_entry d) = true)
    /\ (exists before, text = before ++ [nl; nl] ++ prompt_request)
    /\ (forall content,
          llm_invoke env topic text = Ok content -> summary = strip content)
    /\ (forall e,
          llm_invoke env topic text = Raise e ->
          summary
          = py "Topic: " ++ topic ++ [nl]
            ++ py "Error generating structured summary. Please check your API configuration or input.").
Proof.
  intros topic docs.
  exists (join [nl; nl] (map prompt_entry docs) ++ [nl; nl] ++ prompt_request).
  unfold summarizer_agent, bind, try_except, call, ret, summary_update.
  fold topic. fold docs. fold prompt_request.
  change (fun d : Document =>
            py "Title: " ++ doc_title d ++ [nl] ++ py "Content: "
               ++ doc_raw_content d) with prompt_entry.
  assert (Hentries : forall d, In d docs ->
             contains (join [nl; nl] (map prompt_entry docs)
                         ++ [nl; nl] ++ prompt_request)
                      (prompt_entry d) = true).
  { intros d Hd.
    destruct (join_In [nl; nl] (prompt_entry d) (map prompt_entry docs)
                (in_map prompt_entry docs d Hd)) as (a & b & ->).
    rewrite <- !app_assoc. apply contains_inside. }
  destruct (llm_invoke env topic _) as [content|e] eqn:Hllm.
  - eexists. eexists. split; [reflexivity|]. split; [reflexivity|].
    split; [exact Hentries|]. split; [eexists; reflexivity|].
    split; [intros c [= <-]; reflexivity | intros e' [=]].
  - eexists. eexists. split; [reflexivity|]. split; [reflexivity|].
    split; [exact Hentries|]. split; [eexists; reflexivity|].
    split; [intros c [=] | intros e' _; reflexivity].
Qed.

(** ** utils/pdf_utils.py: the layout of a section *)

Lemma join_chars (sep : str) (pieces : list str) (c : pychar) :
  In c (join sep pieces) ->
  In c sep \/ exists piece, In piece pieces /\ In c piece.
Proof.
  induction pieces as [|p rest IH]; [intros []|].
  destruct rest as [|q rest].
  - cbn [join]. intro H. right. exists p. split; [now left | exact H].
  - cbn [join] in *. intro H. apply in_app_or in H. destruct H as [H | H].
    + right. exists p. split; [now left | exact H].
    + apply in_app_or in H. destruct H as [H | H]; [now left|].
      destruct (IH H) as [Hs | (piece & Hp & Hc)]; [now left|].
      right. exists piece. split; [now right | exact Hc].
Qed.

Lemma one_line_text (text : str) :
  ~ In nl text -> split_char nl text = [text].
Proof.
  intro H. apply split_char_last.
  induction text as [|c text IH]; cbn [filter]; [reflexivity|].
  destruct (chr_eqb c nl) eqn:E.
  - exfalso. apply H. left. now apply chr_eqb_eq.
  - apply IH. intro Hin. apply H. now right.
Qed.

Lemma extract_line_one (raw_line : str) : length (extract_line raw_line) <= 1.
Proof.
  unfold extract_line.
  destruct (is_bullet_line _); [destruct (truthy _)|]; cbn; lia.
Qed.

Lemma section_content_lines (summary : str) (sec : SectionDict) (line : str) :
  In sec (clean_summary_text summary) -> In line (sec_content sec) ->
  In line (body_lines summary).
Proof.
  intros Hsec Hline. rewrite <- section_lines_are_body_lines.
  apply in_flat_map. exists sec. split; [exact Hsec|].
  unfold section_lines. apply in_or_app. now right.
Qed.

Lemma body_paragraphs_app (l1 l2 : list Flowable) :
  body_paragraphs (l1 ++ l2) = body_paragraphs l1 ++ body_paragraphs l2.
Proof. unfold body_paragraphs. apply filter_app. Qed.

(** Lines without a line feed, joined by spaces, are one line. *)
Lemma joined_lines_one_line (lines : list str) :
  (forall line, In line lines -> ~ In nl line) ->
  split_char nl (join (py " ") lines) = [join (py " ") lines].
Proof.
  intro H. apply one_line_text. intro Hc.
  destruct (join_chars _ _ _ Hc) as [Hsep | (line & Hline & Hin)].
  - vm_compute in Hsep. destruct Hsep as [E | []]. discriminate.
  - exact (H line Hline Hin).
Qed.

Section SectionLayout.
Variable env : Env.

(** Heading, body and closing spacer of a section are one run of
    constructors. *)
Lemma construct_section (heading body : list Flowable) :
  (h <~ construct_all env heading ;;
   b <~ construct_all env body ;;
   Ok (h ++ b ++ [Spacer 1 10]))
  = construct_all env (heading ++ body ++ [Spacer 1 10]).
Proof.
  rewrite !construct_all_app. cbn [construct_all construct and_then].
  destruct (construct_all env heading); cbn [and_then]; [|reflexivity].
  destruct (construct_all env body); reflexivity.
Qed.

(** The body of a section whose joined content is one line: the bullet
    found on the line, or else the line as prose. *)
Lemma section_body_asks (text : str) :
  split_char nl text = [text] ->
  (if truthy (extract_bullet_content text)
   then for_each (extract_bullet_content text) (fun bullet =>
          construct_all env
            [Paragraph (bullet_text ++ bullet) style_bullet; Spacer 1 2])
   else
     paragraphs <~ format_bullet_points env text ;;
     Ok (flat_map (fun para => [para; Spacer 1 3]) paragraphs))
  = construct_all env (section_body text)
  /\ length (extract_bullet_content text) <= 1
  /\ length (body_paragraphs (section_body text)) <= 1.
Proof.
  intro Hone.
  unfold section_body, extract_bullet_content, format_bullet_points.
  rewrite Hone. cbn [flat_map for_each].
  pose proof (extract_line_one text) as He.
  destruct (format_line_asks env text) as (ps & Hf & _ & _ & Hlen & Hprose).
  destruct (extract_line text) as [|b [|b' bs]];
    cbn [length truthy app] in *; [| |lia].
  - specialize (Hprose eq_refl). subst ps.
    split; [|split; [lia|]].
    + rewrite Hf. unfold prose_paragraph.
      destruct (truthy _ && negb _);
        cbn [firstn construct_all construct and_then flat_map app].
      * destruct (paragraph env _ _); reflexivity.
      * reflexivity.
    + unfold prose_paragraph. destruct (truthy _ && negb _); cbn; lia.
  - split; [|split; [lia | cbn; lia]].
    cbn [for_each and_then app flat_map].
    match goal with
    | |- and_then ?m _ = _ =>
        transitivity m; [|reflexivity];
        destruct m; cbn [and_then]; [now rewrite app_nil_r | reflexivity]
    end.
Qed.

(** The flowables a section asks for when its joined content is one
    line. *)
Lemma render_section_asks (sec : SectionDict) :
  split_char nl (join (py " ") (sec_content sec))
  = [join (py " ") (sec_content sec)] ->
  exists heading,
    render_section env sec
    = (if truthy (strip (sec_title sec))
          && contains (lower (clean_title_of (strip (sec_title sec))))
                      (py "research summary")
          && (get (sec_number sec) 0 =? 1)
       then Ok []
       else construct_all env
              (heading
               ++ (if truthy (sec_content sec)
                   then section_body (join (py " ") (sec_content sec))
                   else [])
               ++ [Spacer 1 10]))
    /\ body_paragraphs heading = []
    /\ (truthy (strip (sec_title sec)) = false -> heading = []).
Proof.
  intro Hjoin. unfold render_section.
  destruct (section_body_asks _ Hjoin) as (Hbody & _).
  rewrite Hbody.
  match goal with
  | |- context [and_then (if ?t then construct_all env ?items else Ok [])] =>
      replace (if t then construct_all env items else Ok [])
        with (construct_all env (if t then items else []))
        by (destruct t; reflexivity);
      exists (if t then items else [])
  end.
  replace (if truthy (sec_content sec)
           then construct_all env
                  (section_body (join (py " ") (sec_content sec)))
           else Ok [])
    with (construct_all env
            (if truthy (sec_content sec)
             then section_body (join (py " ") (sec_content sec)) else []))
    by (destruct (truthy (sec_content sec)); reflexivity).
  rewrite construct_section.
  split; [reflexivity|].
  destruct (truthy (strip (sec_title sec))); split;
    try reflexivity; discriminate.
Qed.

End SectionLayout.

(** X24.  However many content lines a section has, it asks for at most
    one paragraph or bullet of body: the lines are joined with spaces into
    one line before bullets and paragraphs are looked for line by line.  So
    the flowables of a section that is laid out hold at most one such
    paragraph; and a section that raises does so on one of the paragraphs
    asked for. *)
Theorem section_body_is_one_paragraph (env : Env) (summary : str)
    (sec : SectionDict) :
  In sec (clean_summary_text summary) ->
  exists asked,
    render_section env sec = construct_all env asked
    /\ length (body_paragraphs asked) <= 1
    /\ match render_section env sec with
       | Ok flowables => flowables = asked
       | Raise e => exists text style,
                      In (Paragraph text style) asked
                      /\ paragraph env text style = Raise e
       end.
Proof.
  intro Hsec.
  assert (Hjoin : split_char nl (join (py " ") (sec_content sec))
                  = [join (py " ") (sec_content sec)]).
  { apply joined_lines_one_line. intros line Hline Hin.
    pose proof (section_content_lines _ _ _ Hsec Hline) as Hbody.
    destruct (body_line_clean _ _ Hbody) as (_ & _ & Hnl). contradiction. }
  assert (H : exists asked,
             render_section env sec = construct_all env asked
             /\ length (body_paragraphs asked) <= 1).
  { destruct (render_section_asks env sec Hjoin) as (heading & -> & Hh & _).
    destruct (truthy (strip (sec_title sec)) && contains _ _ && _).
    { exists []. split; [reflexivity | cbn; lia]. }
    eexists. split; [reflexivity|].
    rewrite !body_paragraphs_app, !length_app, Hh.
    destruct (section_body_asks env _ Hjoin) as (_ & _ & Hlen).
    destruct (truthy (sec_content sec));
      cbn [body_paragraphs filter length Nat.add]; lia. }
  destruct H as (asked & H0 & H1).
  exists asked. split; [exact H0|]. split; [exact H1|].
  rewrite H0. apply construct_all_cases.
Qed.

Lemma section_body_is_one_paragraph_witness :
  clean_summary_text three_lines_input
  = [mkSection (py "Findings")
               [py "First line."; py "Second line."; py "Third line."]
               (py "Findings") (Some 1)]
  /\ exists asked,
       render_section strict_markup
         (mkSection (py "Findings")
            [py "First line."; py "Second line."; py "Third line."]
            (py "Findings") (Some 1))
       = construct_all strict_markup asked
       /\ length (body_paragraphs asked) <= 1.
Proof.
  split; [vm_compute; reflexivity|].
  destruct (section_body_is_one_paragraph strict_markup three_lines_input
              (mkSection (py "Findings")
                 [py "First line."; py "Second line."; py "Third line."]
                 (py "Findings") (Some 1)))
    as (asked & H0 & H1 & _).
  - vm_compute. left. reflexivity.
  - exists asked. split; assumption.
Defined.


(** *** Narratives without headers *)






(** *** Section titles *)

Lemma collapse_spaces_single (s : str) :
  forall in_run,
    single_spaced (collapse_spaces_from in_run s)
    /\ (in_run = true ->
        match collapse_spaces_from in_run s with
        | d :: _ => isspace d = false
        | [] => True
        end).
Proof.
  induction s as [|c s IH]; intro in_run; cbn [collapse_spaces_from].
  - split; [exact I | trivial].
  - destruct (isspace c) eqn:Ec.
    + destruct in_run.
      * exact (IH true).
      * split; [|discriminate]. cbn [single_spaced].
        split; [|exact (proj1 (IH true))].
        intros _. split; [reflexivity | exact (proj2 (IH true) eq_refl)].
    + split; [|intros _; exact Ec]. cbn [single_spaced].
      split; [congruence | exact (proj1 (IH false))].
Qed.

Lemma single_spaced_suffix (a s : str) :
  single_spaced (a ++ s) -> single_spaced s.
Proof.
  induction a as [|c a IH]; cbn [app single_spaced]; [trivial|].
  intros [_ H]. now apply IH.
Qed.

Lemma single_spaced_prefix (s b : str) :
  single_spaced (s ++ b) -> single_spaced s.
Proof.
  induction s as [|c s IH]; cbn [app single_spaced]; [trivial|].
  intros [Hc H]. split; [|now apply IH].
  intro Hs. destruct (Hc Hs) as [-> Hnext]. split; [reflexivity|].
  destruct s; [exact I | exact Hnext].
Qed.

Lemma lstrip_suffix (s : str) : exists a, s = a ++ lstrip s.
Proof.
  induction s as [|c s (a & IH)]; cbn [lstrip]; [now exists []|].
  destruct (isspace c); [|now exists []].
  exists (c :: a). cbn [app]. now f_equal.
Qed.

Lemma rstrip_prefix (s : str) : exists b, s = rstrip s ++ b.
Proof.
  unfold rstrip. destruct (lstrip_suffix (rev s)) as (a & Ha).
  exists (rev a). rewrite <- rev_app_distr, <- Ha. now rewrite rev_involutive.
Qed.

Lemma lstrip_head (s : str) (c : pychar) (rest : str) :
  lstrip s = c :: rest -> isspace c = false.
Proof.
  induction s as [|d s IH]; cbn [lstrip]; [discriminate|].
  destruct (isspace d) eqn:Ed; [exact IH|]. now intros [= <- _].
Qed.

Lemma strip_head (s : str) (c : pychar) (rest : str) :
  strip s = c :: rest -> isspace c = false.
Proof.
  unfold strip. intro H.
  destruct (rstrip_prefix (lstrip s)) as (b & Hb). rewrite H in Hb.
  exact (lstrip_head s c _ Hb).
Qed.

Lemma strip_last (s front : str) (c : pychar) :
  strip s = front ++ [c] -> isspace c = false.
Proof.
  unfold strip, rstrip. intro H.
  apply (f_equal (@rev pychar)) in H.
  rewrite rev_involutive, rev_app_distr in H. cbn [rev app] in H.
  exact (lstrip_head _ _ _ H).
Qed.

(** X22.  A cleaned section title has no white space at either end, and
    inside it every run of white space has become one plain space. *)
Theorem clean_title_is_normalized (title : str) :
  (forall c rest, clean_title_of title = c :: rest -> isspace c = false)
  /\ (forall front c, clean_title_of title = front ++ [c] ->
                      isspace c = false)
  /\ single_spaced (clean_title_of title).
Proof.
  unfold clean_title_of.
  split; [intros c rest; apply strip_head|].
  split; [intros front c; apply strip_last|].
  unfold strip.
  destruct (rstrip_prefix
              (lstrip (collapse_spaces (sub_leading_number title))))
    as (b & Hb).
  destruct (lstrip_suffix (collapse_spaces (sub_leading_number title)))
    as (a & Ha).
  apply (single_spaced_prefix _ b). rewrite <- Hb.
  apply (single_spaced_suffix a). rewrite <- Ha.
  exact (proj1 (collapse_spaces_single _ false)).
Qed.

(** ** How analyzer and validator count the sources *)

(** X23.  The analyzer counts the documents only when at least one of them
    has a text: then "num_sources" is the number of documents, as the
    validator's "source_count" computed on the updated state; when no
    document has a text it is 0, so the two counts differ as soon as there
    is a document. *)
Theorem source_counts_compared (state : ResearchState) :
  let docs := get (raw_documents state) [] in
  exists a v,
    analysis_result (analyze_agent state) = Some a
    /\ validation_result
         (validator_agent (merge state (analyze_agent state))) = Some v
    /\ source_count v = length docs
    /\ ((exists d, In d docs /\ doc_raw_content d <> []) ->
        num_sources a = length docs /\ summary a = None)
    /\ ((forall d, In d docs -> doc_raw_content d = []) ->
        num_sources a = 0
        /\ summary a = Some (py "No content to analyze")
        /\ content_quality a = None).
Proof.
  intro docs.
  assert (Hdocs : get (raw_documents (merge state (analyze_agent state))) []
                  = docs).
  { destruct (analyze_agent_update state) as [a ->]. reflexivity. }
  rewrite validator_agent_result, Hdocs.
  unfold analyze_agent. fold docs.
  destruct (filter (fun d => truthy (doc_raw_content d)) docs)
    as [|d0 ds] eqn:Hf; cbn [map truthy negb].
  - eexists. eexists. split; [reflexivity|]. split; [reflexivity|].
    split; [reflexivity|]. split; [|intros _; repeat split].
    intros (d & Hd & Hne). exfalso.
    assert (Hin : In d (filter (fun d => truthy (doc_raw_content d)) docs)).
    { apply filter_In. split; [exact Hd|].
      destruct (doc_raw_content d); [congruence | reflexivity]. }
    rewrite Hf in Hin. destruct Hin.
  - eexists. eexists. split; [reflexivity|]. split; [reflexivity|].
    split; [reflexivity|]. split; [intros _; split; reflexivity|].
    intro Hall. exfalso.
    assert (Hin : In d0 (filter (fun d => truthy (doc_raw_content d)) docs))
      by (rewrite Hf; now left).
    apply filter_In in Hin. destruct Hin as [Hin Ht].
    rewrite (Hall d0 Hin) in Ht. discriminate.
Qed.

Lemma source_counts_compared_witness :
  exists a v,
    analysis_result (analyze_agent half_empty_state) = Some a
    /\ validation_result
         (validator_agent
            (merge half_empty_state (analyze_agent half_empty_state)))
       = Some v
    /\ source_count v = 2
    /\ num_sources a = 2.
Proof.
  destruct (source_counts_compared half_empty_state)
    as (a & v & Ha & Hv & Hc & Hsome & _).
  exists a, v. split; [exact Ha|]. split; [exact Hv|].
  split; [exact Hc|].
  apply Hsome.
  exists (a_document (py "solar panels store energy; Panels age.")).
  split; [left; reflexivity | discriminate].
Defined.
